(** * Grove: the repository-boundary resolver and the permission gate

    A shallow embedding of [SplitRepository], [CheckPerms] and
    [CheckPermBits] (grove.go) and of [isGit] and the listing loop of
    [MakeDirPage] (webui.go), together with the functions of Go's
    [path] and [strings] packages that they call.

    Around them: the choice of the served directory in [main] and
    [HandleWeb] (grove.go); [MakeDirInfos], the page information and
    the switch of [MakePage], the links of [MakeTreePage], the line
    loop of [MakeFilePage] and the earlier [ShowPath(url, p)]
    (webui.go).

    - Go strings are byte sequences: they are modelled as [list ascii].
    - The filesystem is an oracle [os_Stat : bytes -> option FileInfo],
      [None] standing for a non-nil error. The oracle is any function:
      a directory whose [.git] is seen while its own stat fails is one
      of them.
    - The loop of [SplitRepository] has no bound in the source; it
      takes fuel, one unit for each pass, and the theorems give the
      fuel that is enough.
    - Go's [int] and [uint] are taken as 64 bits wide; the counter of
      the loop wraps around as an [int] does. *)

From Stdlib Require Import Ascii String ZArith Lia Bool Arith List.
Import ListNotations.

Local Open Scope list_scope.

(** ** Byte strings *)

Definition bytes := list ascii.

(** [str "lit"] is the Go string literal ["lit"]. *)
Definition str (s : string) : bytes := list_ascii_of_string s.

Arguments str s%_string.

Definition slash : ascii := "/"%char.
Definition dot : ascii := "."%char.

Definition bytes_eq_dec : forall a b : bytes, {a = b} + {a <> b} :=
  list_eq_dec ascii_dec.

(** Go's [a == b] on strings. *)
Definition bytes_eqb (a b : bytes) : bool :=
  if bytes_eq_dec a b then true else false.

(** ** Package [strings] *)

Module strings.

(** [strings.HasPrefix(s, prefix)] *)
Fixpoint HasPrefix (s prefix : bytes) {struct prefix} : bool :=
  match prefix, s with
  | [], _ => true
  | _ :: _, [] => false
  | c :: prefix', d :: s' => Ascii.eqb c d && HasPrefix s' prefix'
  end.

(** [strings.TrimRight(s, "/")] on the reversed string. *)
Fixpoint trim_left_slash (s : bytes) : bytes :=
  match s with
  | [] => []
  | c :: s' => if Ascii.eqb c slash then trim_left_slash s' else s
  end.

(** [strings.TrimRight(s, "/")]: all trailing slashes removed. *)
Definition TrimRight_slash (s : bytes) : bytes :=
  rev (trim_left_slash (rev s)).

(** [strings.SplitAfterN(s, "/", 2)]: [s] cut after its first slash;
    the one-element slice [[s]] when [s] has no slash. *)
Fixpoint after_first_slash (s : bytes) : option (bytes * bytes) :=
  match s with
  | [] => None
  | c :: s' =>
      if Ascii.eqb c slash then Some ([c], s')
      else match after_first_slash s' with
           | Some (a, b) => Some (c :: a, b)
           | None => None
           end
  end.

Definition SplitAfterN_slash_2 (s : bytes) : list bytes :=
  match after_first_slash s with
  | Some (a, b) => [a; b]
  | None => [s]
  end.

(** [strings.HasSuffix(s, suffix)]:
    [len(s) >= len(suffix) && s[len(s)-len(suffix):] == suffix]. *)
Definition HasSuffix (s suffix : bytes) : bool :=
  (length suffix <=? length s)
  && bytes_eqb (skipn (length s - length suffix) s) suffix.

(** [strings.Index(s, substr)]: the index of the first instance of
    [substr] in [s], [-1] if there is none. *)
Fixpoint Index_from (i : Z) (s substr : bytes) {struct s} : Z :=
  match s with
  | [] => if HasPrefix [] substr then i else (-1)%Z
  | _ :: s' => if HasPrefix s substr then i else Index_from (i + 1) s' substr
  end.

Definition Index (s substr : bytes) : Z := Index_from 0 s substr.

(** [strings.Contains(s, substr)] is [Index(s, substr) >= 0]. *)
Definition Contains (s substr : bytes) : bool := (0 <=? Index s substr)%Z.

(** [strings.Count(s, substr)] for a non-empty [substr] (the code
    passes ["\n"]): the instances are counted from the left, each
    search resuming behind the instance found. A search consumes at
    least one byte, so [length s] rounds are enough. *)
Fixpoint Count_loop (fuel : nat) (s substr : bytes) : nat :=
  match fuel with
  | O => 0
  | S fuel' =>
      let i := Index s substr in
      if (i =? -1)%Z then 0
      else S (Count_loop fuel' (skipn (Z.to_nat i + length substr) s) substr)
  end.

Definition Count (s substr : bytes) : nat := Count_loop (length s) s substr.

(** [strings.SplitAfter(s, sep)] for a non-empty [sep] (the code passes
    [".git/"] and ["\n"]): [genSplit(s, sep, len(sep), -1)], whose loop
    runs at most [Count(s, sep)] times, cutting behind each instance
    found, and ends with the rest. *)
Fixpoint genSplit_loop (n : nat) (s sep : bytes) : list bytes :=
  match n with
  | O => [s]
  | S n' =>
      let m := Index s sep in
      if (m <? 0)%Z then [s]
      else firstn (Z.to_nat m + length sep) s
           :: genSplit_loop n' (skipn (Z.to_nat m + length sep) s) sep
  end.

Definition SplitAfter (s sep : bytes) : list bytes :=
  genSplit_loop (Count s sep) s sep.

(** [strings.TrimLeft(s, ".")] *)
Fixpoint TrimLeft_dot (s : bytes) : bytes :=
  match s with
  | c :: s' => if Ascii.eqb c dot then TrimLeft_dot s' else s
  | [] => []
  end.

End strings.

(** ** Package [path] *)

Module path.

(** [lastSlash(s)]: the index of the last slash of [s], [-1] if none. *)
Fixpoint lastSlash_from (i : Z) (last : Z) (s : bytes) : Z :=
  match s with
  | [] => last
  | c :: s' => lastSlash_from (i + 1) (if Ascii.eqb c slash then i else last) s'
  end.

Definition lastSlash (s : bytes) : Z := lastSlash_from 0 (-1) s.

(** [path.IsAbs] *)
Definition IsAbs (p : bytes) : bool :=
  match p with
  | c :: _ => Ascii.eqb c slash
  | [] => false
  end.

(** The [..] case of [Clean] when [out.w > dotdot]:
    [out.w--; for out.w > dotdot && out.index(out.w) != '/' { out.w-- }].
    The buffer is held reversed, [removed] is the byte at index
    [out.w], the one dropped last. *)
Fixpoint backtrack_loop (removed : ascii) (rout : bytes) (dotdot : nat) : bytes :=
  match rout with
  | [] => []
  | c :: rout' =>
      if (dotdot <? length rout) && negb (Ascii.eqb removed slash)
      then backtrack_loop c rout' dotdot
      else rout
  end.

Definition backtrack (out : bytes) (dotdot : nat) : bytes :=
  match rev out with
  | [] => []
  | c :: rout => rev (backtrack_loop c rout dotdot)
  end.

(** Is the input at an element boundary: [r == n || path[r] == '/']. *)
Definition at_end_or_slash (rest : bytes) : bool :=
  match rest with
  | [] => true
  | c :: _ => Ascii.eqb c slash
  end.

(** The main loop of [Clean]. [rest] is [path[r:]], [out] the bytes
    written so far ([out.w] is its length). A real path element is
    copied by the inner [copy]; the slash that ends it is consumed
    there (the source leaves it to the next turn of the loop, whose
    first case skips it). *)
Fixpoint Clean_loop (rooted : bool) (rest out : bytes) (dotdot : nat)
  {struct rest} : bytes :=
  match rest with
  | [] => out
  | c :: rest1 =>
      if Ascii.eqb c slash then
        (* empty path element *)
        Clean_loop rooted rest1 out dotdot
      else if Ascii.eqb c dot && at_end_or_slash rest1 then
        (* . element *)
        Clean_loop rooted rest1 out dotdot
      else
        match rest1 with
        | c1 :: rest2 =>
            if Ascii.eqb c dot && Ascii.eqb c1 dot && at_end_or_slash rest2 then
              (* .. element: remove to last / *)
              if dotdot <? length out then
                Clean_loop rooted rest2 (backtrack out dotdot) dotdot
              else if negb rooted then
                let out1 := if 0 <? length out then out ++ [slash] else out in
                let out2 := out1 ++ [dot; dot] in
                Clean_loop rooted rest2 out2 (length out2)
              else Clean_loop rooted rest2 out dotdot
            else
              let out1 :=
                if (rooted && negb (length out =? 1))
                   || (negb rooted && negb (length out =? 0))
                then out ++ [slash] else out in
              (fix copy (p o : bytes) {struct p} : bytes :=
                 match p with
                 | [] => o
                 | d :: p' =>
                     if Ascii.eqb d slash then Clean_loop rooted p' o dotdot
                     else copy p' (o ++ [d])
                 end) rest1 (out1 ++ [c])
        | [] =>
            let out1 :=
              if (rooted && negb (length out =? 1))
                 || (negb rooted && negb (length out =? 0))
              then out ++ [slash] else out in
            out1 ++ [c]
        end
  end.

(** [path.Clean] *)
Definition Clean (p : bytes) : bytes :=
  match p with
  | [] => [dot]
  | c :: rest =>
      let rooted := Ascii.eqb c slash in
      let out :=
        if rooted then Clean_loop true rest [slash] 1
        else Clean_loop false p [] 0 in
      match out with
      | [] => [dot]
      | _ => out
      end
  end.

(** [path.Split]: [path[:i+1], path[i+1:]] with [i := lastSlash(path)]. *)
Definition Split (p : bytes) : bytes * bytes :=
  let i := lastSlash p in
  (firstn (Z.to_nat (i + 1)) p, skipn (Z.to_nat (i + 1)) p).

(** [path.Dir] *)
Definition Dir (p : bytes) : bytes := Clean (fst (Split p)).

(** [path.Base] *)
Definition Base (p : bytes) : bytes :=
  match p with
  | [] => [dot]
  | _ =>
      let p1 := strings.TrimRight_slash p in
      let i := lastSlash p1 in
      let p2 := if (0 <=? i)%Z then skipn (Z.to_nat (i + 1)) p1 else p1 in
      match p2 with
      | [] => [slash]
      | _ => p2
      end
  end.

(** [path.Join]: empty elements are ignored until the buffer holds
    something, the others are joined with slashes, and the result is
    cleaned; the empty string when every element is empty. *)
Fixpoint Join_buf (buf : bytes) (elem : list bytes) : bytes :=
  match elem with
  | [] => buf
  | e :: elem' =>
      if (0 <? length buf) || negb (bytes_eqb e [])
      then Join_buf ((if 0 <? length buf then buf ++ [slash] else buf) ++ e) elem'
      else Join_buf buf elem'
  end.

Definition Join (elem : list bytes) : bytes :=
  if fold_left (fun size e => size + length e) elem 0 =? 0 then []
  else Clean (Join_buf [] elem).

(** [path.Ext]: the suffix of [p] from the last dot of its last
    element on, the empty string when that element has no dot. The
    source walks from the end of [p] to the first slash. *)
Fixpoint Ext_loop (before after : bytes) : bytes :=
  match before with
  | [] => []
  | c :: before' =>
      if Ascii.eqb c slash then []
      else if Ascii.eqb c dot then c :: after
      else Ext_loop before' (c :: after)
  end.

Definition Ext (p : bytes) : bytes := Ext_loop (rev p) [].

End path.

(** ** Package [os] *)

(** What the program reads of an [os.FileInfo]: [Name()], [IsDir()] and
    [Mode()] (an [os.FileMode], 32 bits). *)
Record FileInfo : Type := mkFileInfo {
  Name : bytes;
  IsDir : bool;
  Mode : Z
}.

(** [os.ModePerm] is [0777]; [FileMode.Perm] keeps those bits. *)
Definition ModePerm : Z := 511.
Definition Perm (m : Z) : Z := Z.land m ModePerm.

(** ** Package [net/http]: the status codes used *)

Definition StatusOK : Z := 200.
Definition StatusForbidden : Z := 403.
Definition StatusNotFound : Z := 404.
Definition StatusInternalServerError : Z := 500.

(** ** grove.go *)

(** The named results of [SplitRepository]. *)
Record result : Type := mkResult {
  repository : bytes;
  file : bytes;
  isFile : bool;
  status : Z
}.

(** A call either returns its results or panics at run time (an index
    out of range). *)
Inductive outcome : Type :=
| Returned (r : result)
| Panicked.

(** A navigation or entry link of a directory page ([dirList] of
    webui.go; [Link] and [Query] stay empty in the code modelled). *)
Record dirList : Type := mkDirList {
  dl_URL : bytes;
  dl_Name : bytes
}.

(** Go's [int] and [uint] are taken as 64 bits wide. *)
Definition wrap_int (x : Z) : Z := (x + 2 ^ 63) mod 2 ^ 64 - 2 ^ 63.
Definition wrap_uint (x : Z) : Z := x mod 2 ^ 64.
Definition wrap_uint32 (x : Z) : Z := x mod 2 ^ 32.

Section Grove.

(** The global [Perms] (a [uint]): 0 other, 1 group, 2 owner. *)
Variable Perms : Z.

(** [os.Stat]: [Some info] when [err == nil]. *)
Variable os_Stat : bytes -> option FileInfo.

(** [CheckPermBits]:
    [info.Mode().Perm()&os.FileMode((permBits<<(Perms*3))) > 0]. *)
Definition CheckPermBits (info : FileInfo) : bool :=
  let permBits := (if IsDir info then 5 else 4)%Z in
  (0 <? Z.land (Perm (Mode info))
               (wrap_uint32 (Z.shiftl permBits (wrap_uint (Perms * 3)%Z))))%Z.

(** [CheckPerms] *)
Definition CheckPerms (info : FileInfo) : bool :=
  if strings.HasPrefix (Name info) (str ".") then false
  else CheckPermBits info.

(** Lines 240-264 of [SplitRepository]: the prefix of [file] decides
    between a file view, a directory view and 404. *)
Definition split_prefix (repository file : bytes) : outcome :=
  if negb (length file =? 0) then
    let file := file ++ str "/" in
    if strings.HasPrefix file (str "blob/") then
      match nth_error (strings.SplitAfterN_slash_2 file) 1 with
      | Some file =>
          Returned (mkResult repository (strings.TrimRight_slash file)
                             true StatusOK)
      | None => Panicked
      end
    else if strings.HasPrefix file (str "tree/") then
      match nth_error (strings.SplitAfterN_slash_2 file) 1 with
      | Some file =>
          let file := if length file =? 0 then str "./" else file in
          Returned (mkResult repository file false StatusOK)
      | None => Panicked
      end
    else Returned (mkResult repository file false StatusNotFound)
  else Returned (mkResult repository file false StatusOK).

(** Lines 223-264: a [.git] was found under [repository]. *)
Definition check_repository (repository file : bytes) : outcome :=
  match os_Stat repository with
  | None => Returned (mkResult repository file false StatusInternalServerError)
  | Some fi =>
      if negb (CheckPerms fi)
      then Returned (mkResult repository file false StatusForbidden)
      else split_prefix repository file
  end.

(** The [for] loop of [SplitRepository]. Each pass uses one unit of
    [fuel]; [None] is a loop still running when the fuel is spent.
    The counter [i] is returned with the outcome. *)
Fixpoint SplitRepository_loop (fuel : nat) (toplevel : bytes) (i : Z)
  (repository file : bytes) : option (outcome * Z) :=
  match fuel with
  | O => None
  | S fuel' =>
      let file' :=
        if negb (i =? 0)%Z then path.Join [path.Base repository; file]
        else file in
      let repository' :=
        if negb (i =? 0)%Z then path.Dir repository else repository in
      if bytes_eqb repository' toplevel then
        Some (Returned (mkResult (path.Join [repository'; file']) []
                                 false StatusOK), i)
      else
        match os_Stat (repository' ++ str "/.git") with
        | None =>
            SplitRepository_loop fuel' toplevel (wrap_int (i + 1))
                                 repository' file'
        | Some _ => Some (check_repository repository' file', i)
        end
  end.

(** [SplitRepository(toplevel, p)]; the result of [path.Clean(toplevel)]
    on its first line is discarded. *)
Definition SplitRepository (fuel : nat) (toplevel p : bytes) : option outcome :=
  option_map fst (SplitRepository_loop fuel toplevel 0 p []).

(** webui.go, [MakeDirPage], lines 256-266: the entries of
    [directory] that are listed, [dirnames] being what
    [Readdirnames] returned. *)
Fixpoint MakeDirPage_dirbuf (pageinfo_URL directory : bytes)
  (dirnames : list bytes) : list dirList :=
  match dirnames with
  | [] => []
  | n :: dirnames' =>
      match os_Stat (directory ++ str "/" ++ n) with
      | Some info =>
          if CheckPerms info
          then mkDirList (pageinfo_URL ++ Name info ++ str "/") (Name info)
               :: MakeDirPage_dirbuf pageinfo_URL directory dirnames'
          else MakeDirPage_dirbuf pageinfo_URL directory dirnames'
      | None => MakeDirPage_dirbuf pageinfo_URL directory dirnames'
      end
  end.

(** [pageinfo.List] as [MakeDirPage] leaves it (lines 213-227 and
    267): the two navigation links unless the page is the root
    directory, then the listed entries. *)
Definition MakeDirPage_List (pageinfo_Path pageinfo_URL directory : bytes)
  (dirnames : list bytes) : list dirList :=
  (if negb (bytes_eqb pageinfo_Path [])
   then [mkDirList (str "/") (str "/");
         mkDirList (pageinfo_URL ++ str "../") (str "..")]
   else [])
  ++ MakeDirPage_dirbuf pageinfo_URL directory dirnames.

End Grove.

(** ** webui.go: [isGit] *)

(** [isGit(repository)]: does [path.Join(repository, ".git")] exist;
    the second result is ["/.git"] when it does. *)
Definition isGit (os_Stat : bytes -> option FileInfo) (repository : bytes)
  : bool * bytes :=
  match os_Stat (path.Join [repository; str ".git"]) with
  | Some _ => (true, str "/.git")
  | None => (false, [])
  end.

(** ** Cleaned absolute paths and their elements *)

(** A path element of a cleaned path: not empty, without slash, and
    neither [.] nor [..]. *)
Definition elem_okb (e : bytes) : bool :=
  negb (bytes_eqb e []) && negb (existsb (Ascii.eqb slash) e)
  && negb (bytes_eqb e [dot]) && negb (bytes_eqb e [dot; dot]).

Definition elems_ok (cs : list bytes) : Prop := forallb elem_okb cs = true.

(** The elements joined with slashes: a cleaned relative path
    (the empty string for no element). *)
Fixpoint rel_path (cs : list bytes) : bytes :=
  match cs with
  | [] => []
  | [c] => c
  | c :: cs' => c ++ slash :: rel_path cs'
  end.

(** The cleaned absolute path with the elements [cs]; [/] for none. *)
Definition abs_path (cs : list bytes) : bytes := slash :: rel_path cs.

(** The elements, each followed by a slash. *)
Definition slashed (cs : list bytes) : bytes :=
  concat (map (fun c => c ++ [slash]) cs).

(** ** Paths below a directory *)

(** The path elements of [p]: its maximal slash-free runs. *)
Fixpoint path_elems_from (cur p : bytes) : list bytes :=
  match p with
  | [] => match cur with [] => [] | _ => [cur] end
  | c :: p' =>
      if Ascii.eqb c slash
      then match cur with
           | [] => path_elems_from [] p'
           | _ => cur :: path_elems_from [] p'
           end
      else path_elems_from (cur ++ [c]) p'
  end.

Definition path_elems (p : bytes) : list bytes := path_elems_from [] p.

(** How many elements [p] has more than [toplevel]. *)
Definition depth_below (toplevel p : bytes) : nat :=
  length (path_elems p) - length (path_elems toplevel).

(** The prefix shared by everything below the cleaned directory [d]. *)
Definition dir_prefix (d : bytes) : bytes :=
  if bytes_eqb d [slash] then d else d ++ [slash].

(** [p] is [toplevel] or lies below it (for cleaned absolute paths). *)
Definition is_under (toplevel p : bytes) : bool :=
  bytes_eqb p toplevel || strings.HasPrefix p (dir_prefix toplevel).

(** ** The walk: cursors, suffixes, markers *)

(** The directory [k] elements below the serving root [abs_path rs] on
    the way to the requested path [abs_path (rs ++ ds)], and the rest
    of the requested path below it. *)
Definition cursor (rs ds : list bytes) (k : nat) : bytes :=
  abs_path (rs ++ firstn k ds).

Definition suffix (ds : list bytes) (k : nat) : bytes :=
  rel_path (skipn k ds).

(** Does [dir] hold a [.git] entry: does [os.Stat(dir + "/.git")]
    succeed. The code asks no more of the marker: it does not look at
    what kind of entry [.git] is. *)
Definition has_marker (os_Stat : bytes -> option FileInfo) (dir : bytes) : bool :=
  match os_Stat (dir ++ str "/.git") with
  | Some _ => true
  | None => false
  end.

(** The marker as the specification words it, a [.git]
    subdirectory: [dir] holds a [.git] that is a directory. *)
Definition has_git_subdirectory (os_Stat : bytes -> option FileInfo)
  (dir : bytes) : bool :=
  match os_Stat (dir ++ str "/.git") with
  | Some fi => IsDir fi
  | None => false
  end.

(** One pass of the loop from the test [repository == toplevel] on,
    the cursor being [repository] and the suffix [file]. *)
Definition pass_at_cursor (Perms : Z) (os_Stat : bytes -> option FileInfo)
  (fuel' : nat) (toplevel : bytes) (i : Z)
  (repository file : bytes) : option (outcome * Z) :=
  if bytes_eqb repository toplevel then
    Some (Returned (mkResult (path.Join [repository; file]) []
                             false StatusOK), i)
  else
    match os_Stat (repository ++ str "/.git") with
    | None =>
        SplitRepository_loop Perms os_Stat fuel' toplevel (wrap_int (i + 1))
                             repository file
    | Some _ => Some (check_repository Perms os_Stat repository file, i)
    end.

(** ** The loop of [path.Clean], in parts *)

(** The inner copy loop of [Clean_loop], named. *)
Definition Clean_copy (rooted : bool) (dotdot : nat) : bytes -> bytes -> bytes :=
  fix copy (p o : bytes) {struct p} : bytes :=
    match p with
    | [] => o
    | d :: p' =>
        if Ascii.eqb d slash then path.Clean_loop rooted p' o dotdot
        else copy p' (o ++ [d])
    end.

(** The separator written before a real path element. *)
Definition Clean_sep (rooted : bool) (out : bytes) : bytes :=
  if (rooted && negb (length out =? 1)) || (negb rooted && negb (length out =? 0))
  then out ++ [slash] else out.

(** The output buffer of [Clean] after the elements [pre]. *)
Definition Clean_out (rooted : bool) (pre : list bytes) : bytes :=
  if rooted then abs_path pre else rel_path pre.

Definition Clean_dotdot (rooted : bool) : nat := if rooted then 1 else 0.

(** ** Permission bits *)

(** Does [mode] grant [bit] (2 read, 1 write, 0 execute) to the class
    [class] (0 other, 1 group, 2 owner). *)
Definition grants (mode class bit : Z) : bool :=
  Z.testbit mode (3 * class + bit).

(** What [CheckPermBits] computes, by permission value. *)
Definition gate_table_ok (class x : Z) : bool :=
  Bool.eqb (CheckPermBits class (mkFileInfo [] true x))
           (grants x class 2 || grants x class 0)
  && Bool.eqb (CheckPermBits class (mkFileInfo [] false x)) (grants x class 2).

(** Permission bits from the three octal digits. *)
Definition perm_bits (owner group other : Z) : Z :=
  (owner * 64 + group * 8 + other)%Z.

(** [os.ModeDir], the top bit of a [FileMode]. *)
Definition ModeDir : Z := (2 ^ 31)%Z.

(** ** Concrete filesystems *)

Definition dir_info (name : string) (perm : Z) : FileInfo :=
  mkFileInfo (str name) true (ModeDir + perm).

(** A filesystem given by the table of the paths that exist. *)
Definition stat_table (tbl : list (bytes * FileInfo)) (p : bytes)
  : option FileInfo :=
  option_map snd (find (fun e => bytes_eqb (fst e) p) tbl).

(** Nothing exists. *)
Definition fs_empty : bytes -> option FileInfo := stat_table [].

(** Repositories at [/srv/a] and at [/srv/a/b]. *)
Definition fs_nested : bytes -> option FileInfo :=
  stat_table
    [ (str "/srv/a", dir_info "a" (perm_bits 7 5 5));
      (str "/srv/a/.git", dir_info ".git" (perm_bits 7 5 5));
      (str "/srv/a/b", dir_info "b" (perm_bits 7 5 5));
      (str "/srv/a/b/.git", dir_info ".git" (perm_bits 7 5 5)) ].

(** A repository in the hidden directory [/srv/.dot], mode 0755. *)
Definition fs_hidden : bytes -> option FileInfo :=
  stat_table
    [ (str "/srv/.dot", dir_info ".dot" (perm_bits 7 5 5));
      (str "/srv/.dot/.git", dir_info ".git" (perm_bits 7 5 5)) ].

(** The serving root [/srv] is itself a repository. *)
Definition fs_root_repo : bytes -> option FileInfo :=
  stat_table
    [ (str "/srv", dir_info "srv" (perm_bits 7 5 5));
      (str "/srv/.git", dir_info ".git" (perm_bits 7 5 5)) ].

(** [/srv/a/.git] is seen, but the stat of [/srv/a] fails. *)
Definition fs_vanished : bytes -> option FileInfo :=
  stat_table [ (str "/srv/a/.git", dir_info ".git" (perm_bits 7 5 5)) ].

(** A directory with an ordinary, a hidden and an unreadable entry. *)
Definition fs_listing : bytes -> option FileInfo :=
  stat_table
    [ (str "/srv/pub/notes", dir_info "notes" (perm_bits 7 5 5));
      (str "/srv/pub/.secret", dir_info ".secret" (perm_bits 7 7 7));
      (str "/srv/pub/private", dir_info "private" (perm_bits 7 0 0)) ].

(** A regular file. *)
Definition file_info (name : string) (perm : Z) : FileInfo :=
  mkFileInfo (str name) false perm.

(** [/srv/plain] holds a [.git] that is a regular file, as the
    working tree of a submodule or a linked working tree does. *)
Definition fs_git_file : bytes -> option FileInfo :=
  stat_table
    [ (str "/srv/plain", dir_info "plain" (perm_bits 7 5 5));
      (str "/srv/plain/.git", file_info ".git" (perm_bits 6 4 4)) ].

(** A repository at [/srv/a] with a [.git] directory, and in it the
    directory [/srv/a/b] whose [.git] is a regular file. *)
Definition fs_git_file_nested : bytes -> option FileInfo :=
  stat_table
    [ (str "/srv/a", dir_info "a" (perm_bits 7 5 5));
      (str "/srv/a/.git", dir_info ".git" (perm_bits 7 5 5));
      (str "/srv/a/b", dir_info "b" (perm_bits 7 5 5));
      (str "/srv/a/b/.git", file_info ".git" (perm_bits 6 4 4)) ].

(** What every result of the loop satisfies. *)
Definition result_ok (r : result) : Prop :=
  (status r = StatusOK \/ status r = StatusForbidden
   \/ status r = StatusNotFound \/ status r = StatusInternalServerError)
  /\ (isFile r = true -> status r = StatusOK)
  /\ (isFile r = true -> strings.HasSuffix (file r) (str "/") = false)
  /\ (isFile r = false -> status r = StatusOK -> file r <> [] ->
      strings.HasSuffix (file r) (str "/") = true).

(** ** grove.go: [main] *)

(** [main], lines 79-96: the directory handed to [Serve]. [arg] is
    [flag.Arg(0)] when [flag.NArg() > 0]; [getwd] is what [os.Getwd()]
    gives, [None] for an error, on which [main] exits. *)
Definition main_repodir (arg getwd : option bytes) : option bytes :=
  match arg with
  | Some a =>
      let repodir := path.Clean a in
      if negb (path.IsAbs repodir) then
        match getwd with
        | None => None
        | Some wd => Some (path.Join [wd; repodir])
        end
      else Some repodir
  | None =>
      match getwd with
      | None => None
      | Some wd => Some wd
      end
  end.

(** ** grove.go: [HandleWeb] *)

(** What [HandleWeb] reads of the request. [URL_String] is
    [req.URL.String()], the URL as text, query included. *)
Record Request : Type := mkRequest {
  URL_Path : bytes;
  URL_String : bytes;
  URL_RawQuery : bytes;
  Host : bytes
}.

(** What [HandleWeb] answers. *)
Inductive response : Type :=
| NotFoundPage
| ErrorStatus (status : Z)
| GitBackend (gitPath : bytes)
| Body (body : bytes)
| HandlerPanicked.

Section Handlers.

Variable Perms : Z.
Variable os_Stat : bytes -> option FileInfo.

(** [ShowPath(req, repository, file, isFile, "", req.Host)], the page
    builder that [HandleWeb] calls; it is not among the sources. *)
Variable ShowPath : Request -> bytes -> bytes -> bool -> bytes -> bytes -> bytes * Z.

(** Line 130: [p := path.Join(handler.Dir, req.URL.Path)]. *)
Definition HandleWeb_p (handler_Dir : bytes) (req : Request) : bytes :=
  path.Join [handler_Dir; URL_Path req].

(** [HandleWeb]: [NotFoundPage] is [http.NotFound], [ErrorStatus] is
    [http.Error] with that status, [GitBackend] the hand-over to the
    CGI handler, [Body] the page written; [None] is a walk of
    [SplitRepository] that the fuel does not see the end of. *)
Definition HandleWeb (fuel : nat) (handler_Dir : bytes) (req : Request)
  : option response :=
  let p := HandleWeb_p handler_Dir req in
  if strings.Contains (URL_String req) (str ".git/") then
    match nth_error (strings.SplitAfter p (str ".git/")) 0 with
    | None => Some HandlerPanicked
    | Some gitPath =>
        match os_Stat gitPath with
        | None => Some NotFoundPage
        | Some fi =>
            if negb (CheckPermBits Perms fi)
            then Some (ErrorStatus StatusForbidden)
            else Some (GitBackend gitPath)
        end
    end
  else
    match SplitRepository Perms os_Stat fuel handler_Dir p with
    | None => None
    | Some Panicked => Some HandlerPanicked
    | Some (Returned r) =>
        if (status r =? StatusOK)%Z then
          let '(body, status') :=
            ShowPath req (repository r) (file r) (isFile r) [] (Host req) in
          if (status' =? StatusOK)%Z then Some (Body body)
          else Some (ErrorStatus status')
        else Some (ErrorStatus (status r))
    end.

End Handlers.

(** A [ShowPath] that answers 200 with the repository and the file. *)
Definition ShowPath_echo (req : Request) (repository file : bytes)
  (isFile : bool) (prefix host : bytes) : bytes * Z :=
  (repository ++ str ":" ++ file, StatusOK).

(** A request for a file of the inner repository of [fs_nested]. *)
Definition req_blob : Request :=
  mkRequest (str "/a/b/blob/x") (str "/a/b/blob/x") [] (str "host").

(** A request for the hidden [/.dot] with [.git/] in its query. *)
Definition req_dot_query : Request :=
  mkRequest (str "/.dot") (str "/.dot?x=.git/") (str "x=.git/") (str "host").

(** ** webui.go: [MakeDirInfos] *)

(** [MakeDirInfos(repository, dirnames)]: the infos of the names whose
    stat succeeds and that pass [CheckPerms], in order. *)
Fixpoint MakeDirInfos (Perms : Z) (os_Stat : bytes -> option FileInfo)
  (repository : bytes) (dirnames : list bytes) : list FileInfo :=
  match dirnames with
  | [] => []
  | n :: dirnames' =>
      match os_Stat (repository ++ str "/" ++ n) with
      | Some info =>
          if CheckPerms Perms info
          then info :: MakeDirInfos Perms os_Stat repository dirnames'
          else MakeDirInfos Perms os_Stat repository dirnames'
      | None => MakeDirInfos Perms os_Stat repository dirnames'
      end
  end.

(** ** webui.go: [MakePage] and [MakeTreePage] *)

(** The fields of [gitPage] that [MakePage] fills before it asks git. *)
Record gitPage : Type := mkGitPage {
  gp_Owner : bytes;
  gp_InRepoPath : bytes;
  gp_URL : bytes;
  gp_Host : bytes;
  gp_Path : bytes;
  gp_Query : bytes
}.

(** The page builder that [MakePage] calls. *)
Inductive page : Type :=
| DirPage
| TreePage
| FilePage
| RawPage
| GitPage.

(** [pageinfo.Query] (also [d.Query] in [MakeTreePage]). *)
Definition page_Query (req : Request) : bytes :=
  if bytes_eqb (URL_RawQuery req) [] then URL_RawQuery req
  else str "?" ++ URL_RawQuery req.

(** [MakePage], line 102: [pageinfo.URL]. *)
Definition MakePage_URL (req : Request) : bytes :=
  str "http://" ++ Host req ++ strings.TrimRight_slash (URL_Path req)
    ++ str "/".

(** [MakePage], lines 99-113: [pageinfo]. [owner] is [gitVarUser()].
    The slice [repository[len(handler.Dir):]] panics when [repository]
    is shorter than [handler.Dir]: [None]. *)
Definition MakePage_pageinfo (owner handler_Dir : bytes) (req : Request)
  (repository file : bytes) : option gitPage :=
  if length handler_Dir <=? length repository then
    Some (mkGitPage owner
            (path.Join [path.Base repository; file])
            (MakePage_URL req)
            (Host req)
            (skipn (length handler_Dir) repository)
            (page_Query req))
  else None.

(** [MakePage], lines 118 and 145-165: the [switch]. *)
Definition MakePage_route (os_Stat : bytes -> option FileInfo)
  (pageinfo_URL repository : bytes) : page :=
  let git := fst (isGit os_Stat repository) in
  if negb git then DirPage
  else if strings.Contains pageinfo_URL (str "tree") then TreePage
  else if strings.Contains pageinfo_URL (str "blob") then FilePage
  else if strings.Contains pageinfo_URL (str "raw") then RawPage
  else GitPage.

(** An entry of [pageinfo.List] with its four fields ([dirList]). *)
Record treeLink : Type := mkTreeLink {
  tl_URL : bytes;
  tl_Name : bytes;
  tl_Link : bytes;
  tl_Query : bytes
}.

(** The path of the link [MakeTreePage] makes for the entry [f]:
    [pageinfo.Path + "/" + t + "/" + path.Join(file, f)]. *)
Definition MakeTreePage_link_path (pageinfo_Path file f : bytes) : bytes :=
  let t := if strings.HasSuffix f (str "/") then str "tree" else str "blob" in
  pageinfo_Path ++ str "/" ++ t ++ str "/" ++ path.Join [file; f].

(** [MakeTreePage], lines 396-420: [pageinfo.List], [files] being
    what [g.GetDir(ref, file)] returned. *)
Definition MakeTreePage_List (req : Request) (pageinfo_Path file : bytes)
  (files : list bytes) : list treeLink :=
  if strings.HasSuffix file (str "/") then
    map (fun f =>
           mkTreeLink f f
             (str "http://" ++ Host req
                ++ MakeTreePage_link_path pageinfo_Path file f)
             (page_Query req))
        files
  else [].

(** A request for the file [subtree.txt] of the inner repository of
    [fs_nested]. *)
Definition req_subtree : Request :=
  mkRequest (str "/a/b/blob/subtree.txt") (str "/a/b/blob/subtree.txt") []
            (str "host").

(** A request for a plain directory. *)
Definition req_plain : Request :=
  mkRequest (str "/plain/dir") (str "/plain/dir") [] (str "host").

(** ** webui.go: [pageinfo.Path] and the links of a tree page *)

(** The [file] of the tree view of the directory [fs] of a
    repository, as [SplitRepository] returns it. *)
Definition tree_file (fs : list bytes) : bytes :=
  match fs with
  | [] => str "./"
  | _ => rel_path fs ++ str "/"
  end.

(** An entry of [files] in [MakeTreePage]: the name [n], followed by a
    slash when it is a directory. *)
Definition tree_entry (n : bytes) (is_dir : bool) : bytes :=
  if is_dir then n ++ str "/" else n.

(** The keyword [MakeTreePage] puts in the link of an entry. *)
Definition tree_keyword (is_dir : bool) : bytes :=
  if is_dir then str "tree" else str "blob".

(** The elements of the link of the entry [n] of the directory [fs] of
    the repository [qs]. *)
Definition tree_link_elems (qs : list bytes) (is_dir : bool)
  (fs : list bytes) (n : bytes) : list bytes :=
  qs ++ tree_keyword is_dir :: fs ++ [n].

(** A request for the link of the file [main.go] on the tree page
    of [src] in the inner repository of [fs_nested]. *)
Definition req_link : Request :=
  mkRequest (str "/a/b/blob/src/main.go") (str "/a/b/blob/src/main.go") []
            (str "host").

(** A request for the link of the file [HEAD] on the tree page of a
    directory named [foo.git]. *)
Definition req_link_git_name : Request :=
  mkRequest (str "/a/b/blob/foo.git/HEAD") (str "/a/b/blob/foo.git/HEAD") []
            (str "host").

(** A request for a plain directory by the link of a directory page,
    which ends in a slash. *)
Definition req_plain_slash : Request :=
  mkRequest (str "/plain/dir/") (str "/plain/dir/") [] (str "host").

(** ** webui.go: [MakeFilePage] *)

(** The line feed that separates the lines of a file. *)
Definition newline : bytes := ["010"%char].

(** The double quote. *)
Definition dquote : bytes := ["034"%char].



Section FilePage.

(** [strconv.Itoa], [html.EscapeString] and
    [base64.StdEncoding.EncodeToString]. *)
Variable Itoa : Z -> bytes.
Variable EscapeString : bytes -> bytes.
Variable EncodeToString : bytes -> bytes.

(** What one turn of the loop appends to [temp_html] and to [temp]. *)
Definition MakeFilePage_div (j : Z) (line : bytes) : bytes :=
  str "<div id=" ++ dquote ++ str "L-" ++ Itoa j ++ dquote ++ str ">"
    ++ EscapeString line ++ str "</div>".

Definition MakeFilePage_anchor (j : Z) : bytes :=
  str "<a href=" ++ dquote ++ str "#L-" ++ Itoa j ++ dquote
    ++ str " class=" ++ dquote ++ str "line" ++ dquote ++ str ">"
    ++ Itoa j ++ str "</a><br/>".

(** The loop [for j := 1; j <= lines+1; j++] with [rounds] turns to
    go; [None] is the panic of [temp_content[j-1]] out of range. *)
Fixpoint MakeFilePage_loop (rounds : nat) (j : Z) (temp_content : list bytes)
  (temp_html temp : bytes) : option (bytes * bytes) :=
  match rounds with
  | O => Some (temp_html, temp)
  | S rounds' =>
      if (j - 1 <? 0)%Z then None
      else
        match nth_error temp_content (Z.to_nat (j - 1)) with
        | None => None
        | Some line =>
            MakeFilePage_loop rounds' (j + 1) temp_content
              (temp_html ++ MakeFilePage_div j line)
              (temp ++ MakeFilePage_anchor j)
        end
  end.

(** [MakeFilePage]: the [pageinfo.Content] that goes to the template,
    [content] being what [g.GetFile(ref, file)] returned. *)
Definition MakeFilePage_Content (content file : bytes) : option bytes :=
  let lines := strings.Count content newline in
  let temp_content := strings.SplitAfter content newline in
  let extention := path.Ext file in
  if bytes_eqb extention (str ".png") || bytes_eqb extention (str ".jpg")
     || bytes_eqb extention (str ".jpeg") || bytes_eqb extention (str ".gif")
  then Some (str "<img src=" ++ dquote ++ str "data:image/"
               ++ strings.TrimLeft_dot extention ++ str ";base64,"
               ++ EncodeToString content ++ dquote ++ str "/>")
  else option_map fst (MakeFilePage_loop (lines + 1) 1 temp_content [] []).

(** The lines [ls], numbered from [j], each in its [div]. *)
Fixpoint line_divs (j : Z) (ls : list bytes) : bytes :=
  match ls with
  | [] => []
  | l :: ls' => MakeFilePage_div j l ++ line_divs (j + 1) ls'
  end.

Fixpoint line_anchors (j : Z) (ls : list bytes) : bytes :=
  match ls with
  | [] => []
  | _ :: ls' => MakeFilePage_anchor j ++ line_anchors (j + 1) ls'
  end.

End FilePage.

(** ** webui.go: the earlier [ShowPath(url, p)] *)

(** A literal of the source that holds double quotes, written here
    with a single quote for each of them (the literals of [ShowPath]
    hold no single quote). *)
Definition quoted (s : string) : bytes :=
  map (fun c => if Ascii.eqb c "'"%char then "034"%char else c) (str s).

Section ShowPath.

(** [ioutil.ReadFile("style.css")], [os.Stat], [os.Open(p)] followed
    by [f.Readdir(0)] ([None] when either fails) and [gitBranch]. *)
Variable css : option bytes.
Variable os_Stat : bytes -> option FileInfo.
Variable Readdir : bytes -> option (list FileInfo).
Variable gitBranch : bytes -> bytes.

(** Line 451: the test that gives 403. *)
Definition ShowPath_forbidden (fi : FileInfo) : bool :=
  negb (IsDir fi) || strings.HasPrefix (Name fi) (str ".")
  || (Z.land (Mode fi) 5 =? 0)%Z.

(** Line 503: the test that an entry of the directory is listed. *)
Definition ShowPath_listed (info : FileInfo) : bool :=
  IsDir info && negb (strings.HasPrefix (Name info) (str "."))
  && (Z.land (Mode info) 5 =? 5)%Z.

(** Lines 501-506: the entries of [dirList]. *)
Fixpoint ShowPath_entries (url : bytes) (dirinfos : list FileInfo) : bytes :=
  match dirinfos with
  | [] => []
  | info :: dirinfos' =>
      (if ShowPath_listed info
       then quoted "<a href='" ++ url ++ Name info ++ quoted "'><li>"
              ++ Name info ++ str "</li></a>"
       else [])
      ++ ShowPath_entries url dirinfos'
  end.

Definition ShowPath_dirList (url : bytes) (dirinfos : list FileInfo) : bytes :=
  (str "<ul>"
     ++ (if negb (bytes_eqb url (str "/"))
         then quoted "<a href='" ++ url ++ quoted "..'><li>..</li></a>"
         else []))
    ++ ShowPath_entries url dirinfos.

(** [ShowPath]; [None] is the panic when [style.css] cannot be read. *)
Definition ShowPath (url p : bytes) : option bytes :=
  match css with
  | None => None
  | Some css =>
      match os_Stat p with
      | None => Some (str "404")
      | Some fi =>
          if ShowPath_forbidden fi then Some (str "403")
          else
            match Readdir p with
            | None => Some (str "500")
            | Some dirinfos =>
                if existsb (fun info => bytes_eqb (Name info) (str ".git"))
                           dirinfos
                then
                  let gitDir := str ".git" in
                  let branch := gitBranch p in
                  Some ((quoted "<html><head><style type='text/css'>" ++ css
                           ++ quoted "</style></head><body><div class='title'><a href='"
                           ++ url ++ quoted "..'>.. / </a>" ++ path.Base p
                           ++ str "</div>")
                          ++ (quoted "<div class='wrapper'><div class='button'><div class='buttontitle'>Current Branch</div><br/><div class='buttontext'>"
                                ++ branch
                                ++ quoted "</div></div><div class='button'><div class='buttontitle'>Branches</div><br/><div class='buttontext'>3</div></div><div class='button'><div class='buttontitle'>Commits</div><br/><div class='buttontext'>3</div></div><div class='button'><div class='buttontitle'>Current Commit</div><br/><div class='buttontext'>503099ca5b</div></div></div>")
                          ++ (url ++ gitDir ++ str "</body></html>"))
                else
                  Some (quoted "<html><head><style type='text/css'>" ++ css
                          ++ quoted "</style></head><body>Welcome to <a href='https://github.com/SashaCrofter/grove'>grove</a>.<br/>"
                          ++ ShowPath_dirList url dirinfos
                          ++ str "</ul></body></html>")
            end
      end
  end.

End ShowPath.

(** Settles a hypothesis on the levels [j] of a concrete path, level
    by level. *)
Ltac by_levels :=
  let j := fresh "j" in
  let Hj := fresh "Hj" in
  intros j Hj; cbn [length] in Hj;
  do 6 (destruct j as [|j]; [try lia; try reflexivity|]); lia.

(** ** Facts about byte strings *)

Lemma bytes_eqb_eq (a b : bytes) : bytes_eqb a b = true <-> a = b.
Proof.
  unfold bytes_eqb. destruct (bytes_eq_dec a b); split; congruence.
Qed.

Lemma bytes_eqb_refl (a : bytes) : bytes_eqb a a = true.
Proof. now apply bytes_eqb_eq. Qed.

Lemma bytes_eqb_neq (a b : bytes) : bytes_eqb a b = false <-> a <> b.
Proof.
  unfold bytes_eqb. destruct (bytes_eq_dec a b); split; congruence.
Qed.

Lemma no_slash_existsb (e : bytes) :
  existsb (Ascii.eqb slash) e = false <-> ~ In slash e.
Proof.
  split.
  - intros H Hin.
    assert (existsb (Ascii.eqb slash) e = true) as H1.
    { apply existsb_exists. exists slash. split; [assumption|apply Ascii.eqb_refl]. }
    congruence.
  - intros H. destruct (existsb (Ascii.eqb slash) e) eqn:E; [|reflexivity].
    apply existsb_exists in E. destruct E as [x [Hx Hs]].
    apply Ascii.eqb_eq in Hs. subst x. contradiction.
Qed.

Lemma elem_okb_spec (e : bytes) :
  elem_okb e = true <->
  e <> [] /\ ~ In slash e /\ e <> [dot] /\ e <> [dot; dot].
Proof.
  unfold elem_okb. rewrite !andb_true_iff, !negb_true_iff, !bytes_eqb_neq.
  rewrite no_slash_existsb. tauto.
Qed.

Lemma elems_ok_cons (c : bytes) (cs : list bytes) :
  elems_ok (c :: cs) <-> elem_okb c = true /\ elems_ok cs.
Proof. unfold elems_ok. simpl. apply andb_true_iff. Qed.

Lemma elems_ok_app (cs ds : list bytes) :
  elems_ok (cs ++ ds) <-> elems_ok cs /\ elems_ok ds.
Proof. unfold elems_ok. rewrite forallb_app. apply andb_true_iff. Qed.

Lemma elems_ok_nil : elems_ok [].
Proof. reflexivity. Qed.

Lemma rel_path_cons (c : bytes) (cs : list bytes) :
  cs <> [] -> rel_path (c :: cs) = c ++ slash :: rel_path cs.
Proof. destruct cs; [congruence|reflexivity]. Qed.

Lemma rel_path_snoc (cs : list bytes) (c : bytes) :
  cs <> [] -> rel_path (cs ++ [c]) = rel_path cs ++ slash :: c.
Proof.
  induction cs as [|a cs IH]; [congruence|]. intros _.
  destruct cs as [|b cs].
  - reflexivity.
  - change ((a :: b :: cs) ++ [c]) with (a :: ((b :: cs) ++ [c])).
    rewrite rel_path_cons by (destruct cs; discriminate).
    rewrite IH by discriminate.
    rewrite (rel_path_cons a (b :: cs)) by discriminate.
    now rewrite <- app_assoc.
Qed.

Lemma rel_path_no_slash_nil (cs : list bytes) :
  elems_ok cs -> rel_path cs = [] -> cs = [].
Proof.
  destruct cs as [|c cs]; [reflexivity|]. intros Hok H.
  apply elems_ok_cons in Hok. destruct Hok as [Hc _].
  apply elem_okb_spec in Hc. destruct Hc as [Hne _].
  destruct cs; simpl in H.
  - congruence.
  - destruct c; [congruence|discriminate].
Qed.

(** ** [path.Clean] on well-formed elements *)

Lemma Clean_copy_slash (rooted : bool) (dotdot : nat) (e rest o : bytes) :
  ~ In slash e ->
  Clean_copy rooted dotdot (e ++ slash :: rest) o
  = path.Clean_loop rooted rest (o ++ e) dotdot.
Proof.
  revert o. induction e as [|c e IH]; intros o Hns.
  - cbn [app Clean_copy]. rewrite Ascii.eqb_refl. now rewrite app_nil_r.
  - cbn [app Clean_copy]. destruct (Ascii.eqb_spec c slash) as [->|Hc].
    + exfalso. apply Hns. now left.
    + rewrite IH by (intros H; apply Hns; now right).
      now rewrite <- app_assoc.
Qed.

Lemma Clean_copy_end (rooted : bool) (dotdot : nat) (e o : bytes) :
  ~ In slash e -> Clean_copy rooted dotdot e o = o ++ e.
Proof.
  revert o. induction e as [|c e IH]; intros o Hns.
  - cbn [Clean_copy]. now rewrite app_nil_r.
  - cbn [Clean_copy]. destruct (Ascii.eqb_spec c slash) as [->|Hc].
    + exfalso. apply Hns. now left.
    + rewrite IH by (intros H; apply Hns; now right).
      now rewrite <- app_assoc.
Qed.

(** A well-formed element is taken by the default case of the loop. *)
Lemma Clean_loop_elem (rooted : bool) (dotdot : nat) (e rest out : bytes) :
  elem_okb e = true ->
  path.at_end_or_slash rest = true ->
  path.Clean_loop rooted (e ++ rest) out dotdot
  = Clean_copy rooted dotdot (e ++ rest) (Clean_sep rooted out).
Proof.
  intros Hok Hrest. apply elem_okb_spec in Hok.
  destruct Hok as (Hne & Hns & Hd & Hdd).
  destruct e as [|c e]; [congruence|].
  assert (Hc : Ascii.eqb c slash = false).
  { apply Ascii.eqb_neq. intros ->. apply Hns. now left. }
  assert (Hhd : forall x l, In x e -> path.at_end_or_slash (e ++ l) = false).
  { intros x l Hx. destruct e as [|c1 e]; [contradiction|]. simpl.
    apply Ascii.eqb_neq. intros ->. apply Hns. right. now left. }
  cbn [app path.Clean_loop]. rewrite Hc.
  destruct (Ascii.eqb_spec c dot) as [->|Hcd].
  - (* the element starts with a dot *)
    destruct e as [|c1 e]; [congruence|].
    rewrite (Hhd c1 rest) by now left.
    cbn [andb app].
    assert (Hc1 : Ascii.eqb c1 slash = false).
    { apply Ascii.eqb_neq. intros ->. apply Hns. right. now left. }
    destruct (Ascii.eqb_spec c1 dot) as [->|Hc1d].
    + destruct e as [|c2 e]; [congruence|].
      assert (Hc2 : Ascii.eqb c2 slash = false).
      { apply Ascii.eqb_neq. intros ->. apply Hns. right. right. now left. }
      cbn [app path.at_end_or_slash andb]. rewrite Hc2.
      cbn [Clean_copy]. rewrite !Hc, Hc2. reflexivity.
    + cbn [andb Clean_copy]. rewrite Hc, Hc1. reflexivity.
  - cbn [andb]. destruct e as [|c1 e].
    + cbn [app]. destruct rest as [|r rest].
      * cbn [Clean_copy]. rewrite Hc. reflexivity.
      * cbn [Clean_copy]. rewrite Hc. reflexivity.
    + cbn [app Clean_copy]. rewrite Hc. reflexivity.
Qed.

Lemma Clean_loop_elem_slash (rooted : bool) (dotdot : nat) (e rest out : bytes) :
  elem_okb e = true ->
  path.Clean_loop rooted (e ++ slash :: rest) out dotdot
  = path.Clean_loop rooted rest (Clean_sep rooted out ++ e) dotdot.
Proof.
  intros Hok. rewrite Clean_loop_elem; [|assumption|apply Ascii.eqb_refl].
  apply Clean_copy_slash. now apply elem_okb_spec in Hok.
Qed.

Lemma Clean_loop_elem_end (rooted : bool) (dotdot : nat) (e out : bytes) :
  elem_okb e = true ->
  path.Clean_loop rooted e out dotdot = Clean_sep rooted out ++ e.
Proof.
  intros Hok. rewrite <- (app_nil_r e) at 1.
  rewrite Clean_loop_elem; [|assumption|reflexivity].
  rewrite app_nil_r. apply Clean_copy_end. now apply elem_okb_spec in Hok.
Qed.

Lemma slashed_cons (a : bytes) (cs : list bytes) :
  slashed (a :: cs) = a ++ slash :: slashed cs.
Proof. unfold slashed. cbn [map concat]. now rewrite <- app_assoc. Qed.

Lemma slashed_app (cs ds : list bytes) :
  slashed (cs ++ ds) = slashed cs ++ slashed ds.
Proof. unfold slashed. now rewrite map_app, concat_app. Qed.

Lemma rel_path_slashed (cs : list bytes) (c : bytes) :
  rel_path (cs ++ [c]) = slashed cs ++ c.
Proof.
  induction cs as [|a cs IH]; [reflexivity|].
  change ((a :: cs) ++ [c]) with (a :: (cs ++ [c])).
  rewrite rel_path_cons by (destruct cs; discriminate).
  rewrite IH, slashed_cons. now rewrite <- app_assoc.
Qed.

Lemma slashed_rel_path (cs : list bytes) :
  cs <> [] -> slashed cs = rel_path cs ++ [slash].
Proof.
  induction cs as [|a cs IH]; [congruence|]. intros _.
  rewrite slashed_cons. destruct cs as [|b cs].
  - reflexivity.
  - rewrite rel_path_cons by discriminate.
    rewrite IH by discriminate. now rewrite <- app_assoc.
Qed.

Lemma rel_path_nonempty (c : bytes) (cs : list bytes) :
  elems_ok (c :: cs) -> rel_path (c :: cs) <> [].
Proof.
  intros Hok H. apply rel_path_no_slash_nil in H; [discriminate|assumption].
Qed.

Lemma Clean_sep_out (rooted : bool) (pre : list bytes) (e : bytes) :
  elems_ok pre ->
  Clean_sep rooted (Clean_out rooted pre) ++ e = Clean_out rooted (pre ++ [e]).
Proof.
  intros Hok. destruct pre as [|a pre].
  - destruct rooted; reflexivity.
  - pose proof (rel_path_nonempty a pre Hok) as Hne.
    assert (Hlen : length (rel_path (a :: pre)) <> 0).
    { intros H. apply length_zero_iff_nil in H. contradiction. }
    unfold Clean_sep, Clean_out, abs_path.
    rewrite rel_path_snoc by discriminate.
    destruct rooted; cbn [andb negb orb length].
    + replace (S (length (rel_path (a :: pre))) =? 1) with false
        by (symmetry; apply Nat.eqb_neq; lia).
      cbn [negb app orb]. rewrite <- ?app_assoc. reflexivity.
    + replace (length (rel_path (a :: pre)) =? 0) with false
        by (symmetry; apply Nat.eqb_neq; lia).
      cbn [negb app orb]. rewrite <- ?app_assoc. reflexivity.
Qed.

Lemma Clean_loop_slashed (rooted : bool) (cs pre : list bytes) (rest : bytes) :
  elems_ok pre -> elems_ok cs ->
  path.Clean_loop rooted (slashed cs ++ rest) (Clean_out rooted pre)
                  (Clean_dotdot rooted)
  = path.Clean_loop rooted rest (Clean_out rooted (pre ++ cs))
                    (Clean_dotdot rooted).
Proof.
  revert pre. induction cs as [|c cs IH]; intros pre Hpre Hcs.
  - now rewrite app_nil_r.
  - apply elems_ok_cons in Hcs. destruct Hcs as [Hc Hcs].
    rewrite slashed_cons. rewrite <- app_assoc. cbn [app].
    rewrite Clean_loop_elem_slash by assumption.
    rewrite Clean_sep_out by assumption.
    rewrite IH; [|apply elems_ok_app; split; [assumption|]|assumption].
    + now rewrite <- app_assoc.
    + apply elems_ok_cons. split; [assumption|reflexivity].
Qed.

Lemma Clean_loop_rel_path (rooted : bool) (cs pre : list bytes) :
  elems_ok pre -> elems_ok cs ->
  path.Clean_loop rooted (rel_path cs) (Clean_out rooted pre)
                  (Clean_dotdot rooted)
  = Clean_out rooted (pre ++ cs).
Proof.
  intros Hpre Hcs. destruct cs as [|c0 cs0] eqn:E.
  - now rewrite app_nil_r.
  - rewrite <- E in *.
    destruct (exists_last (l := cs)) as [cs' [c Hc]]; [congruence|].
    rewrite Hc in *. apply elems_ok_app in Hcs. destruct Hcs as [Hcs' Hc1].
    apply elems_ok_cons in Hc1. destruct Hc1 as [Hc1 _].
    rewrite rel_path_slashed, Clean_loop_slashed by assumption.
    rewrite Clean_loop_elem_end by assumption.
    rewrite Clean_sep_out by (apply elems_ok_app; now split).
    now rewrite <- app_assoc.
Qed.

Lemma Clean_loop_rooted (cs pre : list bytes) (rest : bytes) :
  elems_ok pre -> elems_ok cs ->
  path.Clean_loop true (slashed cs ++ rest) (abs_path pre) 1
  = path.Clean_loop true rest (abs_path (pre ++ cs)) 1.
Proof. apply (Clean_loop_slashed true). Qed.

Lemma Clean_loop_rooted_end (cs pre : list bytes) :
  elems_ok pre -> elems_ok cs ->
  path.Clean_loop true (rel_path cs) (abs_path pre) 1 = abs_path (pre ++ cs).
Proof. apply (Clean_loop_rel_path true). Qed.

Lemma Clean_loop_unrooted_end (cs pre : list bytes) :
  elems_ok pre -> elems_ok cs ->
  path.Clean_loop false (rel_path cs) (rel_path pre) 0 = rel_path (pre ++ cs).
Proof. apply (Clean_loop_rel_path false). Qed.

(** A cleaned path is a fixed point of [path.Clean]. *)
Lemma Clean_abs_path (cs : list bytes) :
  elems_ok cs -> path.Clean (abs_path cs) = abs_path cs.
Proof.
  intros Hok. unfold path.Clean, abs_path at 1.
  change (Ascii.eqb slash slash) with true. cbv iota zeta.
  change [slash] with (abs_path []).
  rewrite (Clean_loop_rooted_end cs [] elems_ok_nil Hok).
  reflexivity.
Qed.

(** ** [path.Split], [path.Dir] and [path.Base] on cleaned paths *)

Lemma lastSlash_from_no_slash (e : bytes) (i last : Z) :
  ~ In slash e -> path.lastSlash_from i last e = last.
Proof.
  revert i. induction e as [|c e IH]; intros i Hns; [reflexivity|].
  cbn [path.lastSlash_from].
  destruct (Ascii.eqb_spec c slash) as [->|Hc].
  - exfalso. apply Hns. now left.
  - apply IH. intros H. apply Hns. now right.
Qed.

Lemma lastSlash_from_app (x e : bytes) (i last : Z) :
  ~ In slash e ->
  path.lastSlash_from i last ((x ++ [slash]) ++ e) = (i + Z.of_nat (length x))%Z.
Proof.
  revert i last. induction x as [|c x IH]; intros i last Hns.
  - cbn [app path.lastSlash_from length]. rewrite Ascii.eqb_refl.
    rewrite lastSlash_from_no_slash by assumption. lia.
  - cbn [app path.lastSlash_from]. rewrite IH by assumption.
    cbn [length]. lia.
Qed.

Lemma Split_last_elem (x e : bytes) :
  ~ In slash e -> path.Split ((x ++ [slash]) ++ e) = (x ++ [slash], e).
Proof.
  intros Hns. unfold path.Split, path.lastSlash.
  rewrite lastSlash_from_app by assumption.
  replace (Z.to_nat (0 + Z.of_nat (length x) + 1)) with (length (x ++ [slash]))
    by (rewrite length_app; cbn [length]; lia).
  rewrite firstn_app, Nat.sub_diag, firstn_all. cbn [firstn].
  rewrite app_nil_r.
  rewrite skipn_app, Nat.sub_diag, skipn_all. reflexivity.
Qed.

Lemma slash_slashed_snoc (cs : list bytes) :
  exists x, slash :: slashed cs = x ++ [slash].
Proof.
  destruct cs as [|c cs].
  - exists []. reflexivity.
  - exists (slash :: rel_path (c :: cs)).
    rewrite slashed_rel_path by discriminate. reflexivity.
Qed.

Lemma abs_path_snoc (cs : list bytes) (c : bytes) :
  abs_path (cs ++ [c]) = (slash :: slashed cs) ++ c.
Proof. unfold abs_path. now rewrite rel_path_slashed. Qed.

Lemma Clean_slash_slashed (cs : list bytes) :
  elems_ok cs -> path.Clean (slash :: slashed cs) = abs_path cs.
Proof.
  intros Hok. unfold path.Clean.
  change (Ascii.eqb slash slash) with true. cbv iota zeta.
  rewrite <- (app_nil_r (slashed cs)).
  change [slash] with (abs_path []).
  rewrite (Clean_loop_rooted cs [] [] elems_ok_nil Hok).
  reflexivity.
Qed.

Lemma Dir_abs_path (cs : list bytes) (c : bytes) :
  elems_ok (cs ++ [c]) -> path.Dir (abs_path (cs ++ [c])) = abs_path cs.
Proof.
  intros Hok. apply elems_ok_app in Hok. destruct Hok as [Hcs Hc].
  apply elems_ok_cons in Hc. destruct Hc as [Hc _].
  apply elem_okb_spec in Hc. destruct Hc as (_ & Hns & _).
  unfold path.Dir. rewrite abs_path_snoc.
  destruct (slash_slashed_snoc cs) as [x Hx]. rewrite Hx.
  rewrite Split_last_elem by assumption. cbn [fst]. rewrite <- Hx.
  now apply Clean_slash_slashed.
Qed.

Lemma TrimRight_slash_snoc (x : bytes) (c : ascii) :
  c <> slash -> strings.TrimRight_slash (x ++ [c]) = x ++ [c].
Proof.
  intros Hc. unfold strings.TrimRight_slash. rewrite rev_app_distr.
  cbn [rev app strings.trim_left_slash].
  destruct (Ascii.eqb_spec c slash) as [->|_]; [congruence|].
  cbn [rev]. now rewrite rev_involutive.
Qed.

Lemma TrimRight_slash_elem (x e : bytes) :
  e <> [] -> ~ In slash e -> strings.TrimRight_slash (x ++ e) = x ++ e.
Proof.
  intros Hne Hns.
  destruct (exists_last Hne) as [e' [c ->]].
  rewrite app_assoc. apply TrimRight_slash_snoc.
  intros ->. apply Hns. apply in_or_app. right. now left.
Qed.

Lemma Base_last_elem (x e : bytes) :
  e <> [] -> ~ In slash e -> path.Base ((x ++ [slash]) ++ e) = e.
Proof.
  intros Hne Hns. unfold path.Base.
  destruct ((x ++ [slash]) ++ e) as [|c0 p0] eqn:E.
  - destruct x; discriminate.
  - rewrite <- E. clear E c0 p0.
    rewrite (TrimRight_slash_elem (x ++ [slash]) e Hne Hns).
    pose proof (Split_last_elem x e Hns) as HS.
    unfold path.Split in HS. injection HS as _ HS2.
    unfold path.lastSlash in *.
    rewrite lastSlash_from_app in * by assumption.
    replace (0 <=? 0 + Z.of_nat (length x))%Z with true
      by (symmetry; apply Z.leb_le; lia).
    rewrite HS2. destruct e; [congruence|reflexivity].
Qed.

Lemma Base_abs_path (cs : list bytes) (c : bytes) :
  elems_ok (cs ++ [c]) -> path.Base (abs_path (cs ++ [c])) = c.
Proof.
  intros Hok. apply elems_ok_app in Hok. destruct Hok as [Hcs Hc].
  apply elems_ok_cons in Hc. destruct Hc as [Hc _].
  apply elem_okb_spec in Hc. destruct Hc as (Hne & Hns & _).
  rewrite abs_path_snoc.
  destruct (slash_slashed_snoc cs) as [x Hx]. rewrite Hx.
  now apply Base_last_elem.
Qed.

(** ** [path.Join] on cleaned paths *)

Lemma Join_pair (a b : bytes) :
  a <> [] -> path.Join [a; b] = path.Clean ((a ++ [slash]) ++ b).
Proof.
  intros Ha. destruct a as [|a0 a]; [congruence|].
  unfold path.Join. cbn [fold_left path.Join_buf length].
  replace (0 + S (length a) + length b =? 0) with false
    by (symmetry; apply Nat.eqb_neq; lia).
  replace (bytes_eqb (a0 :: a) []) with false
    by (symmetry; now apply bytes_eqb_neq).
  reflexivity.
Qed.

Lemma dot_if_empty_nonempty (l : bytes) :
  l <> [] -> match l with [] => [dot] | _ :: _ => l end = l.
Proof. destruct l; [congruence|reflexivity]. Qed.

Lemma Join_elem_rel (c : bytes) (ds : list bytes) :
  elem_okb c = true -> elems_ok ds ->
  path.Join [c; rel_path ds] = rel_path (c :: ds).
Proof.
  intros Hc Hds.
  pose proof Hc as Hc'. apply elem_okb_spec in Hc'.
  destruct Hc' as (Hne & Hns & _).
  rewrite Join_pair by assumption. rewrite <- app_assoc. cbn [app].
  unfold path.Clean. destruct c as [|c0 c]; [congruence|].
  cbn [app]. change (c0 :: c ++ slash :: rel_path ds)
    with ((c0 :: c) ++ slash :: rel_path ds).
  replace (Ascii.eqb c0 slash) with false
    by (symmetry; apply Ascii.eqb_neq; intros ->; apply Hns; now left).
  cbv zeta iota.
  rewrite Clean_loop_elem_slash by assumption.
  change (Clean_sep false [] ++ c0 :: c) with (rel_path [c0 :: c]).
  assert (Hok1 : elems_ok [c0 :: c])
    by (apply elems_ok_cons; split; [assumption|reflexivity]).
  rewrite Clean_loop_unrooted_end by assumption.
  cbn [app].
  apply dot_if_empty_nonempty. apply rel_path_nonempty.
  apply elems_ok_cons. now split.
Qed.

Lemma Join_abs_rel (rs ds : list bytes) :
  elems_ok rs -> elems_ok ds ->
  path.Join [abs_path rs; rel_path ds] = abs_path (rs ++ ds).
Proof.
  intros Hrs Hds. rewrite Join_pair by discriminate.
  unfold path.Clean, abs_path at 1. cbn [app].
  change (Ascii.eqb slash slash) with true. cbv zeta iota.
  assert (Hres : path.Clean_loop true ((rel_path rs ++ [slash]) ++ rel_path ds)
                   [slash] 1 = abs_path (rs ++ ds)).
  { change [slash] with (abs_path []) at 2.
    destruct rs as [|r rs].
    - cbn [rel_path app path.Clean_loop].
      change (Ascii.eqb slash slash) with true. cbv iota.
      now apply Clean_loop_rooted_end.
    - rewrite <- slashed_rel_path by discriminate.
      rewrite Clean_loop_rooted by (assumption || reflexivity).
      cbn [app]. now apply Clean_loop_rooted_end. }
  rewrite Hres. reflexivity.
Qed.

(** ** Lengths of cleaned paths *)

Lemma rel_path_snoc_length (cs : list bytes) (d : bytes) :
  d <> [] -> length (rel_path cs) < length (rel_path (cs ++ [d])).
Proof.
  intros Hd. rewrite rel_path_slashed, length_app.
  assert (0 < length d) by (destruct d; [congruence|cbn; lia]).
  destruct cs as [|c cs].
  - cbn. lia.
  - rewrite slashed_rel_path by discriminate. rewrite length_app. lia.
Qed.

Lemma rel_path_app_length (cs ds : list bytes) :
  elems_ok ds ->
  length (rel_path cs) + length ds <= length (rel_path (cs ++ ds)).
Proof.
  induction ds as [|d ds IH] using rev_ind; intros Hok.
  - rewrite app_nil_r. cbn. lia.
  - apply elems_ok_app in Hok. destruct Hok as [Hds Hd].
    apply elems_ok_cons in Hd. destruct Hd as [Hd _].
    apply elem_okb_spec in Hd. destruct Hd as [Hd _].
    rewrite app_assoc, length_app. cbn [length].
    pose proof (rel_path_snoc_length (cs ++ ds) d Hd).
    specialize (IH Hds). lia.
Qed.

Lemma abs_path_app_neq (rs ds : list bytes) :
  elems_ok ds -> ds <> [] -> abs_path (rs ++ ds) <> abs_path rs.
Proof.
  intros Hok Hne H.
  pose proof (rel_path_app_length rs ds Hok) as Hlen.
  apply (f_equal (@length ascii)) in H. unfold abs_path in H. cbn [length] in H.
  destruct ds; [congruence|]. cbn [length] in Hlen. lia.
Qed.

Lemma abs_path_length (cs : list bytes) :
  elems_ok cs -> length cs < length (abs_path cs).
Proof.
  intros Hok. pose proof (rel_path_app_length [] cs Hok) as H.
  cbn [app rel_path length] in H. unfold abs_path. cbn [length]. lia.
Qed.

(** ** The upward walk of [SplitRepository] *)

Lemma wrap_int_small (x : Z) :
  (- 2 ^ 63 <= x < 2 ^ 63)%Z -> wrap_int x = x.
Proof.
  intros H. unfold wrap_int.
  rewrite Z.mod_small by lia. lia.
Qed.

(** More fuel does not change what the loop returns. *)
Lemma SplitRepository_loop_more_fuel (Perms : Z)
  (os_Stat : bytes -> option FileInfo) (toplevel : bytes) (fuel : nat) :
  forall (fuel' : nat) (i : Z) (repository file : bytes) (x : outcome * Z),
    SplitRepository_loop Perms os_Stat fuel toplevel i repository file = Some x ->
    fuel <= fuel' ->
    SplitRepository_loop Perms os_Stat fuel' toplevel i repository file = Some x.
Proof.
  induction fuel as [|fuel IH]; intros fuel' i repository file x H Hle;
    [discriminate|].
  destruct fuel' as [|fuel']; [lia|].
  cbn [SplitRepository_loop] in *.
  destruct (bytes_eqb _ toplevel); [assumption|].
  destruct (os_Stat _); [assumption|].
  apply IH; [assumption|lia].
Qed.

Section Walk.

Variable Perms : Z.
Variable os_Stat : bytes -> option FileInfo.

Lemma loop_first_pass (fuel' : nat) (toplevel repository file : bytes) :
  SplitRepository_loop Perms os_Stat (S fuel') toplevel 0 repository file
  = pass_at_cursor Perms os_Stat fuel' toplevel 0 repository file.
Proof. reflexivity. Qed.

Lemma loop_later_pass (fuel' : nat) (toplevel : bytes) (i : Z)
  (repository file : bytes) :
  i <> 0%Z ->
  SplitRepository_loop Perms os_Stat (S fuel') toplevel i repository file
  = pass_at_cursor Perms os_Stat fuel' toplevel i (path.Dir repository)
                   (path.Join [path.Base repository; file]).
Proof.
  intros Hi. cbn [SplitRepository_loop].
  replace (i =? 0)%Z with false by (symmetry; now apply Z.eqb_neq).
  reflexivity.
Qed.

Variable rs : list bytes.
Hypothesis rs_ok : elems_ok rs.

(** From a cursor [xs] below the serving root, with no marker at the
    cursor or above it, the walk ends at the serving root. *)
Lemma walk_no_marker (xs : list bytes) :
  forall (ys : list bytes) (i : Z) (fuel' : nat),
    elems_ok xs -> elems_ok ys ->
    (forall j, 1 <= j <= length xs ->
               os_Stat (abs_path (rs ++ firstn j xs) ++ str "/.git") = None) ->
    (0 <= i)%Z -> (i + Z.of_nat (length xs) < 2 ^ 63)%Z ->
    length xs <= fuel' ->
    pass_at_cursor Perms os_Stat fuel' (abs_path rs) i (abs_path (rs ++ xs)) (rel_path ys)
    = Some (Returned (mkResult (abs_path (rs ++ xs ++ ys)) [] false StatusOK),
            (i + Z.of_nat (length xs))%Z).
Proof.
  induction xs as [|x xs IH] using rev_ind;
    intros ys i fuel' Hxs Hys Hno Hi Hbound Hfuel.
  - rewrite app_nil_r. unfold pass_at_cursor.
    rewrite bytes_eqb_refl, Join_abs_rel by assumption.
    cbn [length app]. now rewrite Z.add_0_r.
  - pose proof Hxs as Hxs'. apply elems_ok_app in Hxs'.
    destruct Hxs' as [Hxs0 Hx]. pose proof Hx as Hx1.
    apply elems_ok_cons in Hx1. destruct Hx1 as [Hx1 _].
    rewrite length_app in *. cbn [length] in *.
    unfold pass_at_cursor.
    replace (bytes_eqb (abs_path (rs ++ xs ++ [x])) (abs_path rs)) with false.
    2:{ symmetry. apply bytes_eqb_neq. apply abs_path_app_neq; [assumption|].
        destruct xs; discriminate. }
    pose proof (Hno (length xs + 1)) as Hhere.
    rewrite firstn_app, firstn_all2 in Hhere by lia.
    replace (length xs + 1 - length xs) with 1 in Hhere by lia.
    cbn [firstn] in Hhere. rewrite Hhere by lia.
    destruct fuel' as [|fuel']; [lia|].
    rewrite loop_later_pass by (rewrite wrap_int_small; lia).
    rewrite wrap_int_small by lia.
    rewrite (app_assoc rs xs [x]).
    assert (Hok : elems_ok ((rs ++ xs) ++ [x])).
    { apply elems_ok_app. split; [|assumption].
      apply elems_ok_app. now split. }
    rewrite Dir_abs_path, Base_abs_path, Join_elem_rel by assumption.
    rewrite (IH (x :: ys) (i + 1)%Z fuel'); try assumption; try lia.
    + rewrite <- !app_assoc. cbn [app]. do 2 f_equal. lia.
    + apply elems_ok_cons. now split.
    + intros j Hj. specialize (Hno j).
      rewrite firstn_app in Hno.
      replace (j - length xs) with 0 in Hno by lia.
      cbn [firstn] in Hno. rewrite app_nil_r in Hno. apply Hno. lia.
Qed.

(** From a cursor [xs1 ++ xs2] with a marker at [xs1] and none
    between, the walk stops at [xs1]. *)
Lemma walk_marker (xs1 : list bytes) (m : FileInfo) (xs2 : list bytes) :
  forall (ys : list bytes) (i : Z) (fuel' : nat),
    elems_ok xs1 -> elems_ok xs2 -> elems_ok ys -> xs1 <> [] ->
    os_Stat (abs_path (rs ++ xs1) ++ str "/.git") = Some m ->
    (forall j, 1 <= j <= length xs2 ->
               os_Stat (abs_path (rs ++ xs1 ++ firstn j xs2) ++ str "/.git")
               = None) ->
    (0 <= i)%Z -> (i + Z.of_nat (length xs2) < 2 ^ 63)%Z ->
    length xs2 <= fuel' ->
    pass_at_cursor Perms os_Stat fuel' (abs_path rs) i (abs_path (rs ++ xs1 ++ xs2))
                   (rel_path ys)
    = Some (check_repository Perms os_Stat (abs_path (rs ++ xs1))
                             (rel_path (xs2 ++ ys)),
            (i + Z.of_nat (length xs2))%Z).
Proof.
  induction xs2 as [|x xs2 IH] using rev_ind;
    intros ys i fuel' Hxs1 Hxs2 Hys Hne Hm Hno Hi Hbound Hfuel.
  - rewrite app_nil_r. unfold pass_at_cursor.
    replace (bytes_eqb (abs_path (rs ++ xs1)) (abs_path rs)) with false
      by (symmetry; apply bytes_eqb_neq; now apply abs_path_app_neq).
    rewrite Hm. cbn [length app]. now rewrite Z.add_0_r.
  - pose proof Hxs2 as Hxs'. apply elems_ok_app in Hxs'.
    destruct Hxs' as [Hxs0 Hx]. pose proof Hx as Hx1.
    apply elems_ok_cons in Hx1. destruct Hx1 as [Hx1 _].
    rewrite length_app in *. cbn [length] in *.
    unfold pass_at_cursor.
    replace (bytes_eqb (abs_path (rs ++ xs1 ++ xs2 ++ [x])) (abs_path rs))
      with false.
    2:{ symmetry. apply bytes_eqb_neq. apply abs_path_app_neq.
        - apply elems_ok_app. split; [assumption|].
          apply elems_ok_app. now split.
        - destruct xs1; [congruence|discriminate]. }
    pose proof (Hno (length xs2 + 1)) as Hhere.
    rewrite firstn_app, firstn_all2 in Hhere by lia.
    replace (length xs2 + 1 - length xs2) with 1 in Hhere by lia.
    cbn [firstn] in Hhere. rewrite Hhere by lia.
    destruct fuel' as [|fuel']; [lia|].
    rewrite loop_later_pass by (rewrite wrap_int_small; lia).
    rewrite wrap_int_small by lia.
    replace (rs ++ xs1 ++ xs2 ++ [x]) with ((rs ++ xs1 ++ xs2) ++ [x])
      by (now rewrite <- !app_assoc).
    assert (Hok : elems_ok ((rs ++ xs1 ++ xs2) ++ [x])).
    { repeat (apply elems_ok_app; split); assumption. }
    rewrite Dir_abs_path, Base_abs_path, Join_elem_rel by assumption.
    rewrite (IH (x :: ys) (i + 1)%Z fuel'); try assumption; try lia.
    + rewrite <- !app_assoc. cbn [app]. do 2 f_equal. lia.
    + apply elems_ok_cons. now split.
    + intros j Hj. specialize (Hno j).
      rewrite firstn_app in Hno.
      replace (j - length xs2) with 0 in Hno by lia.
      cbn [firstn] in Hno. rewrite app_nil_r in Hno. apply Hno. lia.
Qed.

End Walk.

(** ** The prefix test *)

Lemma after_first_slash_app (x y : bytes) :
  strings.after_first_slash (x ++ slash :: y) <> None.
Proof.
  induction x as [|c x IH]; cbn [app strings.after_first_slash].
  - rewrite Ascii.eqb_refl. discriminate.
  - destruct (Ascii.eqb c slash); [discriminate|].
    destruct (strings.after_first_slash (x ++ slash :: y)) as [[a b]|];
      [discriminate|congruence].
Qed.

Lemma HasPrefix_app (p s : bytes) : strings.HasPrefix (p ++ s) p = true.
Proof.
  induction p as [|c p IH]; [reflexivity|].
  cbn [app strings.HasPrefix]. now rewrite Ascii.eqb_refl, IH.
Qed.

Lemma HasPrefix_inv (s p : bytes) :
  strings.HasPrefix s p = true -> s = p ++ skipn (length p) s.
Proof.
  revert s. induction p as [|c p IH]; intros s H; [reflexivity|].
  destruct s as [|d s]; [discriminate|].
  cbn [strings.HasPrefix] in H. apply andb_true_iff in H. destruct H as [Hc H].
  apply Ascii.eqb_eq in Hc. subst d. cbn [length skipn app].
  f_equal. now apply IH.
Qed.

Lemma HasPrefix_snoc (s p : bytes) (c : ascii) :
  strings.HasPrefix s p = true -> strings.HasPrefix (s ++ [c]) p = true.
Proof.
  intros H. rewrite (HasPrefix_inv s p H), <- app_assoc. apply HasPrefix_app.
Qed.

(** Testing a prefix that ends in [c] on a string with [c] appended. *)
Lemma HasPrefix_appended (w s : bytes) (c : ascii) :
  strings.HasPrefix (s ++ [c]) (w ++ [c])
  = bytes_eqb s w || strings.HasPrefix s (w ++ [c]).
Proof.
  revert s. induction w as [|x w IH]; intros s.
  - destruct s as [|d s]; [cbn; now rewrite Ascii.eqb_refl|].
    cbn [app strings.HasPrefix].
    replace (bytes_eqb (d :: s) []) with false
      by (symmetry; now apply bytes_eqb_neq).
    reflexivity.
  - destruct s as [|d s].
    + cbn [app strings.HasPrefix].
      replace (bytes_eqb [] (x :: w)) with false
        by (symmetry; now apply bytes_eqb_neq).
      destruct w; cbn [app strings.HasPrefix]; now rewrite andb_false_r.
    + cbn [app strings.HasPrefix]. rewrite IH.
      destruct (Ascii.eqb_spec x d) as [->|Hxd]; cbn [andb].
      * f_equal. destruct (bytes_eqb s w) eqn:E.
        -- apply bytes_eqb_eq in E. subst. symmetry. apply bytes_eqb_refl.
        -- apply bytes_eqb_neq in E. symmetry. apply bytes_eqb_neq. congruence.
      * symmetry. rewrite orb_false_r. apply bytes_eqb_neq. congruence.
Qed.

Lemma TrimRight_slash_slash (x : bytes) :
  strings.TrimRight_slash (x ++ [slash]) = strings.TrimRight_slash x.
Proof.
  unfold strings.TrimRight_slash. rewrite rev_app_distr.
  cbn [rev app strings.trim_left_slash]. now rewrite Ascii.eqb_refl.
Qed.

(** What [SplitAfterN(file, "/", 2)[1]] is when [file] starts with a
    five-byte prefix (["blob/"] or ["tree/"]) whose only slash is the
    last byte. *)
Lemma SplitAfterN_prefix5 (a b c d : ascii) (rest : bytes) :
  Ascii.eqb a slash = false -> Ascii.eqb b slash = false ->
  Ascii.eqb c slash = false -> Ascii.eqb d slash = false ->
  nth_error (strings.SplitAfterN_slash_2 (a :: b :: c :: d :: slash :: rest)) 1
  = Some rest.
Proof.
  intros Ha Hb Hc Hd. unfold strings.SplitAfterN_slash_2.
  cbn [strings.after_first_slash]. rewrite Ha, Hb, Hc, Hd, Ascii.eqb_refl.
  reflexivity.
Qed.

Section Prefix.

Variable repo : bytes.

Lemma split_prefix_empty :
  split_prefix repo [] = Returned (mkResult repo [] false StatusOK).
Proof. reflexivity. Qed.

Lemma split_prefix_blob (f : bytes) :
  strings.HasPrefix (f ++ str "/") (str "blob/") = true ->
  split_prefix repo f
  = Returned (mkResult repo
                (strings.TrimRight_slash (skipn 5 (f ++ str "/"))) true StatusOK).
Proof.
  intros H. unfold split_prefix.
  destruct f as [|c f]; [discriminate|]. cbn [length Nat.eqb negb].
  rewrite H. apply HasPrefix_inv in H. rewrite H at 1.
  cbn [str list_ascii_of_string app length].
  rewrite SplitAfterN_prefix5 by reflexivity. reflexivity.
Qed.

Lemma split_prefix_tree (f : bytes) :
  strings.HasPrefix (f ++ str "/") (str "tree/") = true ->
  split_prefix repo f
  = Returned (mkResult repo
                (if length (skipn 5 (f ++ str "/")) =? 0 then str "./"
                 else skipn 5 (f ++ str "/")) false StatusOK).
Proof.
  intros H. unfold split_prefix.
  destruct f as [|c f]; [discriminate|]. cbn [length Nat.eqb negb].
  replace (strings.HasPrefix ((c :: f) ++ str "/") (str "blob/")) with false.
  2:{ symmetry. apply HasPrefix_inv in H. rewrite H. reflexivity. }
  rewrite H. apply HasPrefix_inv in H. rewrite H at 1.
  cbn [str list_ascii_of_string app length].
  rewrite SplitAfterN_prefix5 by reflexivity. reflexivity.
Qed.

Lemma split_prefix_neither (f : bytes) :
  f <> [] ->
  strings.HasPrefix (f ++ str "/") (str "blob/") = false ->
  strings.HasPrefix (f ++ str "/") (str "tree/") = false ->
  split_prefix repo f
  = Returned (mkResult repo (f ++ str "/") false StatusNotFound).
Proof.
  intros Hne Hb Ht. unfold split_prefix.
  destruct f as [|c f]; [congruence|]. cbn [length Nat.eqb negb].
  now rewrite Hb, Ht.
Qed.

(** The prefix test returns, with the repository it was given and
    status 200 or 404. *)
Lemma split_prefix_returns (f : bytes) :
  exists r, split_prefix repo f = Returned r /\ repository r = repo
            /\ (status r = StatusOK \/ status r = StatusNotFound).
Proof.
  destruct f as [|c f].
  - eexists. split; [reflexivity|]. split; [reflexivity|now left].
  - destruct (strings.HasPrefix ((c :: f) ++ str "/") (str "blob/")) eqn:Hb.
    + rewrite split_prefix_blob by assumption.
      eexists. split; [reflexivity|]. split; [reflexivity|now left].
    + destruct (strings.HasPrefix ((c :: f) ++ str "/") (str "tree/")) eqn:Ht.
      * rewrite split_prefix_tree by assumption.
        eexists. split; [reflexivity|]. split; [reflexivity|now left].
      * rewrite split_prefix_neither by (assumption || discriminate).
        eexists. split; [reflexivity|]. split; [reflexivity|now right].
Qed.

End Prefix.

(** ** Resolution of a path below the serving root *)

Lemma firstn_add_skipn {A : Type} (k j : nat) (l : list A) :
  firstn (k + j) l = firstn k l ++ firstn j (skipn k l).
Proof.
  revert l. induction k as [|k IH]; intros l; [reflexivity|].
  destruct l as [|a l].
  - cbn. now rewrite firstn_nil.
  - cbn [Nat.add firstn skipn app]. now rewrite IH.
Qed.

Lemma elems_ok_firstn (k : nat) (ds : list bytes) :
  elems_ok ds -> elems_ok (firstn k ds).
Proof.
  intros H. rewrite <- (firstn_skipn k ds) in H.
  now apply elems_ok_app in H.
Qed.

Lemma elems_ok_skipn (k : nat) (ds : list bytes) :
  elems_ok ds -> elems_ok (skipn k ds).
Proof.
  intros H. rewrite <- (firstn_skipn k ds) in H.
  now apply elems_ok_app in H.
Qed.

Lemma check_repository_returns (Perms : Z) (os_Stat : bytes -> option FileInfo)
  (repo f : bytes) :
  exists r, check_repository Perms os_Stat repo f = Returned r
            /\ repository r = repo.
Proof.
  unfold check_repository. destruct (os_Stat repo) as [fi|].
  - destruct (CheckPerms Perms fi); cbn [negb].
    + destruct (split_prefix_returns repo f) as [r [Hr [Hrepo _]]].
      exists r. now split.
    + eexists. split; reflexivity.
  - eexists. split; reflexivity.
Qed.

Section Resolve.

Variable Perms : Z.
Variable os_Stat : bytes -> option FileInfo.
Variables rs ds : list bytes.
Hypothesis rs_ok : elems_ok rs.
Hypothesis ds_ok : elems_ok ds.
Hypothesis p_len : (Z.of_nat (length (abs_path (rs ++ ds))) < 2 ^ 63)%Z.

Lemma depth_bound : (Z.of_nat (length ds) < 2 ^ 63)%Z.
Proof.
  assert (Hok : elems_ok (rs ++ ds)) by (apply elems_ok_app; now split).
  pose proof (abs_path_length (rs ++ ds) Hok) as H.
  rewrite length_app in H. lia.
Qed.

Lemma resolve_no_marker (fuel : nat) :
  (forall j, 1 <= j <= length ds ->
             has_marker os_Stat (cursor rs ds j) = false) ->
  length ds < fuel ->
  SplitRepository_loop Perms os_Stat fuel (abs_path rs) 0
                       (abs_path (rs ++ ds)) []
  = Some (Returned (mkResult (abs_path (rs ++ ds)) [] false StatusOK),
          Z.of_nat (length ds)).
Proof.
  intros Hno Hfuel. destruct fuel as [|fuel']; [lia|].
  rewrite loop_first_pass.
  pose proof depth_bound as Hd.
  change (@nil ascii) with (rel_path []) at 1.
  rewrite walk_no_marker; try assumption; try reflexivity; try lia.
  - now rewrite app_nil_r.
  - intros j Hj. specialize (Hno j Hj). unfold has_marker, cursor in Hno.
    destruct (os_Stat (abs_path (rs ++ firstn j ds) ++ str "/.git"));
      [discriminate|reflexivity].
Qed.

Lemma resolve_marker (fuel k : nat) :
  1 <= k <= length ds ->
  has_marker os_Stat (cursor rs ds k) = true ->
  (forall j, k < j <= length ds ->
             has_marker os_Stat (cursor rs ds j) = false) ->
  length ds - k < fuel ->
  SplitRepository_loop Perms os_Stat fuel (abs_path rs) 0
                       (abs_path (rs ++ ds)) []
  = Some (check_repository Perms os_Stat (cursor rs ds k) (suffix ds k),
          Z.of_nat (length ds - k)).
Proof.
  intros Hk Hm Hno Hfuel. destruct fuel as [|fuel']; [lia|].
  rewrite loop_first_pass.
  pose proof depth_bound as Hd.
  unfold has_marker, cursor in Hm.
  destruct (os_Stat (abs_path (rs ++ firstn k ds) ++ str "/.git"))
    as [m|] eqn:Em; [|discriminate].
  assert (Hlen : length (skipn k ds) = length ds - k) by apply length_skipn.
  change (@nil ascii) with (rel_path []) at 1.
  rewrite <- (firstn_skipn k ds) at 1.
  rewrite (walk_marker Perms os_Stat rs rs_ok (firstn k ds) m (skipn k ds));
    try assumption; try reflexivity; try lia.
  - rewrite app_nil_r, Hlen. reflexivity.
  - now apply elems_ok_firstn.
  - now apply elems_ok_skipn.
  - intros H. apply (f_equal (@length bytes)) in H.
    rewrite length_firstn in H. cbn [length] in H. lia.
  - intros j Hj. rewrite <- firstn_add_skipn.
    specialize (Hno (k + j)). unfold has_marker, cursor in Hno.
    destruct (os_Stat (abs_path (rs ++ firstn (k + j) ds) ++ str "/.git")).
    + assert (true = false) by (apply Hno; lia). discriminate.
    + reflexivity.
Qed.

(** Walking up from the requested path, either no directory below
    the serving root holds a marker, or there is a first one. *)
Lemma marker_cases :
  (forall j, 1 <= j <= length ds ->
             has_marker os_Stat (cursor rs ds j) = false)
  \/ (exists k, 1 <= k <= length ds
                /\ has_marker os_Stat (cursor rs ds k) = true
                /\ forall j, k < j <= length ds ->
                             has_marker os_Stat (cursor rs ds j) = false).
Proof.
  assert (H : forall n,
             (forall j, length ds - n < j <= length ds ->
                        has_marker os_Stat (cursor rs ds j) = false)
             \/ (exists k, 1 <= k <= length ds
                   /\ has_marker os_Stat (cursor rs ds k) = true
                   /\ forall j, k < j <= length ds ->
                                has_marker os_Stat (cursor rs ds j) = false)).
  { induction n as [|n IH].
    - left. intros j Hj. lia.
    - destruct IH as [IH|IH]; [|now right].
      destruct (Nat.le_gt_cases (length ds) n) as [Hn|Hn].
      + left. intros j Hj. apply IH. lia.
      + destruct (has_marker os_Stat (cursor rs ds (length ds - n))) eqn:E.
        * right. exists (length ds - n). split; [lia|]. split; [assumption|].
          intros j Hj. apply IH. lia.
        * left. intros j Hj.
          destruct (Nat.eq_dec j (length ds - n)) as [->|Hne];
            [assumption|apply IH; lia]. }
  destruct (H (length ds)) as [Hl|Hr]; [left|now right].
  intros j Hj. apply Hl. lia.
Qed.

(** The loop returns within [length ds + 1] passes, at one of the
    directories between the serving root and the requested path. *)
Lemma resolve_returns (fuel : nat) :
  length ds < fuel ->
  exists r k i,
    SplitRepository_loop Perms os_Stat fuel (abs_path rs) 0
                         (abs_path (rs ++ ds)) []
    = Some (Returned r, i)
    /\ k <= length ds
    /\ repository r = cursor rs ds k
    /\ (0 <= i <= Z.of_nat (length ds))%Z.
Proof.
  intros Hfuel. destruct marker_cases as [Hno|[k (Hk & Hm & Hno)]].
  - eexists. exists (length ds). eexists.
    rewrite resolve_no_marker by assumption.
    split; [reflexivity|]. split; [lia|]. split; [|lia].
    unfold cursor. now rewrite firstn_all.
  - destruct (check_repository_returns Perms os_Stat (cursor rs ds k)
                (suffix ds k)) as [r [Hr Hrepo]].
    exists r, k. eexists.
    rewrite (resolve_marker fuel k) by (assumption || lia).
    rewrite Hr. split; [reflexivity|]. split; [lia|]. split; [assumption|lia].
Qed.

End Resolve.

(** ** Every cleaned absolute path is an [abs_path] *)

Lemma span_slash (l : bytes) :
  exists e r, l = e ++ r /\ ~ In slash e /\ path.at_end_or_slash r = true.
Proof.
  induction l as [|c l IH].
  - exists [], []. repeat split. intros [].
  - destruct (Ascii.eqb_spec c slash) as [->|Hc].
    + exists [], (slash :: l). repeat split. intros [].
    + destruct IH as (e & r & -> & Hns & Hr).
      exists (c :: e), r. repeat split; [|assumption].
      intros [H|H]; [congruence|contradiction].
Qed.

Lemma backtrack_loop_run (x base : bytes) (removed : ascii) :
  ~ In slash x -> removed <> slash -> base <> [] ->
  exists removed',
    removed' <> slash
    /\ path.backtrack_loop removed (x ++ base) 1
       = path.backtrack_loop removed' base 1.
Proof.
  revert removed. induction x as [|d x IH]; intros removed Hns Hr Hb.
  - exists removed. now split.
  - cbn [app path.backtrack_loop length].
    replace (1 <? S (length (x ++ base))) with true.
    2:{ symmetry. apply Nat.ltb_lt. rewrite length_app.
        destruct base; [congruence|cbn [length]; lia]. }
    replace (Ascii.eqb removed slash) with false
      by (symmetry; now apply Ascii.eqb_neq).
    cbn [andb negb]. apply IH; [| |assumption].
    + intros H. apply Hns. now right.
    + intros ->. apply Hns. now left.
Qed.

Lemma backtrack_abs_path (pre : list bytes) (c : bytes) :
  elems_ok pre -> elem_okb c = true ->
  path.backtrack (abs_path (pre ++ [c])) 1 = abs_path pre.
Proof.
  intros Hpre Hc. apply elem_okb_spec in Hc. destruct Hc as (Hne & Hns & _).
  destruct (exists_last Hne) as [c' [z Hz]]. subst c.
  rewrite abs_path_snoc. unfold path.backtrack.
  rewrite !rev_app_distr. cbn [rev app].
  assert (Hz : z <> slash).
  { intros ->. apply Hns. apply in_or_app. right. now left. }
  assert (Hc' : ~ In slash (rev c')).
  { intros H. apply Hns. apply in_or_app. left. now apply in_rev. }
  destruct (backtrack_loop_run (rev c') (rev (slashed pre) ++ [slash]) z Hc' Hz)
    as (z' & Hz' & ->); [destruct (rev (slashed pre)); discriminate|].
  destruct pre as [|a pre].
  - reflexivity.
  - rewrite slashed_rel_path by discriminate.
    rewrite rev_app_distr. cbn [rev app path.backtrack_loop length].
    replace (1 <? S (length (rev (rel_path (a :: pre)) ++ [slash]))) with true
      by (symmetry; apply Nat.ltb_lt; rewrite length_app; cbn [length]; lia).
    replace (Ascii.eqb z' slash) with false
      by (symmetry; now apply Ascii.eqb_neq).
    cbn [andb negb].
    pose proof (rel_path_nonempty a pre Hpre) as Hnn.
    destruct (rev (rel_path (a :: pre))) as [|y ys] eqn:E.
    + apply (f_equal (@rev ascii)) in E. rewrite rev_involutive in E.
      cbn [rev] in E. contradiction.
    + cbn [app path.backtrack_loop]. rewrite Ascii.eqb_refl.
      cbn [negb andb]. rewrite andb_false_r.
      change (y :: ys ++ [slash]) with ((y :: ys) ++ [slash]).
      rewrite <- E, rev_app_distr, rev_involutive. reflexivity.
Qed.

(** A slash-free run is a well-formed element unless it is empty,
    [.] or [..]. *)
Lemma elem_okb_cases (e : bytes) :
  ~ In slash e ->
  elem_okb e = true \/ e = [] \/ e = [dot] \/ e = [dot; dot].
Proof.
  intros Hns. destruct (elem_okb e) eqn:E; [now left|right].
  unfold elem_okb in E. apply no_slash_existsb in Hns. rewrite Hns in E.
  cbn [negb] in E. rewrite andb_true_r in E.
  destruct (bytes_eq_dec e []) as [->|H1]; [now left|].
  destruct (bytes_eq_dec e [dot]) as [->|H2]; [right; now left|].
  destruct (bytes_eq_dec e [dot; dot]) as [->|H3]; [right; now right|].
  apply bytes_eqb_neq in H1, H2, H3. rewrite H1, H2, H3 in E. discriminate.
Qed.

Lemma Clean_sep_abs (pre : list bytes) (e : bytes) :
  elems_ok pre -> Clean_sep true (abs_path pre) ++ e = abs_path (pre ++ [e]).
Proof. apply (Clean_sep_out true). Qed.

Lemma Clean_loop_rooted_form (n : nat) :
  forall (rest : bytes) (pre : list bytes),
    length rest <= n -> elems_ok pre ->
    exists cs, elems_ok cs
               /\ path.Clean_loop true rest (abs_path pre) 1 = abs_path cs.
Proof.
  induction n as [|n IH]; intros rest pre Hlen Hpre.
  - destruct rest; [|cbn in Hlen; lia]. now exists pre.
  - destruct rest as [|c0 rest0] eqn:Erest; [now exists pre|].
    rewrite <- Erest in *.
    destruct (span_slash rest) as (e & r & He & Hns & Hr).
    destruct (elem_okb_cases e Hns) as [Hok|[Ee|[Ee|Ee]]]; try subst e.
    + (* a real path element *)
      assert (Hpre' : elems_ok (pre ++ [e])).
      { apply elems_ok_app. split; [assumption|].
        apply elems_ok_cons. now split. }
      assert (He0 : 0 < length e).
      { apply elem_okb_spec in Hok. destruct Hok as [Hne _].
        destruct e; [congruence|cbn; lia]. }
      destruct r as [|r0 r].
      * rewrite app_nil_r in He. rewrite He.
        rewrite Clean_loop_elem_end by assumption.
        rewrite (Clean_sep_abs pre e Hpre). now exists (pre ++ [e]).
      * cbn in Hr. apply Ascii.eqb_eq in Hr. subst r0. rewrite He.
        rewrite Clean_loop_elem_slash by assumption.
        rewrite (Clean_sep_abs pre e Hpre).
        apply IH; [|assumption].
        rewrite He, length_app in Hlen. cbn [length] in Hlen. lia.
    + (* an empty element: the input starts with a slash *)
      cbn [app] in He. rewrite He in *. destruct r as [|r0 r]; [discriminate|].
      cbn in Hr. apply Ascii.eqb_eq in Hr. subst r0.
      cbn [path.Clean_loop]. rewrite Ascii.eqb_refl.
      apply IH; [cbn [length] in Hlen; lia|assumption].
    + (* a . element *)
      rewrite He. cbn [app path.Clean_loop].
      change (Ascii.eqb dot slash) with false. rewrite Ascii.eqb_refl, Hr.
      cbn [andb]. apply IH; [|assumption].
      rewrite He in Hlen. cbn [app length] in Hlen. lia.
    + (* a .. element *)
      rewrite He. cbn [app path.Clean_loop path.at_end_or_slash].
      change (Ascii.eqb dot slash) with false. rewrite Ascii.eqb_refl, Hr.
      cbn [andb negb].
      assert (Hlr : length r <= n).
      { rewrite He in Hlen. cbn [app length] in Hlen. lia. }
      destruct pre as [|a0 pre0] eqn:Epre.
      * cbn [abs_path rel_path length Nat.ltb Nat.leb].
        now apply (IH r []).
      * rewrite <- Epre in *.
        destruct (exists_last (l := pre)) as [pre' [c Hc]]; [congruence|].
        rewrite Hc in *. apply elems_ok_app in Hpre.
        destruct Hpre as [Hpre' Hc1].
        apply elems_ok_cons in Hc1. destruct Hc1 as [Hc1 _].
        replace (1 <? length (abs_path (pre' ++ [c]))) with true.
        2:{ symmetry. apply Nat.ltb_lt.
            assert (Hok : elems_ok (pre' ++ [c])).
            { apply elems_ok_app. split; [assumption|].
              apply elems_ok_cons. now split. }
            pose proof (abs_path_length _ Hok) as HL.
            rewrite length_app in HL. cbn [length] in HL. lia. }
        rewrite backtrack_abs_path by assumption.
        now apply IH.
Qed.

Lemma Clean_abs_form (p : bytes) :
  path.IsAbs p = true -> exists cs, elems_ok cs /\ path.Clean p = abs_path cs.
Proof.
  intros Habs. destruct p as [|c rest]; [discriminate|].
  cbn [path.IsAbs] in Habs. unfold path.Clean. rewrite Habs. cbv zeta iota.
  change [slash] with (abs_path []).
  destruct (Clean_loop_rooted_form (length rest) rest [] (Nat.le_refl _)
              elems_ok_nil) as (cs & Hcs & ->).
  exists cs. split; [assumption|reflexivity].
Qed.

(** A cleaned absolute path is the [abs_path] of well-formed elements. *)
Lemma cleaned_abs_elems (p : bytes) :
  path.IsAbs p = true -> path.Clean p = p ->
  exists cs, elems_ok cs /\ p = abs_path cs.
Proof.
  intros Habs Hclean. destruct (Clean_abs_form p Habs) as (cs & Hcs & H).
  exists cs. split; [assumption|congruence].
Qed.

(** ** Paths below a directory *)

Lemma first_slash_unique (a b x y : bytes) :
  ~ In slash a -> ~ In slash b ->
  a ++ slash :: x = b ++ slash :: y -> a = b /\ x = y.
Proof.
  revert b. induction a as [|c a IH]; intros b Ha Hb H.
  - destruct b as [|d b]; cbn [app] in H.
    + injection H as ->. now split.
    + injection H as <- _. exfalso. apply Hb. now left.
  - destruct b as [|d b]; cbn [app] in H.
    + injection H as -> _. exfalso. apply Ha. now left.
    + injection H as -> H.
      destruct (IH b) as [-> ->]; try assumption.
      * intros Hin. apply Ha. now right.
      * intros Hin. apply Hb. now right.
      * now split.
Qed.

Lemma elem_no_slash (c : bytes) : elem_okb c = true -> ~ In slash c.
Proof. intros H. now apply elem_okb_spec in H. Qed.

Lemma rel_path_prefix (rs : list bytes) :
  forall (cs : list bytes) (e : bytes),
    elems_ok cs -> elems_ok rs -> rs <> [] ->
    rel_path cs = rel_path rs ++ slash :: e ->
    exists ds, cs = rs ++ ds.
Proof.
  induction rs as [|r rs IH]; intros cs e Hcs Hrs Hne H; [congruence|].
  apply elems_ok_cons in Hrs. destruct Hrs as [Hr Hrs].
  destruct cs as [|c cs].
  - destruct (rel_path (r :: rs)); discriminate.
  - apply elems_ok_cons in Hcs. destruct Hcs as [Hc Hcs].
    pose proof (elem_no_slash c Hc) as Hcns.
    pose proof (elem_no_slash r Hr) as Hrns.
    destruct cs as [|c1 cs].
    + (* a single element cannot hold the slash *)
      exfalso. change (rel_path [c]) with c in H. apply Hcns. rewrite H.
      destruct rs as [|r1 rs].
      * change (rel_path [r]) with r. apply in_or_app. right. now left.
      * rewrite rel_path_cons by discriminate.
        rewrite <- app_assoc. apply in_or_app. right. now left.
    + rewrite rel_path_cons in H by discriminate.
      destruct rs as [|r1 rs].
      * change (rel_path [r]) with r in H.
        apply first_slash_unique in H; try assumption.
        destruct H as [-> _]. now exists (c1 :: cs).
      * rewrite (rel_path_cons r) in H by discriminate.
        rewrite <- app_assoc in H. cbn [app] in H.
        apply first_slash_unique in H; try assumption.
        destruct H as [-> H].
        destruct (IH (c1 :: cs) e Hcs Hrs) as [ds Hds];
          [discriminate|assumption|].
        exists ds. cbn [app]. now rewrite Hds.
Qed.

Lemma abs_path_slash (rs : list bytes) :
  elems_ok rs -> abs_path rs = [slash] -> rs = [].
Proof.
  intros Hok H. injection H as H. now apply rel_path_no_slash_nil in H.
Qed.

Lemma under_elems (rs cs : list bytes) :
  elems_ok rs -> elems_ok cs ->
  is_under (abs_path rs) (abs_path cs) = true ->
  exists ds, abs_path cs = abs_path (rs ++ ds) /\ elems_ok ds.
Proof.
  intros Hrs Hcs H. unfold is_under in H. apply orb_true_iff in H.
  destruct H as [H|H].
  - apply bytes_eqb_eq in H. exists []. rewrite app_nil_r. now split.
  - unfold dir_prefix in H.
    destruct (bytes_eqb (abs_path rs) [slash]) eqn:E.
    + apply bytes_eqb_eq in E. apply abs_path_slash in E; [|assumption].
      subst rs. now exists cs.
    + apply HasPrefix_inv in H. unfold abs_path in H.
      cbn [app] in H. injection H as H. rewrite <- app_assoc in H.
      cbn [app] in H.
      apply rel_path_prefix in H; try assumption.
      * destruct H as [ds ->]. exists ds. split; [reflexivity|].
        now apply elems_ok_app in Hcs.
      * intros ->. cbn in E. discriminate.
Qed.

Lemma abs_path_app_prefix (rs ds : list bytes) :
  elems_ok rs -> ds <> [] ->
  abs_path (rs ++ ds) = dir_prefix (abs_path rs) ++ rel_path ds.
Proof.
  intros Hrs Hds. unfold dir_prefix. destruct rs as [|r rs].
  - reflexivity.
  - replace (bytes_eqb (abs_path (r :: rs)) [slash]) with false.
    2:{ symmetry. apply bytes_eqb_neq. intros H.
        apply abs_path_slash in H; [discriminate|assumption]. }
    unfold abs_path. cbn [app]. f_equal.
    destruct (exists_last Hds) as [ds' [d ->]].
    replace (r :: rs ++ ds' ++ [d]) with (((r :: rs) ++ ds') ++ [d])
      by (cbn [app]; now rewrite <- app_assoc).
    rewrite !rel_path_slashed, slashed_app.
    rewrite (slashed_rel_path (r :: rs)) by discriminate.
    now rewrite <- !app_assoc.
Qed.

Lemma is_under_abs_path (rs ds : list bytes) :
  elems_ok rs -> is_under (abs_path rs) (abs_path (rs ++ ds)) = true.
Proof.
  intros Hrs. unfold is_under. apply orb_true_iff.
  destruct ds as [|d ds].
  - left. rewrite app_nil_r. apply bytes_eqb_refl.
  - right. rewrite abs_path_app_prefix by (assumption || discriminate).
    apply HasPrefix_app.
Qed.

(** A requested path below the serving root, both cleaned and
    absolute, in elements. *)
Lemma descendant_elems (toplevel p : bytes) :
  path.IsAbs toplevel = true -> path.Clean toplevel = toplevel ->
  path.IsAbs p = true -> path.Clean p = p ->
  is_under toplevel p = true ->
  exists rs ds, elems_ok rs /\ elems_ok ds
                /\ toplevel = abs_path rs /\ p = abs_path (rs ++ ds).
Proof.
  intros Ht1 Ht2 Hp1 Hp2 Hu.
  destruct (cleaned_abs_elems toplevel Ht1 Ht2) as (rs & Hrs & ->).
  destruct (cleaned_abs_elems p Hp1 Hp2) as (cs & Hcs & ->).
  destruct (under_elems rs cs Hrs Hcs Hu) as (ds & Hds & Hok).
  exists rs, ds. repeat split; assumption.
Qed.

Lemma path_elems_from_run (e cur rest : bytes) :
  ~ In slash e ->
  path_elems_from cur (e ++ rest) = path_elems_from (cur ++ e) rest.
Proof.
  revert cur. induction e as [|c e IH]; intros cur Hns.
  - now rewrite app_nil_r.
  - cbn [app path_elems_from].
    replace (Ascii.eqb c slash) with false.
    2:{ symmetry. apply Ascii.eqb_neq. intros ->. apply Hns. now left. }
    rewrite IH by (intros H; apply Hns; now right).
    now rewrite <- app_assoc.
Qed.

Lemma path_elems_from_slashed (cs : list bytes) (rest : bytes) :
  elems_ok cs ->
  path_elems_from [] (slashed cs ++ rest) = cs ++ path_elems_from [] rest.
Proof.
  induction cs as [|c cs IH]; intros Hok; [reflexivity|].
  apply elems_ok_cons in Hok. destruct Hok as [Hc Hcs].
  apply elem_okb_spec in Hc. destruct Hc as (Hne & Hns & _).
  rewrite slashed_cons, <- app_assoc.
  rewrite path_elems_from_run by assumption.
  cbn [app path_elems_from]. rewrite Ascii.eqb_refl.
  rewrite IH by assumption. destruct c; [congruence|reflexivity].
Qed.

Lemma path_elems_abs_path (cs : list bytes) :
  elems_ok cs -> path_elems (abs_path cs) = cs.
Proof.
  intros Hok. unfold path_elems, abs_path. cbn [path_elems_from].
  rewrite Ascii.eqb_refl.
  destruct cs as [|c0 cs0] eqn:E; [reflexivity|]. rewrite <- E in *.
  destruct (exists_last (l := cs)) as [cs' [c Hc]]; [congruence|].
  rewrite Hc in *. apply elems_ok_app in Hok. destruct Hok as [Hcs' Hc1].
  apply elems_ok_cons in Hc1. destruct Hc1 as [Hc1 _].
  apply elem_okb_spec in Hc1. destruct Hc1 as (Hne & Hns & _).
  rewrite rel_path_slashed, path_elems_from_slashed by assumption.
  rewrite <- (app_nil_r c) at 1. rewrite path_elems_from_run by assumption.
  cbn [app path_elems_from]. destruct c; [congruence|reflexivity].
Qed.

Lemma depth_below_abs_path (rs ds : list bytes) :
  elems_ok rs -> elems_ok ds ->
  depth_below (abs_path rs) (abs_path (rs ++ ds)) = length ds.
Proof.
  intros Hrs Hds. unfold depth_below.
  rewrite !path_elems_abs_path by (try apply elems_ok_app; auto).
  rewrite length_app. lia.
Qed.

(** ** The claims *)

Lemma cursor_under (rs ds : list bytes) (k : nat) :
  elems_ok rs -> elems_ok ds ->
  is_under (abs_path rs) (cursor rs ds k) = true
  /\ path.IsAbs (cursor rs ds k) = true
  /\ path.Clean (cursor rs ds k) = cursor rs ds k
  /\ is_under (cursor rs ds k) (abs_path (rs ++ ds)) = true.
Proof.
  intros Hrs Hds. unfold cursor.
  assert (Hok : elems_ok (rs ++ firstn k ds)).
  { apply elems_ok_app. split; [assumption|now apply elems_ok_firstn]. }
  split; [now apply is_under_abs_path|]. split; [reflexivity|].
  split; [now apply Clean_abs_path|].
  rewrite <- (firstn_skipn k ds) at 2. rewrite app_assoc.
  now apply is_under_abs_path.
Qed.

(** C1 (containment). For a serving root [toplevel] and a requested
    path [p], both absolute and cleaned, with [p] equal to [toplevel] or
    below it, [SplitRepository] returns (with any fuel above the depth
    of [p] below [toplevel]), and the repository it returns is
    [toplevel] or lies below it: it is a cleaned absolute path under
    [toplevel], so neither an ancestor nor a sibling of it, and [p] is
    in turn under it. *)
Theorem C1_containment (Perms : Z) (os_Stat : bytes -> option FileInfo)
  (toplevel p : bytes) (fuel : nat) :
  path.IsAbs toplevel = true -> path.Clean toplevel = toplevel ->
  path.IsAbs p = true -> path.Clean p = p ->
  is_under toplevel p = true ->
  (Z.of_nat (length p) < 2 ^ 63)%Z ->
  depth_below toplevel p < fuel ->
  exists r,
    SplitRepository Perms os_Stat fuel toplevel p = Some (Returned r)
    /\ is_under toplevel (repository r) = true
    /\ path.IsAbs (repository r) = true
    /\ path.Clean (repository r) = repository r
    /\ is_under (repository r) p = true.
Proof.
  intros Ht1 Ht2 Hp1 Hp2 Hu Hlen Hfuel.
  destruct (descendant_elems toplevel p Ht1 Ht2 Hp1 Hp2 Hu)
    as (rs & ds & Hrs & Hds & -> & ->).
  rewrite depth_below_abs_path in Hfuel by assumption.
  destruct (resolve_returns Perms os_Stat rs ds Hrs Hds Hlen fuel Hfuel)
    as (r & k & i & Hrun & Hk & Hrepo & Hi).
  exists r. unfold SplitRepository. rewrite Hrun. split; [reflexivity|].
  rewrite Hrepo. now apply cursor_under.
Qed.

Lemma C1_containment_witness :
  exists r,
    SplitRepository 0 fs_nested 5 (str "/srv") (str "/srv/a/b/blob/x")
    = Some (Returned r)
    /\ is_under (str "/srv") (repository r) = true
    /\ path.IsAbs (repository r) = true
    /\ path.Clean (repository r) = repository r
    /\ is_under (repository r) (str "/srv/a/b/blob/x") = true.
Proof.
  apply (C1_containment 0 fs_nested (str "/srv") (str "/srv/a/b/blob/x") 5);
    vm_compute; reflexivity || lia.
Defined.

(** C9 (termination bound), as amended. For [toplevel] and [p]
    absolute and cleaned with [p] under [toplevel], the loop of
    [SplitRepository] returns within one pass more than the depth of
    [p] below [toplevel]: the walk makes at most that many upward
    moves (the counter [i] of the loop is at most the depth when it
    returns), and the pass after the last move is the one that
    returns. *)
Theorem C9_termination_bound (Perms : Z) (os_Stat : bytes -> option FileInfo)
  (toplevel p : bytes) :
  path.IsAbs toplevel = true -> path.Clean toplevel = toplevel ->
  path.IsAbs p = true -> path.Clean p = p ->
  is_under toplevel p = true ->
  (Z.of_nat (length p) < 2 ^ 63)%Z ->
  exists r i,
    SplitRepository_loop Perms os_Stat (S (depth_below toplevel p))
                         toplevel 0 p []
    = Some (Returned r, i)
    /\ (0 <= i <= Z.of_nat (depth_below toplevel p))%Z.
Proof.
  intros Ht1 Ht2 Hp1 Hp2 Hu Hlen.
  destruct (descendant_elems toplevel p Ht1 Ht2 Hp1 Hp2 Hu)
    as (rs & ds & Hrs & Hds & -> & ->).
  rewrite depth_below_abs_path by assumption.
  destruct (resolve_returns Perms os_Stat rs ds Hrs Hds Hlen (S (length ds)))
    as (r & k & i & Hrun & Hk & Hrepo & Hi); [lia|].
  exists r, i. now split.
Qed.

Lemma C9_iterations_counterexample :
  depth_below (str "/srv") (str "/srv/plain/dir/file") = 3
  /\ SplitRepository_loop 0 fs_empty 3 (str "/srv") 0
       (str "/srv/plain/dir/file") [] = None
  /\ SplitRepository_loop 0 fs_empty 4 (str "/srv") 0
       (str "/srv/plain/dir/file") []
     = Some (Returned (mkResult (str "/srv/plain/dir/file") [] false StatusOK),
             3%Z).
Proof. vm_compute. repeat split. Qed.

Lemma C9_termination_bound_witness :
  exists r i,
    SplitRepository_loop 0 fs_empty
      (S (depth_below (str "/srv") (str "/srv/plain/dir/file")))
      (str "/srv") 0 (str "/srv/plain/dir/file") []
    = Some (Returned r, i)
    /\ (0 <= i <= Z.of_nat (depth_below (str "/srv") (str "/srv/plain/dir/file")))%Z.
Proof.
  apply (C9_termination_bound 0 fs_empty (str "/srv") (str "/srv/plain/dir/file"));
    vm_compute; reflexivity || lia.
Defined.

Lemma Join_dot_git (cs : list bytes) :
  elems_ok cs -> cs <> [] ->
  path.Join [abs_path cs; str ".git"] = abs_path cs ++ str "/.git".
Proof.
  intros Hok Hne. change (str ".git") with (rel_path [str ".git"]).
  rewrite Join_abs_rel by (assumption || reflexivity).
  unfold abs_path. rewrite rel_path_snoc by assumption. reflexivity.
Qed.

Lemma skipn_snoc_short (n : nat) (l : bytes) :
  n <= length l -> skipn n (l ++ str "/") = skipn n l ++ str "/".
Proof.
  intros H. rewrite skipn_app.
  replace (n - length l) with 0 by lia. reflexivity.
Qed.

Section Claims.

Variable Perms : Z.
Variable os_Stat : bytes -> option FileInfo.

(** The serving root is [abs_path rs], the requested path
    [abs_path (rs ++ ds)]: cleaned absolute paths, the second under
    the first ([descendant_elems]: every such pair has this form). *)
Variables rs ds : list bytes.
Hypothesis rs_ok : elems_ok rs.
Hypothesis ds_ok : elems_ok ds.
Hypothesis p_len : (Z.of_nat (length (abs_path (rs ++ ds))) < 2 ^ 63)%Z.

Variable fuel : nat.
Hypothesis enough_fuel : length ds < fuel.

(** C2 (no marker), as amended. When no directory from the requested
    path up to, and excluding, the serving root holds a [.git] entry of
    any kind, directory or file, the walk stops at the serving root
    and returns status 200 with [isFile] false, an empty [file], and
    as [repository] the join of the serving root and the accumulated
    suffix: the requested path itself, not the serving root. Unless
    the requested path is the serving root, [isGit] is false of it. *)
Theorem C2_no_marker_returns_requested_path :
  (forall j, 1 <= j <= length ds ->
             has_marker os_Stat (cursor rs ds j) = false) ->
  SplitRepository Perms os_Stat fuel (abs_path rs) (abs_path (rs ++ ds))
  = Some (Returned (mkResult (path.Join [abs_path rs; rel_path ds]) []
                             false StatusOK))
  /\ path.Join [abs_path rs; rel_path ds] = abs_path (rs ++ ds)
  /\ (ds <> [] -> fst (isGit os_Stat (abs_path (rs ++ ds))) = false).
Proof.
  intros Hno. unfold SplitRepository.
  rewrite resolve_no_marker by assumption.
  rewrite Join_abs_rel by assumption.
  split; [reflexivity|]. split; [reflexivity|].
  intros Hne. unfold isGit. rewrite Join_dot_git.
  - specialize (Hno (length ds)). unfold has_marker, cursor in Hno.
    rewrite firstn_all in Hno.
    destruct (os_Stat (abs_path (rs ++ ds) ++ str "/.git")); [|reflexivity].
    assert (true = false); [|discriminate].
    apply Hno. destruct ds; [congruence|cbn [length]; lia].
  - apply elems_ok_app. now split.
  - destruct rs; [assumption|discriminate].
Qed.

(** The walk found its first marker [k] elements below the serving
    root, at [cursor rs ds k]. *)
Variable k : nat.
Hypothesis k_range : 1 <= k <= length ds.
Hypothesis marker_here : has_marker os_Stat (cursor rs ds k) = true.
Hypothesis none_below :
  forall j, k < j <= length ds -> has_marker os_Stat (cursor rs ds j) = false.

Lemma resolve_first_marker :
  SplitRepository Perms os_Stat fuel (abs_path rs) (abs_path (rs ++ ds))
  = Some (check_repository Perms os_Stat (cursor rs ds k) (suffix ds k)).
Proof.
  unfold SplitRepository.
  rewrite (resolve_marker Perms os_Stat rs ds rs_ok ds_ok p_len fuel k)
    by (assumption || lia).
  reflexivity.
Qed.

(** C3 (innermost repository wins), as amended. The repository
    returned is the first directory holding a [.git] entry, directory
    or file, on the way up from the requested path and below the
    serving root, whatever markers the directories above it hold. *)
Theorem C3_innermost_wins :
  exists r,
    SplitRepository Perms os_Stat fuel (abs_path rs) (abs_path (rs ++ ds))
    = Some (Returned r)
    /\ repository r = cursor rs ds k.
Proof.
  rewrite resolve_first_marker.
  destruct (check_repository_returns Perms os_Stat (cursor rs ds k)
              (suffix ds k)) as [r [Hr Hrepo]].
  exists r. rewrite Hr. now split.
Qed.

(** C8 (internal error). When the stat of the directory fails after
    its [.git] was seen, the status is 500. *)
Theorem C8_stat_failure_is_internal_error :
  os_Stat (cursor rs ds k) = None ->
  SplitRepository Perms os_Stat fuel (abs_path rs) (abs_path (rs ++ ds))
  = Some (Returned (mkResult (cursor rs ds k) (suffix ds k) false
                             StatusInternalServerError)).
Proof.
  intros Hstat. rewrite resolve_first_marker.
  unfold check_repository. now rewrite Hstat.
Qed.

(** The stat of the directory succeeds. *)
Variable fi : FileInfo.
Hypothesis stat_here : os_Stat (cursor rs ds k) = Some fi.

(** C4 (gating at the marker), as amended. The status is 403 exactly
    when the full gate [CheckPerms] rejects the directory: when its
    name starts with a dot or the bits-only check rejects it. *)
Theorem C4_forbidden_iff_full_gate_rejects :
  exists r,
    SplitRepository Perms os_Stat fuel (abs_path rs) (abs_path (rs ++ ds))
    = Some (Returned r)
    /\ (status r = StatusForbidden <-> CheckPerms Perms fi = false)
    /\ (CheckPerms Perms fi = false <->
        strings.HasPrefix (Name fi) (str ".") = true
        \/ CheckPermBits Perms fi = false).
Proof.
  rewrite resolve_first_marker. unfold check_repository.
  rewrite stat_here.
  assert (Hgate : CheckPerms Perms fi = false <->
                  strings.HasPrefix (Name fi) (str ".") = true
                  \/ CheckPermBits Perms fi = false).
  { unfold CheckPerms.
    destruct (strings.HasPrefix (Name fi) (str ".")).
    - split; [now left|reflexivity].
    - split; [now right|]. intros [H|H]; [discriminate|assumption]. }
  destruct (CheckPerms Perms fi); cbn [negb].
  - destruct (split_prefix_returns (cursor rs ds k) (suffix ds k))
      as (r & Hr & _ & Hst).
    exists r. rewrite Hr. split; [reflexivity|]. split; [|assumption].
    split; [|discriminate].
    intros H. destruct Hst as [Hst|Hst]; rewrite Hst in H; discriminate.
  - eexists. split; [reflexivity|]. split; [|assumption].
    split; reflexivity.
Qed.

(** The directory passes the gate. *)
Hypothesis permitted : CheckPerms Perms fi = true.

Lemma resolve_permitted :
  SplitRepository Perms os_Stat fuel (abs_path rs) (abs_path (rs ++ ds))
  = Some (split_prefix (cursor rs ds k) (suffix ds k)).
Proof.
  rewrite resolve_first_marker. unfold check_repository.
  now rewrite stat_here, permitted.
Qed.

(** C7 (suffix classification). For a repository that is confirmed
    and permitted: a suffix beginning with [blob/] gives a file view,
    [file] being the suffix with the prefix stripped and the trailing
    slashes trimmed; a suffix beginning with [tree/] gives a directory
    view, [file] being the suffix with the prefix stripped (it keeps
    the slash the code appends), and the bare suffix [tree], whose
    remainder is empty, gives [./]; a non-empty suffix that, with a
    slash appended, starts with neither prefix gives 404; the empty
    suffix gives status 200 and no file. *)
Theorem C7_suffix_classification :
  let sfx := suffix ds k in
  let run := SplitRepository Perms os_Stat fuel (abs_path rs)
                             (abs_path (rs ++ ds)) in
  (strings.HasPrefix sfx (str "blob/") = true ->
   run = Some (Returned (mkResult (cursor rs ds k)
                 (strings.TrimRight_slash (skipn 5 sfx)) true StatusOK)))
  /\ (strings.HasPrefix sfx (str "tree/") = true ->
      run = Some (Returned (mkResult (cursor rs ds k)
                    (skipn 5 sfx ++ str "/") false StatusOK)))
  /\ (sfx = str "tree" ->
      run = Some (Returned (mkResult (cursor rs ds k) (str "./") false
                                     StatusOK)))
  /\ (sfx <> [] ->
      strings.HasPrefix (sfx ++ str "/") (str "blob/") = false ->
      strings.HasPrefix (sfx ++ str "/") (str "tree/") = false ->
      run = Some (Returned (mkResult (cursor rs ds k) (sfx ++ str "/") false
                                     StatusNotFound)))
  /\ (sfx = [] ->
      run = Some (Returned (mkResult (cursor rs ds k) [] false StatusOK))).
Proof.
  cbv zeta. rewrite resolve_permitted.
  assert (Hlen : forall pre, strings.HasPrefix (suffix ds k) pre = true ->
                             length pre <= length (suffix ds k)).
  { intros pre H. apply HasPrefix_inv in H. rewrite H, length_app. lia. }
  split; [|split; [|split; [|split]]].
  - intros H. rewrite split_prefix_blob by now apply HasPrefix_snoc.
    rewrite (skipn_snoc_short 5) by exact (Hlen _ H).
    now rewrite TrimRight_slash_slash.
  - intros H. rewrite split_prefix_tree by now apply HasPrefix_snoc.
    rewrite (skipn_snoc_short 5) by exact (Hlen _ H).
    rewrite length_app, Nat.add_comm. reflexivity.
  - intros ->. reflexivity.
  - intros Hne Hb Ht. now rewrite split_prefix_neither.
  - intros ->. reflexivity.
Qed.

(** C10 (bare [blob]). When the suffix is exactly [blob], the result
    is status 200 with [isFile] true and an empty [file]. *)
Theorem C10_bare_blob :
  suffix ds k = str "blob" ->
  SplitRepository Perms os_Stat fuel (abs_path rs) (abs_path (rs ++ ds))
  = Some (Returned (mkResult (cursor rs ds k) [] true StatusOK)).
Proof.
  intros H. rewrite resolve_permitted, H. reflexivity.
Qed.

End Claims.

(** ** The permission gate *)

Lemma gate_table :
  forallb (fun n => gate_table_ok 0 (Z.of_nat n) && gate_table_ok 1 (Z.of_nat n)
                    && gate_table_ok 2 (Z.of_nat n))
          (seq 0 512) = true.
Proof. vm_compute. reflexivity. Qed.

Lemma Perm_range (m : Z) : (0 <= Perm m < 512)%Z.
Proof.
  unfold Perm, ModePerm. change 511%Z with (Z.ones 9).
  rewrite Z.land_ones by lia. apply Z.mod_pos_bound. lia.
Qed.

Lemma grants_Perm (m class bit : Z) :
  (0 <= class <= 2)%Z -> (0 <= bit <= 2)%Z ->
  grants (Perm m) class bit = grants m class bit.
Proof.
  intros Hc Hb. unfold grants, Perm, ModePerm. change 511%Z with (Z.ones 9).
  rewrite Z.land_spec, Z.ones_spec_low by lia. apply andb_true_r.
Qed.

Lemma CheckPermBits_Perm (class : Z) (name : bytes) (d : bool) (m : Z) :
  CheckPermBits class (mkFileInfo name d m)
  = CheckPermBits class (mkFileInfo [] d (Perm m)).
Proof.
  unfold CheckPermBits. cbn [IsDir Mode]. f_equal. f_equal.
  unfold Perm. now rewrite <- Z.land_assoc, Z.land_diag.
Qed.

(** For the three thresholds, [CheckPermBits] accepts a directory when
    its bits grant read or execute to the class, and another entry when
    they grant read. *)
Lemma CheckPermBits_spec (class : Z) (info : FileInfo) :
  (0 <= class <= 2)%Z ->
  CheckPermBits class info
  = if IsDir info
    then grants (Mode info) class 2 || grants (Mode info) class 0
    else grants (Mode info) class 2.
Proof.
  intros Hc. destruct info as [name d m]. cbn [IsDir Mode].
  rewrite CheckPermBits_Perm.
  rewrite <- !(grants_Perm m class) by lia.
  pose proof (Perm_range m) as Hr.
  pose proof gate_table as HT. rewrite forallb_forall in HT.
  specialize (HT (Z.to_nat (Perm m))).
  rewrite Z2Nat.id in HT by lia.
  assert (Hin : In (Z.to_nat (Perm m)) (seq 0 512)) by (apply in_seq; lia).
  specialize (HT Hin). apply andb_true_iff in HT. destruct HT as [HT H2].
  apply andb_true_iff in HT. destruct HT as [H0 H1].
  assert (Hclass : class = 0%Z \/ class = 1%Z \/ class = 2%Z) by lia.
  unfold gate_table_ok in *.
  destruct Hclass as [-> | [-> | ->]].
  - apply andb_true_iff in H0. destruct H0 as [Hd Hf].
    apply Bool.eqb_prop in Hd, Hf. now destruct d.
  - apply andb_true_iff in H1. destruct H1 as [Hd Hf].
    apply Bool.eqb_prop in Hd, Hf. now destruct d.
  - apply andb_true_iff in H2. destruct H2 as [Hd Hf].
    apply Bool.eqb_prop in Hd, Hf. now destruct d.
Qed.

(** C5 (bits-only gate). A directory whose bits grant read but not
    execute to the class passes [CheckPermBits]: mode 0704 under the
    threshold "other". *)
Theorem C5_directory_read_without_execute_passes :
  CheckPermBits 0 (dir_info "pub" (perm_bits 7 0 4)) = true
  /\ grants (Mode (dir_info "pub" (perm_bits 7 0 4))) 0 2 = true
  /\ grants (Mode (dir_info "pub" (perm_bits 7 0 4))) 0 0 = false.
Proof. vm_compute. repeat split. Qed.

(** Threshold semantics: a directory with bits 0755 passes both gates
    under "other"; with bits 0750 it fails both under "other" and passes
    both under "owner". *)
Example threshold_semantics :
  CheckPermBits 0 (dir_info "d" (perm_bits 7 5 5)) = true
  /\ CheckPerms 0 (dir_info "d" (perm_bits 7 5 5)) = true
  /\ CheckPermBits 0 (dir_info "d" (perm_bits 7 5 0)) = false
  /\ CheckPerms 0 (dir_info "d" (perm_bits 7 5 0)) = false
  /\ CheckPermBits 2 (dir_info "d" (perm_bits 7 5 0)) = true
  /\ CheckPerms 2 (dir_info "d" (perm_bits 7 5 0)) = true.
Proof. vm_compute. repeat split. Qed.

Lemma dirbuf_names_pass (Perms : Z) (os_Stat : bytes -> option FileInfo)
  (url directory : bytes) (dirnames : list bytes) (d : dirList) :
  In d (MakeDirPage_dirbuf Perms os_Stat url directory dirnames) ->
  exists n info,
    In n dirnames
    /\ os_Stat (directory ++ str "/" ++ n) = Some info
    /\ CheckPerms Perms info = true
    /\ d = mkDirList (url ++ Name info ++ str "/") (Name info).
Proof.
  induction dirnames as [|n dirnames IH]; cbn [MakeDirPage_dirbuf]; [intros []|].
  destruct (os_Stat (directory ++ str "/" ++ n)) as [info|] eqn:E.
  - destruct (CheckPerms Perms info) eqn:EC.
    + intros [<-|H].
      * exists n, info. repeat split; [now left|assumption|assumption].
      * destruct (IH H) as (n' & info' & Hn & Hrest).
        exists n', info'. split; [now right|assumption].
    + intros H. destruct (IH H) as (n' & info' & Hn & Hrest).
      exists n', info'. split; [now right|assumption].
  - intros H. destruct (IH H) as (n' & info' & Hn & Hrest).
    exists n', info'. split; [now right|assumption].
Qed.

(** C6 (hidden suppression). An entry whose name starts with a dot
    fails [CheckPerms] whatever its bits and type, and no entry listed
    by [MakeDirPage] is made from it: every link of the page whose name
    is the entry's is the navigation link [..] to the parent. *)
Theorem C6_hidden_suppression (Perms : Z) (info : FileInfo) :
  strings.HasPrefix (Name info) (str ".") = true ->
  CheckPerms Perms info = false
  /\ (forall os_Stat url directory dirnames d,
         In d (MakeDirPage_dirbuf Perms os_Stat url directory dirnames) ->
         dl_Name d <> Name info)
  /\ (forall os_Stat pagepath url directory dirnames d,
         In d (MakeDirPage_List Perms os_Stat pagepath url directory dirnames) ->
         dl_Name d = Name info ->
         d = mkDirList (url ++ str "../") (str "..")).
Proof.
  intros Hdot.
  assert (Hbuf : forall os_Stat url directory dirnames d,
             In d (MakeDirPage_dirbuf Perms os_Stat url directory dirnames) ->
             dl_Name d <> Name info).
  { intros os_Stat url directory dirnames d Hin Hname.
    destruct (dirbuf_names_pass _ _ _ _ _ _ Hin) as (n & info' & _ & _ & Hc & ->).
    cbn [dl_Name] in Hname. unfold CheckPerms in Hc.
    rewrite Hname, Hdot in Hc. discriminate. }
  split; [|split].
  - unfold CheckPerms. now rewrite Hdot.
  - exact Hbuf.
  - intros os_Stat pagepath url directory dirnames d Hin Hname.
    unfold MakeDirPage_List in Hin. apply in_app_or in Hin.
    destruct Hin as [Hin|Hin].
    + destruct (negb (bytes_eqb pagepath [])); [|destruct Hin].
      destruct Hin as [<-|[<-|[]]]; [|reflexivity].
      cbn [dl_Name] in Hname. rewrite <- Hname in Hdot. discriminate.
    + exfalso. exact (Hbuf _ _ _ _ _ Hin Hname).
Qed.

Lemma C6_hidden_suppression_witness :
  CheckPerms 0 (dir_info ".secret" (perm_bits 7 7 7)) = false
  /\ MakeDirPage_List 0 fs_listing (str "/pub") (str "http://host/pub/")
       (str "/srv/pub") [str "notes"; str ".secret"; str "private"]
     = [ mkDirList (str "/") (str "/");
         mkDirList (str "http://host/pub/../") (str "..");
         mkDirList (str "http://host/pub/notes/") (str "notes") ].
Proof.
  split.
  - exact (proj1 (C6_hidden_suppression 0 (dir_info ".secret" (perm_bits 7 7 7))
                    eq_refl)).
  - vm_compute. reflexivity.
Defined.

(** ** The claims at concrete requests *)

(** Two requests for [/srv/plain/dir/file] under [/srv], no directory
    on the way holding a [.git] subdirectory. On the empty filesystem
    the repository returned is the requested path, not the serving
    root, and the inner path is empty, not the accumulated suffix. With
    a [.git] that is a regular file in [/srv/plain], the walk stops
    there and the answer is 404. *)
Lemma C2_no_marker_counterexample :
  (forall j, 1 <= j <= 3 ->
     has_marker fs_empty
       (cursor [str "srv"] [str "plain"; str "dir"; str "file"] j) = false)
  /\ SplitRepository 0 fs_empty 4 (str "/srv") (str "/srv/plain/dir/file")
     = Some (Returned (mkResult (str "/srv/plain/dir/file") [] false StatusOK))
  /\ str "/srv/plain/dir/file" <> str "/srv"
  /\ [] <> str "plain/dir/file"
  /\ (forall j, 1 <= j <= 3 ->
        has_git_subdirectory fs_git_file
          (cursor [str "srv"] [str "plain"; str "dir"; str "file"] j) = false)
  /\ SplitRepository 0 fs_git_file 4 (str "/srv") (str "/srv/plain/dir/file")
     = Some (Returned (mkResult (str "/srv/plain") (str "dir/file/") false
                                StatusNotFound))
  /\ StatusNotFound <> StatusOK.
Proof.
  split; [intros j Hj; reflexivity|].
  split; [vm_compute; reflexivity|].
  split; [discriminate|]. split; [discriminate|].
  split; [by_levels|].
  split; [vm_compute; reflexivity|discriminate].
Qed.

Lemma C2_no_marker_witness :
  SplitRepository 0 fs_empty 4 (str "/srv") (str "/srv/plain/dir/file")
  = Some (Returned (mkResult (str "/srv/plain/dir/file") [] false StatusOK))
  /\ path.Join [str "/srv"; str "plain/dir/file"] = str "/srv/plain/dir/file"
  /\ fst (isGit fs_empty (str "/srv/plain/dir/file")) = false.
Proof.
  destruct (C2_no_marker_returns_requested_path 0 fs_empty
              [str "srv"] [str "plain"; str "dir"; str "file"]
              eq_refl eq_refl eq_refl 4 (le_n 4)
              (fun j _ => eq_refl)) as (H1 & H2 & H3).
  split; [exact H1|]. split; [exact H2|].
  apply H3. discriminate.
Defined.

Lemma C3_innermost_wins_witness :
  exists r,
    SplitRepository 0 fs_nested 5 (str "/srv") (str "/srv/a/b/blob/x")
    = Some (Returned r)
    /\ repository r = str "/srv/a/b".
Proof.
  refine (C3_innermost_wins 0 fs_nested
            [str "srv"] [str "a"; str "b"; str "blob"; str "x"]
            eq_refl eq_refl eq_refl 5 (le_n 5) 2 _ eq_refl _).
  - cbn [length]. lia.
  - by_levels.
Defined.

(** On the way up from [/srv/a/b/blob/x] the first directory that
    holds a [.git] subdirectory is [/srv/a]; the repository returned
    is [/srv/a/b], whose [.git] is a regular file. *)
Lemma C3_git_file_counterexample :
  has_git_subdirectory fs_git_file_nested (str "/srv/a/b/blob/x") = false
  /\ has_git_subdirectory fs_git_file_nested (str "/srv/a/b/blob") = false
  /\ has_git_subdirectory fs_git_file_nested (str "/srv/a/b") = false
  /\ has_git_subdirectory fs_git_file_nested (str "/srv/a") = true
  /\ SplitRepository 0 fs_git_file_nested 5 (str "/srv")
                     (str "/srv/a/b/blob/x")
     = Some (Returned (mkResult (str "/srv/a/b") (str "x") true StatusOK))
  /\ str "/srv/a/b" <> str "/srv/a".
Proof. vm_compute. repeat split; discriminate. Qed.

Lemma C4_bits_only_counterexample :
  has_marker fs_hidden (str "/srv/.dot") = true
  /\ fs_hidden (str "/srv/.dot") = Some (dir_info ".dot" (perm_bits 7 5 5))
  /\ SplitRepository 0 fs_hidden 2 (str "/srv") (str "/srv/.dot")
     = Some (Returned (mkResult (str "/srv/.dot") [] false StatusForbidden))
  /\ ~ (StatusForbidden = StatusForbidden <->
        CheckPermBits 0 (dir_info ".dot" (perm_bits 7 5 5)) = false).
Proof.
  split; [reflexivity|]. split; [reflexivity|].
  split; [vm_compute; reflexivity|].
  intros [H _]. specialize (H eq_refl). vm_compute in H. discriminate.
Qed.

Lemma C4_forbidden_iff_full_gate_rejects_witness :
  exists r,
    SplitRepository 0 fs_hidden 2 (str "/srv") (str "/srv/.dot")
    = Some (Returned r)
    /\ (status r = StatusForbidden <->
        CheckPerms 0 (dir_info ".dot" (perm_bits 7 5 5)) = false)
    /\ (CheckPerms 0 (dir_info ".dot" (perm_bits 7 5 5)) = false <->
        strings.HasPrefix (Name (dir_info ".dot" (perm_bits 7 5 5))) (str ".")
        = true
        \/ CheckPermBits 0 (dir_info ".dot" (perm_bits 7 5 5)) = false).
Proof.
  refine (C4_forbidden_iff_full_gate_rejects 0 fs_hidden
            [str "srv"] [str ".dot"]
            eq_refl eq_refl eq_refl 2 (le_n 2) 1 _ eq_refl _
            (dir_info ".dot" (perm_bits 7 5 5)) eq_refl).
  - cbn [length]. lia.
  - by_levels.
Defined.

Lemma C7_suffix_classification_witness :
  SplitRepository 0 fs_nested 5 (str "/srv") (str "/srv/a/b/blob/README.md")
  = Some (Returned (mkResult (str "/srv/a/b") (str "README.md") true StatusOK)).
Proof.
  refine (proj1 (C7_suffix_classification 0 fs_nested
                   [str "srv"] [str "a"; str "b"; str "blob"; str "README.md"]
                   eq_refl eq_refl eq_refl 5 (le_n 5) 2 _ eq_refl _
                   (dir_info "b" (perm_bits 7 5 5)) eq_refl eq_refl)
                eq_refl).
  - cbn [length]. lia.
  - by_levels.
Defined.

Lemma C8_stat_failure_is_internal_error_witness :
  SplitRepository 0 fs_vanished 3 (str "/srv") (str "/srv/a/x")
  = Some (Returned (mkResult (str "/srv/a") (str "x") false
                             StatusInternalServerError)).
Proof.
  refine (C8_stat_failure_is_internal_error 0 fs_vanished
            [str "srv"] [str "a"; str "x"]
            eq_refl eq_refl eq_refl 3 (le_n 3) 1 _ eq_refl _ eq_refl).
  - cbn [length]. lia.
  - by_levels.
Defined.

Lemma C10_bare_blob_witness :
  SplitRepository 0 fs_nested 4 (str "/srv") (str "/srv/a/b/blob")
  = Some (Returned (mkResult (str "/srv/a/b") [] true StatusOK)).
Proof.
  refine (C10_bare_blob 0 fs_nested
            [str "srv"] [str "a"; str "b"; str "blob"]
            eq_refl eq_refl eq_refl 4 (le_n 4) 2 _ eq_refl _
            (dir_info "b" (perm_bits 7 5 5)) eq_refl eq_refl eq_refl).
  - cbn [length]. lia.
  - by_levels.
Defined.

(** Blob/tree classification, the other two cases. *)
Example tree_view :
  SplitRepository 0 fs_nested 6 (str "/srv") (str "/srv/a/b/tree/src/lib")
  = Some (Returned (mkResult (str "/srv/a/b") (str "src/lib/") false StatusOK)).
Proof. vm_compute. reflexivity. Qed.

Example neither_prefix :
  SplitRepository 0 fs_nested 5 (str "/srv") (str "/srv/a/b/neither/thing")
  = Some (Returned (mkResult (str "/srv/a/b") (str "neither/thing/") false
                             StatusNotFound)).
Proof. vm_compute. reflexivity. Qed.

Example bare_tree :
  SplitRepository 0 fs_nested 4 (str "/srv") (str "/srv/a/b/tree")
  = Some (Returned (mkResult (str "/srv/a/b") (str "./") false StatusOK)).
Proof. vm_compute. reflexivity. Qed.

(** The [.git] of the serving root itself is not looked at by the walk:
    a request for the root returns it with status 200, and [isGit] is
    then true of it. *)
Example root_repository :
  SplitRepository 0 fs_root_repo 1 (str "/srv") (str "/srv")
  = Some (Returned (mkResult (str "/srv") [] false StatusOK))
  /\ fst (isGit fs_root_repo (str "/srv")) = true.
Proof. vm_compute. split; reflexivity. Qed.

(** ** A serving root that is not cleaned *)

(** On an empty filesystem the loop, once its cursor is [/], stays
    there when the serving root is [/srv/]. *)
Lemma loop_at_slash_never_returns (fuel : nat) :
  forall (i : Z) (file : bytes),
    SplitRepository_loop 0 fs_empty fuel (str "/srv/") i (str "/") file = None.
Proof.
  induction fuel as [|fuel IH]; intros i file; [reflexivity|].
  cbn [SplitRepository_loop].
  change (path.Dir (str "/")) with (str "/").
  assert (Hcur : (if negb (i =? 0)%Z then str "/" else str "/") = str "/")
    by (destruct (negb (i =? 0)%Z); reflexivity).
  rewrite Hcur.
  change (bytes_eqb (str "/") (str "/srv/")) with false.
  change (fs_empty (str "/" ++ str "/.git")) with (@None FileInfo).
  cbv iota. apply IH.
Qed.

(** The result of [path.Clean(toplevel)] is discarded on the first
    line of [SplitRepository]: with the serving root given as [/srv/]
    and no [.git] anywhere, the cursor passes [/srv] without meeting
    the root and the loop does not return, whatever the fuel. *)
Example uncleaned_root_never_returns (fuel : nat) :
  SplitRepository 0 fs_empty fuel (str "/srv/") (str "/srv/x") = None.
Proof.
  unfold SplitRepository.
  destruct fuel as [|[|[|fuel]]]; try reflexivity.
  replace (SplitRepository_loop 0 fs_empty (S (S (S fuel))) (str "/srv/") 0
             (str "/srv/x") [])
    with (SplitRepository_loop 0 fs_empty fuel (str "/srv/") 3
            (str "/") (str "srv/x")).
  - now rewrite loop_at_slash_never_returns.
  - destruct fuel; reflexivity.
Qed.


(** ** What [SplitRepository] returns, whatever it is given *)

Lemma HasSuffix_snoc (s : bytes) (c : ascii) :
  strings.HasSuffix (s ++ [c]) [c] = true.
Proof.
  unfold strings.HasSuffix. rewrite length_app. cbn [length].
  replace (length s + 1 - 1) with (length s) by lia.
  rewrite skipn_app, skipn_all, Nat.sub_diag. cbn [skipn app].
  rewrite bytes_eqb_refl. now replace (1 <=? length s + 1) with true
    by (symmetry; apply Nat.leb_le; lia).
Qed.

Lemma HasSuffix_snoc_inv (s : bytes) (c : ascii) :
  strings.HasSuffix s [c] = true -> exists s', s = s' ++ [c].
Proof.
  unfold strings.HasSuffix. cbn [length]. intros H.
  apply andb_true_iff in H. destruct H as [Hlen H].
  apply Nat.leb_le in Hlen. apply bytes_eqb_eq in H.
  exists (firstn (length s - 1) s).
  rewrite <- H. symmetry. apply firstn_skipn.
Qed.

Lemma trim_left_slash_head (s : bytes) :
  path.IsAbs (strings.trim_left_slash s) = false.
Proof.
  induction s as [|c s IH]; [reflexivity|].
  cbn [strings.trim_left_slash].
  destruct (Ascii.eqb c slash) eqn:E; [assumption|exact E].
Qed.

Lemma TrimRight_slash_no_slash (x : bytes) :
  strings.HasSuffix (strings.TrimRight_slash x) [slash] = false.
Proof.
  destruct (strings.HasSuffix (strings.TrimRight_slash x) [slash]) eqn:E;
    [|reflexivity].
  apply HasSuffix_snoc_inv in E. destruct E as [s' E].
  unfold strings.TrimRight_slash in E.
  apply (f_equal (@rev ascii)) in E.
  rewrite rev_involutive, rev_app_distr in E. cbn [rev app] in E.
  pose proof (trim_left_slash_head (rev x)) as H. rewrite E in H.
  cbn in H. discriminate.
Qed.

Lemma after_first_slash_rest (x : bytes) :
  exists a b,
    strings.after_first_slash (x ++ [slash]) = Some (a, b)
    /\ (b = [] \/ exists b', b = b' ++ [slash]).
Proof.
  induction x as [|c x IH]; cbn [app strings.after_first_slash].
  - rewrite Ascii.eqb_refl. exists [slash], []. split; [reflexivity|now left].
  - destruct (Ascii.eqb c slash).
    + exists [c], (x ++ [slash]). split; [reflexivity|]. right. now exists x.
    + destruct IH as (a & b & -> & Hb). exists (c :: a), b. now split.
Qed.

(** The prefix test on any [file]: it returns, with status 200 or 404,
    and the [file] it returns ends in a slash exactly when it is a
    directory view with something to show. *)
Lemma split_prefix_shape (repo f : bytes) :
  exists r,
    split_prefix repo f = Returned r
    /\ repository r = repo
    /\ (status r = StatusOK \/ status r = StatusNotFound)
    /\ (isFile r = true -> status r = StatusOK)
    /\ (isFile r = true -> strings.HasSuffix (file r) (str "/") = false)
    /\ (isFile r = false -> file r <> [] ->
        strings.HasSuffix (file r) (str "/") = true).
Proof.
  unfold split_prefix. destruct f as [|c f].
  - cbn [length Nat.eqb negb]. eexists. split; [reflexivity|]. cbn.
    repeat split; try (now left); try discriminate; congruence.
  - cbn [length Nat.eqb negb].
    destruct (after_first_slash_rest (c :: f)) as (a & b & Hab & Hb).
    unfold strings.SplitAfterN_slash_2.
    change (str "/") with [slash]. rewrite Hab. cbn [nth_error].
    destruct (strings.HasPrefix ((c :: f) ++ [slash]) (str "blob/")).
    + eexists. split; [reflexivity|]. cbn [repository status isFile file].
      repeat split; try (now left); try discriminate.
      intros _. apply TrimRight_slash_no_slash.
    + destruct (strings.HasPrefix ((c :: f) ++ [slash]) (str "tree/")).
      * eexists. split; [reflexivity|]. cbn [repository status isFile file].
        repeat split; try (now left); try discriminate.
        intros _ _. destruct Hb as [->|[b' ->]]; [reflexivity|].
        replace (length (b' ++ [slash]) =? 0) with false
          by (symmetry; apply Nat.eqb_neq; rewrite length_app; cbn; lia).
        apply HasSuffix_snoc.
      * eexists. split; [reflexivity|]. cbn [repository status isFile file].
        repeat split; try (now right); try discriminate.
        intros _ _. change (c :: f ++ [slash]) with ((c :: f) ++ [slash]).
        apply HasSuffix_snoc.
Qed.

Lemma check_repository_ok (Perms : Z) (os_Stat : bytes -> option FileInfo)
  (repo f : bytes) :
  exists r, check_repository Perms os_Stat repo f = Returned r /\ result_ok r.
Proof.
  unfold check_repository. destruct (os_Stat repo) as [fi|].
  - destruct (CheckPerms Perms fi); cbn [negb].
    + destruct (split_prefix_shape repo f) as (r & Hr & _ & Hst & H1 & H2 & H3).
      exists r. split; [assumption|]. unfold result_ok.
      split; [destruct Hst; tauto|]. repeat split; auto.
    + eexists. split; [reflexivity|]. unfold result_ok. cbn.
      repeat split; try discriminate. right. now left.
  - eexists. split; [reflexivity|]. unfold result_ok. cbn.
    repeat split; try discriminate. right. right. now right.
Qed.

Lemma loop_result_ok (Perms : Z) (os_Stat : bytes -> option FileInfo)
  (toplevel : bytes) (fuel : nat) :
  forall (i : Z) (repo f : bytes) (o : outcome) (n : Z),
    SplitRepository_loop Perms os_Stat fuel toplevel i repo f = Some (o, n) ->
    exists r, o = Returned r /\ result_ok r.
Proof.
  induction fuel as [|fuel IH]; intros i repo f o n H; [discriminate|].
  cbn [SplitRepository_loop] in H.
  destruct (bytes_eqb _ toplevel).
  - injection H as <- _. eexists. split; [reflexivity|].
    unfold result_ok. cbn. repeat split; try discriminate; try congruence.
    now left.
  - destruct (os_Stat _).
    + injection H as <- _. apply check_repository_ok.
    + exact (IH _ _ _ _ _ H).
Qed.

(** X1 (results are well formed). Whatever the serving root, the
    requested path and the filesystem, a call of [SplitRepository] that
    returns does not panic (the indexing of [SplitAfterN(...)[1]] stays
    in range), its status is 200, 403, 404 or 500, and [isFile] is set
    only together with status 200. *)
Theorem X1_results_are_well_formed (Perms : Z)
  (os_Stat : bytes -> option FileInfo) (fuel : nat) (toplevel p : bytes)
  (o : outcome) :
  SplitRepository Perms os_Stat fuel toplevel p = Some o ->
  exists r,
    o = Returned r
    /\ (status r = StatusOK \/ status r = StatusForbidden
        \/ status r = StatusNotFound \/ status r = StatusInternalServerError)
    /\ (isFile r = true -> status r = StatusOK).
Proof.
  unfold SplitRepository. intros H.
  destruct (SplitRepository_loop Perms os_Stat fuel toplevel 0 p [])
    as [[o' n]|] eqn:E; [|discriminate].
  injection H as <-.
  destruct (loop_result_ok _ _ _ _ _ _ _ _ _ E) as (r & -> & Hs & Hf & _).
  exists r. now repeat split.
Qed.

Lemma X1_results_are_well_formed_witness :
  exists r,
    Returned (mkResult (str "/srv/a/b") (str "x") true StatusOK) = Returned r
    /\ (status r = StatusOK \/ status r = StatusForbidden
        \/ status r = StatusNotFound \/ status r = StatusInternalServerError)
    /\ (isFile r = true -> status r = StatusOK).
Proof.
  apply (X1_results_are_well_formed 0 fs_nested 5 (str "/srv")
           (str "/srv/a/b/blob/x")).
  vm_compute. reflexivity.
Defined.

(** X2 (shape of the returned file). Whatever it is given, when
    [SplitRepository] returns a file view its [file] does not end in a
    slash, and when it returns a directory view with status 200 and a
    non-empty [file], that [file] ends in a slash: the form
    [MakeTreePage] asks for before it lists anything. *)
Theorem X2_file_ends_in_slash_iff_directory_view (Perms : Z)
  (os_Stat : bytes -> option FileInfo) (fuel : nat) (toplevel p : bytes)
  (r : result) :
  SplitRepository Perms os_Stat fuel toplevel p = Some (Returned r) ->
  (isFile r = true -> strings.HasSuffix (file r) (str "/") = false)
  /\ (isFile r = false -> status r = StatusOK -> file r <> [] ->
      strings.HasSuffix (file r) (str "/") = true).
Proof.
  unfold SplitRepository. intros H.
  destruct (SplitRepository_loop Perms os_Stat fuel toplevel 0 p [])
    as [[o' n]|] eqn:E; [|discriminate].
  injection H as ->.
  destruct (loop_result_ok _ _ _ _ _ _ _ _ _ E) as (r' & Hr & _ & _ & H1 & H2).
  injection Hr as <-. now split.
Qed.

Lemma X2_file_ends_in_slash_iff_directory_view_witness :
  (false = true -> strings.HasSuffix (str "src/lib/") (str "/") = false)
  /\ (false = false -> StatusOK = StatusOK -> str "src/lib/" <> [] ->
      strings.HasSuffix (str "src/lib/") (str "/") = true).
Proof.
  apply (X2_file_ends_in_slash_iff_directory_view 0 fs_nested 6 (str "/srv")
           (str "/srv/a/b/tree/src/lib")
           (mkResult (str "/srv/a/b") (str "src/lib/") false StatusOK)).
  vm_compute. reflexivity.
Defined.

(** ** Classification by path elements *)

Lemma bytes_eqb_cons (c d : ascii) (x w : bytes) :
  bytes_eqb (c :: x) (d :: w) = Ascii.eqb d c && bytes_eqb x w.
Proof.
  destruct (Ascii.eqb_spec d c) as [->|Hcd]; cbn [andb].
  - destruct (bytes_eqb x w) eqn:E.
    + apply bytes_eqb_eq in E. subst. apply bytes_eqb_refl.
    + apply bytes_eqb_neq in E. apply bytes_eqb_neq. congruence.
  - apply bytes_eqb_neq. congruence.
Qed.

(** Testing the prefix [w/] on a path whose first element is [x]. *)
Lemma HasPrefix_elem_slash (w : bytes) :
  forall (x t : bytes),
    ~ In slash x -> ~ In slash w ->
    strings.HasPrefix (x ++ slash :: t) (w ++ [slash]) = bytes_eqb x w.
Proof.
  induction w as [|d w IH]; intros x t Hx Hw.
  - destruct x as [|c x]; [reflexivity|].
    cbn [app strings.HasPrefix].
    replace (Ascii.eqb slash c) with false.
    2:{ symmetry. apply Ascii.eqb_neq. intros <-. apply Hx. now left. }
    symmetry. now apply bytes_eqb_neq.
  - destruct x as [|c x].
    + cbn [app strings.HasPrefix].
      replace (Ascii.eqb d slash) with false.
      2:{ symmetry. apply Ascii.eqb_neq. intros ->. apply Hw. now left. }
      symmetry. now apply bytes_eqb_neq.
    + cbn [app strings.HasPrefix]. rewrite bytes_eqb_cons. f_equal.
      apply IH.
      * intros H. apply Hx. now right.
      * intros H. apply Hw. now right.
Qed.

Lemma TrimRight_slash_rel_path (cs : list bytes) :
  elems_ok cs -> strings.TrimRight_slash (rel_path cs) = rel_path cs.
Proof.
  intros Hok. destruct cs as [|c0 cs0] eqn:E; [reflexivity|].
  rewrite <- E in *.
  destruct (exists_last (l := cs)) as [cs' [c Hc]]; [congruence|].
  rewrite Hc in *. apply elems_ok_app in Hok. destruct Hok as [_ Hc1].
  apply elems_ok_cons in Hc1. destruct Hc1 as [Hc1 _].
  apply elem_okb_spec in Hc1. destruct Hc1 as (Hne & Hns & _).
  rewrite rel_path_slashed. now apply TrimRight_slash_elem.
Qed.

Lemma TrimRight_slash_slashed (cs : list bytes) :
  elems_ok cs -> strings.TrimRight_slash (slashed cs) = rel_path cs.
Proof.
  intros Hok. destruct cs as [|c cs]; [reflexivity|].
  rewrite slashed_rel_path by discriminate.
  rewrite TrimRight_slash_slash. now apply TrimRight_slash_rel_path.
Qed.

Lemma rel_path_slash_slashed (cs : list bytes) :
  cs <> [] -> rel_path cs ++ str "/" = slashed cs.
Proof. intros H. now rewrite slashed_rel_path. Qed.

Section Elements.

Variable Perms : Z.
Variable os_Stat : bytes -> option FileInfo.
Variables rs ds : list bytes.
Hypothesis rs_ok : elems_ok rs.
Hypothesis ds_ok : elems_ok ds.
Hypothesis p_len : (Z.of_nat (length (abs_path (rs ++ ds))) < 2 ^ 63)%Z.
Variable fuel : nat.
Hypothesis enough_fuel : length ds < fuel.
Variable k : nat.
Hypothesis k_range : 1 <= k <= length ds.
Hypothesis marker_here : has_marker os_Stat (cursor rs ds k) = true.
Hypothesis none_below :
  forall j, k < j <= length ds -> has_marker os_Stat (cursor rs ds j) = false.
Variable fi : FileInfo.
Hypothesis stat_here : os_Stat (cursor rs ds k) = Some fi.
Hypothesis permitted : CheckPerms Perms fi = true.

Lemma resolve_by_prefix :
  SplitRepository Perms os_Stat fuel (abs_path rs) (abs_path (rs ++ ds))
  = Some (split_prefix (cursor rs ds k) (suffix ds k)).
Proof.
  exact (resolve_permitted Perms os_Stat rs ds rs_ok ds_ok p_len fuel
           enough_fuel k k_range marker_here none_below fi stat_here permitted).
Qed.

Lemma first_element_cases :
  let run := SplitRepository Perms os_Stat fuel (abs_path rs)
                             (abs_path (rs ++ ds)) in
  (skipn k ds = [] ->
   run = Some (Returned (mkResult (cursor rs ds k) [] false StatusOK)))
  /\ (forall rest, skipn k ds = str "blob" :: rest ->
      run = Some (Returned (mkResult (cursor rs ds k) (rel_path rest) true
                                     StatusOK)))
  /\ (forall rest, skipn k ds = str "tree" :: rest ->
      run = Some (Returned (mkResult (cursor rs ds k)
                    (match rest with
                     | [] => str "./"
                     | _ => rel_path rest ++ str "/"
                     end) false StatusOK)))
  /\ (forall x rest, skipn k ds = x :: rest ->
      x <> str "blob" -> x <> str "tree" ->
      run = Some (Returned (mkResult (cursor rs ds k)
                    (rel_path (x :: rest) ++ str "/") false StatusNotFound))).
Proof.
  cbv zeta. rewrite resolve_by_prefix. unfold suffix.
  pose proof (elems_ok_skipn k ds ds_ok) as Hsk.
  split; [|split; [|split]].
  - intros ->. reflexivity.
  - intros rest E. rewrite E in *.
    apply elems_ok_cons in Hsk. destruct Hsk as [_ Hrest].
    rewrite split_prefix_blob.
    + rewrite rel_path_slash_slashed by discriminate.
      rewrite slashed_cons. cbn [str list_ascii_of_string app skipn].
      now rewrite TrimRight_slash_slashed.
    + rewrite rel_path_slash_slashed by discriminate.
      rewrite slashed_cons. reflexivity.
  - intros rest E. rewrite E in *.
    rewrite split_prefix_tree.
    + rewrite rel_path_slash_slashed by discriminate.
      rewrite slashed_cons. cbn [str list_ascii_of_string app skipn].
      destruct rest as [|c rest]; [reflexivity|].
      rewrite slashed_rel_path by discriminate.
      replace (length (rel_path (c :: rest) ++ [slash]) =? 0) with false
        by (symmetry; apply Nat.eqb_neq; rewrite length_app; cbn; lia).
      reflexivity.
    + rewrite rel_path_slash_slashed by discriminate.
      rewrite slashed_cons. reflexivity.
  - intros x rest E Hb Ht. rewrite E in *.
    apply elems_ok_cons in Hsk. destruct Hsk as [Hx _].
    apply elem_no_slash in Hx.
    assert (Hform : rel_path (x :: rest) ++ str "/"
                    = x ++ slash :: slashed rest)
      by (rewrite rel_path_slash_slashed by discriminate; apply slashed_cons).
    f_equal. apply split_prefix_neither.
    + intros H. apply (f_equal (@length ascii)) in H.
      pose proof (rel_path_nonempty x rest) as Hn.
      apply length_zero_iff_nil in H. apply Hn; [|assumption].
      rewrite <- E. now apply elems_ok_skipn.
    + rewrite Hform. change (str "blob/") with (str "blob" ++ [slash]).
      rewrite HasPrefix_elem_slash; [now apply bytes_eqb_neq|assumption|].
      cbn. intuition discriminate.
    + rewrite Hform. change (str "tree/") with (str "tree" ++ [slash]).
      rewrite HasPrefix_elem_slash; [now apply bytes_eqb_neq|assumption|].
      cbn. intuition discriminate.
Qed.

(** X3 (classification by path elements). Below a repository that is
    found and permitted, the first path element decides: [blob]
    followed by the elements [rest] gives a file view of the path
    [rest] joined by slashes; [tree] gives a directory view of that path
    followed by a slash, [./] when nothing follows; any other first
    element ([raw] among them) gives 404; no element gives the front
    page. *)
Theorem X3_first_element_decides :
  let run := SplitRepository Perms os_Stat fuel (abs_path rs)
                             (abs_path (rs ++ ds)) in
  (skipn k ds = [] ->
   run = Some (Returned (mkResult (cursor rs ds k) [] false StatusOK)))
  /\ (forall rest, skipn k ds = str "blob" :: rest ->
      run = Some (Returned (mkResult (cursor rs ds k) (rel_path rest) true
                                     StatusOK)))
  /\ (forall rest, skipn k ds = str "tree" :: rest ->
      run = Some (Returned (mkResult (cursor rs ds k)
                    (match rest with
                     | [] => str "./"
                     | _ => rel_path rest ++ str "/"
                     end) false StatusOK)))
  /\ (forall x rest, skipn k ds = x :: rest ->
      x <> str "blob" -> x <> str "tree" ->
      run = Some (Returned (mkResult (cursor rs ds k)
                    (rel_path (x :: rest) ++ str "/") false StatusNotFound))).
Proof. exact first_element_cases. Qed.

End Elements.

Lemma X3_first_element_decides_witness :
  SplitRepository 0 fs_nested 6 (str "/srv") (str "/srv/a/b/raw/src/main.go")
  = Some (Returned (mkResult (str "/srv/a/b") (str "raw/src/main.go/") false
                             StatusNotFound)).
Proof.
  refine (proj2 (proj2 (proj2
            (X3_first_element_decides 0 fs_nested
               [str "srv"] [str "a"; str "b"; str "raw"; str "src"; str "main.go"]
               eq_refl eq_refl eq_refl 6 (le_n 6) 2 _ eq_refl _
               (dir_info "b" (perm_bits 7 5 5)) eq_refl eq_refl)))
            (str "raw") [str "src"; str "main.go"] eq_refl _ _).
  - cbn [length]. lia.
  - by_levels.
  - discriminate.
  - discriminate.
Defined.

(** ** A requested path outside the serving root *)

Section Outside.

Variable Perms : Z.
Variable os_Stat : bytes -> option FileInfo.
Variable toplevel : bytes.

(** Once the cursor is [/], it stays there: [path.Dir("/")] is [/]. *)
Lemma at_slash_never_returns (fuel : nat) :
  abs_path [] <> toplevel ->
  has_marker os_Stat (abs_path []) = false ->
  forall (i : Z) (file : bytes),
    SplitRepository_loop Perms os_Stat fuel toplevel i (abs_path []) file = None.
Proof.
  intros Hne Hno. unfold has_marker in Hno.
  destruct (os_Stat (abs_path [] ++ str "/.git")) eqn:E; [discriminate|].
  induction fuel as [|fuel IH]; intros i file; [reflexivity|].
  cbn [SplitRepository_loop].
  change (path.Dir (abs_path [])) with (abs_path []).
  assert (Hcur : (if negb (i =? 0)%Z then abs_path [] else abs_path [])
                 = abs_path [])
    by (destruct (negb (i =? 0)%Z); reflexivity).
  rewrite Hcur.
  replace (bytes_eqb (abs_path []) toplevel) with false
    by (symmetry; now apply bytes_eqb_neq).
  rewrite E. apply IH.
Qed.

Lemma walk_outside (xs : list bytes) :
  forall (ys : list bytes) (i : Z) (fuel' : nat),
    elems_ok xs -> elems_ok ys ->
    (forall j, j <= length xs ->
               abs_path (firstn j xs) <> toplevel
               /\ has_marker os_Stat (abs_path (firstn j xs)) = false) ->
    (0 <= i)%Z -> (i + Z.of_nat (length xs) < 2 ^ 63)%Z ->
    pass_at_cursor Perms os_Stat fuel' toplevel i (abs_path xs) (rel_path ys)
    = None.
Proof.
  induction xs as [|x xs IH] using rev_ind;
    intros ys i fuel' Hxs Hys Hout Hi Hbound.
  - destruct (Hout 0 (Nat.le_refl 0)) as [Hne Hno]. cbn [firstn] in *.
    unfold pass_at_cursor.
    replace (bytes_eqb (abs_path []) toplevel) with false
      by (symmetry; now apply bytes_eqb_neq).
    pose proof Hno as Hno'. unfold has_marker in Hno'.
    destruct (os_Stat (abs_path [] ++ str "/.git")); [discriminate|].
    now apply at_slash_never_returns.
  - pose proof Hxs as Hxs'. apply elems_ok_app in Hxs'.
    destruct Hxs' as [Hxs0 Hx]. pose proof Hx as Hx1.
    apply elems_ok_cons in Hx1. destruct Hx1 as [Hx1 _].
    rewrite length_app in *. cbn [length] in *.
    destruct (Hout (length xs + 1) (Nat.le_refl _)) as [Hne Hno].
    rewrite firstn_app, firstn_all2 in Hne, Hno by lia.
    replace (length xs + 1 - length xs) with 1 in Hne, Hno by lia.
    cbn [firstn] in Hne, Hno.
    unfold pass_at_cursor.
    replace (bytes_eqb (abs_path (xs ++ [x])) toplevel) with false
      by (symmetry; now apply bytes_eqb_neq).
    unfold has_marker in Hno.
    destruct (os_Stat (abs_path (xs ++ [x]) ++ str "/.git")); [discriminate|].
    destruct fuel' as [|fuel']; [reflexivity|].
    rewrite loop_later_pass by (rewrite wrap_int_small; lia).
    rewrite wrap_int_small by lia.
    rewrite Dir_abs_path, Base_abs_path, Join_elem_rel by assumption.
    apply IH; try assumption; try lia.
    + apply elems_ok_cons. now split.
    + intros j Hj. specialize (Hout j).
      rewrite firstn_app in Hout.
      replace (j - length xs) with 0 in Hout by lia.
      cbn [firstn] in Hout. rewrite app_nil_r in Hout. apply Hout. lia.
Qed.

End Outside.

(** X4 (no return outside the root). When the requested path, absolute
    and cleaned, is not under [toplevel], and none of the directories
    from it up to [/] holds a [.git], the loop of [SplitRepository]
    never returns: the cursor passes [toplevel] by, reaches [/] and
    stays there. A [toplevel] that is not cleaned, such as [/srv/], has
    nothing under it in this sense. *)
Theorem X4_outside_the_root_never_returns (Perms : Z)
  (os_Stat : bytes -> option FileInfo) (toplevel p : bytes) (fuel : nat) :
  path.IsAbs p = true -> path.Clean p = p ->
  is_under toplevel p = false ->
  (forall d, is_under d p = true -> has_marker os_Stat d = false) ->
  (Z.of_nat (length p) < 2 ^ 63)%Z ->
  SplitRepository Perms os_Stat fuel toplevel p = None.
Proof.
  intros Hp1 Hp2 Hout Hno Hlen.
  destruct (cleaned_abs_elems p Hp1 Hp2) as (cs & Hcs & ->).
  assert (Hanc : forall j, is_under (abs_path (firstn j cs)) (abs_path cs) = true).
  { intros j. rewrite <- (firstn_skipn j cs) at 2.
    change (abs_path (firstn j cs))
      with (abs_path ([] ++ firstn j cs)) at 1.
    apply (is_under_abs_path (firstn j cs) (skipn j cs)).
    now apply elems_ok_firstn. }
  unfold SplitRepository. destruct fuel as [|fuel']; [reflexivity|].
  rewrite loop_first_pass.
  change (@nil ascii) with (rel_path []).
  rewrite walk_outside; try assumption; try reflexivity; try lia.
  - intros j _. split.
    + intros H. rewrite <- H, Hanc in Hout. discriminate.
    + apply Hno, Hanc.
  - pose proof (abs_path_length cs Hcs). lia.
Qed.

Lemma X4_outside_the_root_never_returns_witness :
  SplitRepository 0 fs_empty 1000 (str "/srv") (str "/etc/passwd") = None.
Proof.
  apply (X4_outside_the_root_never_returns 0 fs_empty (str "/srv")
           (str "/etc/passwd") 1000); reflexivity.
Defined.

(** ** [path.Clean] keeps a path absolute or relative *)

Lemma IsAbs_prefix (a b : bytes) :
  path.IsAbs (a ++ b) = false -> path.IsAbs a = false.
Proof. destruct a; [reflexivity|trivial]. Qed.

Lemma IsAbs_app (a b : bytes) :
  a <> [] -> path.IsAbs (a ++ b) = path.IsAbs a.
Proof. destruct a; [congruence|reflexivity]. Qed.

Lemma backtrack_loop_suffix (rout : bytes) :
  forall (removed : ascii) (dotdot : nat),
  exists dropped, rout = dropped ++ path.backtrack_loop removed rout dotdot.
Proof.
  induction rout as [|c rout IH]; intros removed dotdot.
  - now exists [].
  - cbn [path.backtrack_loop].
    destruct ((dotdot <? length (c :: rout)) && negb (Ascii.eqb removed slash)).
    + destruct (IH c dotdot) as [dropped H].
      exists (c :: dropped). cbn [app]. now rewrite <- H.
    + now exists [].
Qed.

Lemma backtrack_not_abs (out : bytes) (dotdot : nat) :
  path.IsAbs out = false -> path.IsAbs (path.backtrack out dotdot) = false.
Proof.
  intros H. unfold path.backtrack.
  destruct (rev out) as [|c rout] eqn:E; [reflexivity|].
  destruct (backtrack_loop_suffix rout c dotdot) as [dropped Hd].
  apply (f_equal (@rev ascii)) in E. rewrite rev_involutive in E.
  cbn [rev] in E. rewrite Hd, rev_app_distr, <- app_assoc in E.
  rewrite E in H. now apply IsAbs_prefix in H.
Qed.

Lemma Clean_sep_not_abs (out e : bytes) :
  path.IsAbs out = false -> elem_okb e = true ->
  path.IsAbs (Clean_sep false out ++ e) = false.
Proof.
  intros Hout He. apply elem_okb_spec in He. destruct He as (Hne & Hns & _).
  destruct out as [|c out].
  - cbn. destruct e as [|d e]; [congruence|]. cbn.
    apply Ascii.eqb_neq. intros ->. apply Hns. now left.
  - unfold Clean_sep. cbn [negb andb orb length Nat.eqb].
    exact Hout.
Qed.

Lemma Clean_loop_unrooted_not_abs (n : nat) :
  forall (rest out : bytes) (dotdot : nat),
    length rest <= n -> path.IsAbs out = false ->
    path.IsAbs (path.Clean_loop false rest out dotdot) = false.
Proof.
  induction n as [|n IH]; intros rest out dotdot Hlen Hout.
  - destruct rest; [assumption|cbn in Hlen; lia].
  - destruct rest as [|c0 rest0] eqn:Erest; [assumption|].
    rewrite <- Erest in *.
    destruct (span_slash rest) as (e & r & He & Hns & Hr).
    destruct (elem_okb_cases e Hns) as [Hok|[Ee|[Ee|Ee]]]; try subst e.
    + assert (He0 : 0 < length e).
      { apply elem_okb_spec in Hok. destruct Hok as [Hne _].
        destruct e; [congruence|cbn; lia]. }
      destruct r as [|r0 r].
      * rewrite app_nil_r in He. rewrite He.
        rewrite Clean_loop_elem_end by assumption.
        now apply Clean_sep_not_abs.
      * cbn in Hr. apply Ascii.eqb_eq in Hr. subst r0. rewrite He.
        rewrite Clean_loop_elem_slash by assumption.
        apply IH; [|now apply Clean_sep_not_abs].
        rewrite He, length_app in Hlen. cbn [length] in Hlen. lia.
    + cbn [app] in He. rewrite He in *. destruct r as [|r0 r]; [discriminate|].
      cbn in Hr. apply Ascii.eqb_eq in Hr. subst r0.
      cbn [path.Clean_loop]. rewrite Ascii.eqb_refl.
      apply IH; [cbn [length] in Hlen; lia|assumption].
    + rewrite He. cbn [app path.Clean_loop].
      change (Ascii.eqb dot slash) with false. rewrite Ascii.eqb_refl, Hr.
      cbn [andb]. apply IH; [|assumption].
      rewrite He in Hlen. cbn [app length] in Hlen. lia.
    + rewrite He. cbn [app path.Clean_loop path.at_end_or_slash].
      change (Ascii.eqb dot slash) with false. rewrite Ascii.eqb_refl, Hr.
      cbn [andb negb].
      assert (Hlr : length r <= n).
      { rewrite He in Hlen. cbn [app length] in Hlen. lia. }
      destruct (dotdot <? length out).
      * apply IH; [assumption|now apply backtrack_not_abs].
      * apply IH; [assumption|].
        destruct out as [|c out]; [reflexivity|exact Hout].
Qed.

Lemma Clean_IsAbs (p : bytes) : path.IsAbs (path.Clean p) = path.IsAbs p.
Proof.
  destruct (path.IsAbs p) eqn:E.
  - destruct (Clean_abs_form p E) as (cs & _ & ->). reflexivity.
  - destruct p as [|c rest]; [reflexivity|].
    cbn [path.IsAbs] in E. unfold path.Clean. rewrite E. cbv zeta iota.
    pose proof (Clean_loop_unrooted_not_abs (length (c :: rest)) (c :: rest)
                  [] 0 (Nat.le_refl _) eq_refl) as H.
    destruct (path.Clean_loop false (c :: rest) [] 0); [reflexivity|exact H].
Qed.

(** An absolute path, cleaned, is a fixed point of [path.Clean]. *)
Lemma Clean_abs_cleaned (p : bytes) :
  path.IsAbs p = true ->
  path.IsAbs (path.Clean p) = true /\ path.Clean (path.Clean p) = path.Clean p.
Proof.
  intros H. destruct (Clean_abs_form p H) as (cs & Hcs & ->).
  split; [reflexivity|now apply Clean_abs_path].
Qed.

(** [path.Join] of an absolute first element is absolute and cleaned. *)
Lemma Join_abs_cleaned (a b : bytes) :
  path.IsAbs a = true ->
  path.IsAbs (path.Join [a; b]) = true
  /\ path.Clean (path.Join [a; b]) = path.Join [a; b].
Proof.
  intros H. rewrite Join_pair by (destruct a; [discriminate|discriminate]).
  apply Clean_abs_cleaned. rewrite <- app_assoc.
  rewrite IsAbs_app by (destruct a; discriminate). exact H.
Qed.

(** X5 (the serving root from the command line). When a directory
    argument is given and the working directory, where it is needed, is
    absolute, the directory [main] hands to [Serve] is absolute and
    cleaned: what [SplitRepository] needs of its [toplevel], whose own
    call of [path.Clean] has no effect. *)
Theorem X5_repodir_from_argument_is_cleaned (a : bytes)
  (getwd : option bytes) (repodir : bytes) :
  (forall wd, getwd = Some wd -> path.IsAbs wd = true) ->
  main_repodir (Some a) getwd = Some repodir ->
  path.IsAbs repodir = true /\ path.Clean repodir = repodir.
Proof.
  intros Hwd H. unfold main_repodir in H. cbv zeta in H.
  rewrite Clean_IsAbs in H.
  destruct (path.IsAbs a) eqn:Ea; cbn [negb] in H.
  - injection H as <-. now apply Clean_abs_cleaned.
  - destruct getwd as [wd|]; [|discriminate]. injection H as <-.
    apply Join_abs_cleaned. now apply Hwd.
Qed.

Lemma X5_repodir_from_argument_is_cleaned_witness :
  path.IsAbs (str "/home/me/src") = true
  /\ path.Clean (str "/home/me/src") = str "/home/me/src".
Proof.
  apply (X5_repodir_from_argument_is_cleaned (str "../src//")
           (Some (str "/home/me/git"))).
  - intros wd H. injection H as <-. reflexivity.
  - vm_compute. reflexivity.
Defined.

(** ** [strings.Index], [strings.Count] and [strings.SplitAfter] *)

Lemma Index_from_spec (sep s : bytes) :
  forall i : Z,
    (strings.Index_from i s sep = (-1)%Z
     /\ forall n, n <= length s -> strings.HasPrefix (skipn n s) sep = false)
    \/ (exists n,
          strings.Index_from i s sep = (i + Z.of_nat n)%Z
          /\ n <= length s
          /\ strings.HasPrefix (skipn n s) sep = true
          /\ forall n', n' < n -> strings.HasPrefix (skipn n' s) sep = false).
Proof.
  induction s as [|c s IH]; intros i; cbn [strings.Index_from].
  - destruct (strings.HasPrefix [] sep) eqn:E.
    + right. exists 0. cbn [skipn length]. repeat split; [lia|lia|assumption|].
      intros n' H. lia.
    + left. split; [reflexivity|]. intros n Hn. cbn [length] in Hn.
      replace n with 0 by lia. exact E.
  - destruct (strings.HasPrefix (c :: s) sep) eqn:E.
    + right. exists 0. cbn [skipn]. repeat split; [lia|cbn; lia|assumption|].
      intros n' H. lia.
    + destruct (IH (i + 1)%Z) as [[H1 H2]|(n & H1 & H2 & H3 & H4)].
      * left. split; [assumption|]. intros n Hn.
        destruct n as [|n]; [exact E|]. cbn [skipn]. apply H2.
        cbn [length] in Hn. lia.
      * right. exists (S n). cbn [skipn length].
        repeat split; [lia|lia|assumption|].
        intros n' Hn'. destruct n' as [|n']; [exact E|].
        cbn [skipn]. apply H4. lia.
Qed.

Lemma Contains_false (s sep : bytes) :
  strings.Contains s sep = false -> strings.Index s sep = (-1)%Z.
Proof.
  unfold strings.Contains, strings.Index. intros H. apply Z.leb_gt in H.
  destruct (Index_from_spec sep s 0) as [[H1 _]|(n & H1 & _)]; [assumption|lia].
Qed.

Lemma Contains_true (s sep : bytes) :
  strings.Contains s sep = true ->
  exists n,
    strings.Index s sep = Z.of_nat n
    /\ n <= length s
    /\ strings.HasPrefix (skipn n s) sep = true.
Proof.
  unfold strings.Contains, strings.Index. intros H. apply Z.leb_le in H.
  destruct (Index_from_spec sep s 0) as [[H1 _]|(n & H1 & H2 & H3 & _)]; [lia|].
  exists n. now rewrite H1.
Qed.

(** An instance of [sep] anywhere in [s] is found. *)
Lemma Contains_app (a sep b : bytes) :
  strings.Contains (a ++ sep ++ b) sep = true.
Proof.
  unfold strings.Contains, strings.Index. apply Z.leb_le.
  destruct (Index_from_spec sep (a ++ sep ++ b) 0)
    as [[_ H2]|(n & H1 & _)]; [|lia].
  specialize (H2 (length a)). rewrite skipn_app, skipn_all, Nat.sub_diag in H2.
  cbn [skipn app] in H2. rewrite HasPrefix_app in H2.
  assert (true = false); [|discriminate].
  apply H2. rewrite length_app. lia.
Qed.

Lemma SplitAfter_none (s sep : bytes) :
  strings.Contains s sep = false -> strings.SplitAfter s sep = [s].
Proof.
  intros H. apply Contains_false in H.
  unfold strings.SplitAfter, strings.Count.
  destruct (length s); cbn [strings.Count_loop]; [reflexivity|].
  rewrite H. reflexivity.
Qed.

Lemma SplitAfter_first (s sep : bytes) :
  sep <> [] -> strings.Contains s sep = true ->
  exists n rest,
    strings.Index s sep = Z.of_nat n
    /\ nth_error (strings.SplitAfter s sep) 0 = Some (firstn n s ++ sep)
    /\ s = (firstn n s ++ sep) ++ rest.
Proof.
  intros Hsep H. destruct (Contains_true s sep H) as (n & Hn & Hle & Hpre).
  exists n, (skipn (length sep) (skipn n s)).
  apply HasPrefix_inv in Hpre.
  assert (Hs : s = (firstn n s ++ sep) ++ skipn (length sep) (skipn n s)).
  { rewrite <- app_assoc, <- Hpre. symmetry. apply firstn_skipn. }
  split; [assumption|]. split; [|assumption].
  assert (Hfirst : firstn (n + length sep) s = firstn n s ++ sep).
  { rewrite Hs at 1. rewrite firstn_app.
    rewrite length_app, length_firstn, Nat.min_l by assumption.
    rewrite Nat.sub_diag. cbn [firstn]. rewrite app_nil_r.
    apply firstn_all2. rewrite length_app, length_firstn. lia. }
  unfold strings.SplitAfter, strings.Count.
  destruct (length s) as [|l] eqn:El.
  - apply length_zero_iff_nil in El. subst s. cbn in Hpre.
    destruct sep; [congruence|discriminate].
  - cbn [strings.Count_loop]. rewrite Hn.
    replace (Z.of_nat n =? -1)%Z with false by (symmetry; apply Z.eqb_neq; lia).
    cbn [strings.genSplit_loop]. rewrite Hn.
    replace (Z.of_nat n <? 0)%Z with false by (symmetry; apply Z.ltb_ge; lia).
    rewrite Nat2Z.id. cbn [nth_error]. now rewrite Hfirst.
Qed.

Lemma Join_abs_abs (rs ds : list bytes) :
  elems_ok rs -> elems_ok ds ->
  path.Join [abs_path rs; abs_path ds] = abs_path (rs ++ ds).
Proof.
  intros Hrs Hds. rewrite Join_pair by discriminate.
  unfold path.Clean, abs_path at 1. cbn [app].
  change (Ascii.eqb slash slash) with true. cbv zeta iota.
  assert (Hres : path.Clean_loop true ((rel_path rs ++ [slash]) ++ abs_path ds)
                   [slash] 1 = abs_path (rs ++ ds)).
  { change [slash] with (abs_path []) at 2. unfold abs_path at 1.
    destruct rs as [|r rs].
    - cbn [rel_path app path.Clean_loop].
      change (Ascii.eqb slash slash) with true. cbv iota.
      now apply Clean_loop_rooted_end.
    - rewrite <- slashed_rel_path by discriminate.
      rewrite Clean_loop_rooted by (assumption || reflexivity).
      cbn [app path.Clean_loop].
      change (Ascii.eqb slash slash) with true. cbv iota.
      now apply Clean_loop_rooted_end. }
  rewrite Hres. reflexivity.
Qed.

Lemma HasSuffix_app (a b : bytes) : strings.HasSuffix (a ++ b) b = true.
Proof.
  unfold strings.HasSuffix. rewrite length_app.
  replace (length a + length b - length b) with (length a) by lia.
  rewrite skipn_app, skipn_all, Nat.sub_diag. cbn [skipn app].
  rewrite bytes_eqb_refl.
  now replace (length b <=? length a + length b) with true
    by (symmetry; apply Nat.leb_le; lia).
Qed.

Section HandleWebProperties.

Variable Perms : Z.
Variable os_Stat : bytes -> option FileInfo.
Variable ShowPath : Request -> bytes -> bytes -> bool -> bytes -> bytes -> bytes * Z.

(** X6 (browsing requests are answered). With the serving root
    absolute and cleaned and a URL path that is absolute and cleaned,
    as the server's multiplexer hands it over, and no [.git/] in the
    URL, the path [HandleWeb] computes lies under the serving root, as
    many elements below it as the URL path has; [SplitRepository]
    therefore returns, with a repository under the serving root, and
    [HandleWeb] answers: with what [ShowPath] gives for that repository
    when the status is 200, with the error status otherwise. *)
Theorem X6_browsing_requests_are_answered (handler_Dir : bytes)
  (req : Request) (fuel : nat) :
  path.IsAbs handler_Dir = true -> path.Clean handler_Dir = handler_Dir ->
  path.IsAbs (URL_Path req) = true -> path.Clean (URL_Path req) = URL_Path req ->
  strings.Contains (URL_String req) (str ".git/") = false ->
  (Z.of_nat (length (HandleWeb_p handler_Dir req)) < 2 ^ 63)%Z ->
  length (path_elems (URL_Path req)) < fuel ->
  is_under handler_Dir (HandleWeb_p handler_Dir req) = true
  /\ depth_below handler_Dir (HandleWeb_p handler_Dir req)
     = length (path_elems (URL_Path req))
  /\ exists r,
       SplitRepository Perms os_Stat fuel handler_Dir
                       (HandleWeb_p handler_Dir req) = Some (Returned r)
       /\ is_under handler_Dir (repository r) = true
       /\ HandleWeb Perms os_Stat ShowPath fuel handler_Dir req
          = Some (if (status r =? StatusOK)%Z
                  then (if (snd (ShowPath req (repository r) (file r)
                                          (isFile r) [] (Host req))
                            =? StatusOK)%Z
                        then Body (fst (ShowPath req (repository r) (file r)
                                                 (isFile r) [] (Host req)))
                        else ErrorStatus
                               (snd (ShowPath req (repository r) (file r)
                                              (isFile r) [] (Host req))))
                  else ErrorStatus (status r)).
Proof.
  intros Hd1 Hd2 Hu1 Hu2 Hgit Hlen Hfuel.
  destruct (cleaned_abs_elems handler_Dir Hd1 Hd2) as (rs & Hrs & Edir).
  destruct (cleaned_abs_elems (URL_Path req) Hu1 Hu2) as (ds & Hds & Eurl).
  unfold HandleWeb, HandleWeb_p in *. rewrite Hgit. cbv zeta.
  rewrite Eurl, Edir in *. rewrite Join_abs_abs in * by assumption.
  rewrite path_elems_abs_path in * by assumption.
  split; [now apply is_under_abs_path|].
  split; [now apply depth_below_abs_path|].
  destruct (resolve_returns Perms os_Stat rs ds Hrs Hds Hlen fuel Hfuel)
    as (r & k & i & Hrun & Hk & Hrepo & Hi).
  exists r. unfold SplitRepository. rewrite Hrun. cbn [option_map fst].
  split; [reflexivity|]. split.
  - rewrite Hrepo. now apply cursor_under.
  - destruct (status r =? StatusOK)%Z; [|reflexivity].
    destruct (ShowPath req (repository r) (file r) (isFile r) [] (Host req))
      as [body st]. cbn [fst snd].
    destruct (st =? StatusOK)%Z; reflexivity.
Qed.

(** X7 (requests with [.git/] in the URL). When the URL, query
    included, contains [.git/], [HandleWeb] does not call
    [SplitRepository] and does not look at names: it takes the path up
    to and including the first [.git/] in the filesystem path [p], or
    the whole of [p] when [p] has none (the text being in the query or
    lost to cleaning), and answers 404 when its stat fails, 403 when
    [CheckPermBits] rejects it, and hands over to the git backend
    otherwise. The indexing of [SplitAfter(...)[0]] does not panic. *)
Theorem X7_git_requests_are_gated_by_bits_only (handler_Dir : bytes)
  (req : Request) (fuel : nat) :
  strings.Contains (URL_String req) (str ".git/") = true ->
  let p := HandleWeb_p handler_Dir req in
  exists gitPath rest,
    p = gitPath ++ rest
    /\ HandleWeb Perms os_Stat ShowPath fuel handler_Dir req
       = Some (match os_Stat gitPath with
               | None => NotFoundPage
               | Some fi =>
                   if CheckPermBits Perms fi then GitBackend gitPath
                   else ErrorStatus StatusForbidden
               end)
    /\ (if strings.Contains p (str ".git/")
        then strings.HasSuffix gitPath (str ".git/") = true
             /\ (Z.of_nat (length gitPath) = strings.Index p (str ".git/") + 5)%Z
        else gitPath = p).
Proof.
  intros Hurl p. unfold HandleWeb. fold p. rewrite Hurl.
  assert (Hans : forall g,
             match os_Stat g with
             | Some fi =>
                 if negb (CheckPermBits Perms fi)
                 then Some (ErrorStatus StatusForbidden)
                 else Some (GitBackend g)
             | None => Some NotFoundPage
             end
             = Some (match os_Stat g with
                     | None => NotFoundPage
                     | Some fi =>
                         if CheckPermBits Perms fi then GitBackend g
                         else ErrorStatus StatusForbidden
                     end)).
  { intros g. destruct (os_Stat g) as [fi|]; [|reflexivity].
    destruct (CheckPermBits Perms fi); reflexivity. }
  destruct (strings.Contains p (str ".git/")) eqn:E.
  - destruct (SplitAfter_first p (str ".git/")) as (n & rest & Hn & Hnth & Hp);
      [discriminate|assumption|].
    exists (firstn n p ++ str ".git/"), rest.
    rewrite Hnth. split; [assumption|]. split; [apply Hans|].
    split.
    + apply HasSuffix_app.
    + rewrite Hn, length_app, length_firstn.
      apply Contains_true in E. destruct E as (n' & Hn' & Hle & _).
      assert (n = n') by lia. subst n'.
      rewrite Nat.min_l by assumption. cbn [str list_ascii_of_string length].
      lia.
  - rewrite SplitAfter_none by assumption. cbn [nth_error].
    exists p, []. rewrite app_nil_r. split; [reflexivity|].
    split; [apply Hans|reflexivity].
Qed.

End HandleWebProperties.

Lemma X6_browsing_requests_are_answered_witness :
  is_under (str "/srv") (HandleWeb_p (str "/srv") req_blob) = true
  /\ HandleWeb 0 fs_nested ShowPath_echo 5 (str "/srv") req_blob
     = Some (Body (str "/srv/a/b:x")).
Proof.
  split.
  - apply (X6_browsing_requests_are_answered 0 fs_nested ShowPath_echo
             (str "/srv") req_blob 5); vm_compute; reflexivity || lia.
  - vm_compute. reflexivity.
Defined.

Lemma X7_git_requests_are_gated_by_bits_only_witness :
  exists gitPath rest,
    HandleWeb_p (str "/srv") req_dot_query = gitPath ++ rest
    /\ HandleWeb 0 fs_hidden ShowPath_echo 0 (str "/srv") req_dot_query
       = Some (match fs_hidden gitPath with
               | None => NotFoundPage
               | Some fi =>
                   if CheckPermBits 0 fi then GitBackend gitPath
                   else ErrorStatus StatusForbidden
               end)
    /\ (if strings.Contains (HandleWeb_p (str "/srv") req_dot_query)
                            (str ".git/")
        then strings.HasSuffix gitPath (str ".git/") = true
             /\ (Z.of_nat (length gitPath)
                 = strings.Index (HandleWeb_p (str "/srv") req_dot_query)
                                 (str ".git/") + 5)%Z
        else gitPath = HandleWeb_p (str "/srv") req_dot_query).
Proof.
  apply (X7_git_requests_are_gated_by_bits_only 0 fs_hidden ShowPath_echo
           (str "/srv") req_dot_query 0).
  reflexivity.
Defined.

(** The hidden repository that [SplitRepository] answers with 403 is
    handed to the git backend when the query carries [.git/]. *)
Example hidden_directory_through_the_query :
  HandleWeb 0 fs_hidden ShowPath_echo 3 (str "/srv")
            (mkRequest (str "/.dot") (str "/.dot") [] (str "host"))
  = Some (ErrorStatus StatusForbidden)
  /\ HandleWeb 0 fs_hidden ShowPath_echo 3 (str "/srv") req_dot_query
     = Some (GitBackend (str "/srv/.dot")).
Proof. vm_compute. split; reflexivity. Qed.

(** X8 ([MakeDirInfos] and the directory page agree). The entries that
    [MakeDirPage] lists are those that [MakeDirInfos] returns for the
    same directory and names, in the same order, each as the link
    [URL + name + "/"]; every one of them passes [CheckPerms], so none
    has a name starting with a dot, and there are no more of them than
    names. *)
Theorem X8_listing_is_MakeDirInfos (Perms : Z)
  (os_Stat : bytes -> option FileInfo) (url directory : bytes)
  (dirnames : list bytes) :
  MakeDirPage_dirbuf Perms os_Stat url directory dirnames
  = map (fun info => mkDirList (url ++ Name info ++ str "/") (Name info))
        (MakeDirInfos Perms os_Stat directory dirnames)
  /\ Forall (fun info => CheckPerms Perms info = true
                         /\ strings.HasPrefix (Name info) (str ".") = false)
            (MakeDirInfos Perms os_Stat directory dirnames)
  /\ length (MakeDirInfos Perms os_Stat directory dirnames) <= length dirnames.
Proof.
  induction dirnames as [|n dirnames (IH1 & IH2 & IH3)];
    cbn [MakeDirPage_dirbuf MakeDirInfos map length].
  - repeat split; [constructor|lia].
  - destruct (os_Stat (directory ++ str "/" ++ n)) as [info|].
    + destruct (CheckPerms Perms info) eqn:E; cbn [map length].
      * split; [now rewrite IH1|]. split; [|lia].
        constructor; [|assumption]. split; [assumption|].
        unfold CheckPerms in E.
        destruct (strings.HasPrefix (Name info) (str ".")); [discriminate|].
        reflexivity.
      * repeat split; [assumption|assumption|lia].
    + repeat split; [assumption|assumption|lia].
Qed.

(** ** Thresholds *)

Lemma land_low_high (x y n : Z) :
  (0 <= n)%Z -> (0 <= x < 2 ^ n)%Z -> Z.land x (Z.shiftl y n) = 0%Z.
Proof.
  intros Hn Hx. apply Z.bits_inj'. intros i Hi.
  rewrite Z.land_spec, Z.bits_0.
  destruct (Z.lt_ge_cases i n) as [Hlt|Hge].
  - rewrite Z.shiftl_spec_low by assumption. apply andb_false_r.
  - destruct (Z.eq_dec x 0) as [->|Hx0]; [now rewrite Z.bits_0|].
    rewrite Z.bits_above_log2; [reflexivity|lia|].
    apply Z.log2_lt_pow2; [lia|]. 
    apply Z.lt_le_trans with (2 ^ n)%Z; [lia|].
    apply Z.pow_le_mono_r; lia.
Qed.

(** X9 (thresholds above "owner"). With [Perms] set to 3 or more (and
    [Perms*3] within a [uint]) the mask lies above the nine permission
    bits, and [CheckPermBits], hence [CheckPerms], rejects every
    entry. *)
Theorem X9_thresholds_above_owner_reject_all (Perms : Z) (info : FileInfo) :
  (3 <= Perms)%Z -> (Perms * 3 < 2 ^ 64)%Z ->
  CheckPermBits Perms info = false /\ CheckPerms Perms info = false.
Proof.
  intros H3 Hmax.
  assert (Hbits : CheckPermBits Perms info = false).
  { unfold CheckPermBits, wrap_uint, wrap_uint32. cbv zeta.
    rewrite (Z.mod_small (Perms * 3)) by lia.
    apply Z.ltb_ge.
    set (permBits := (if IsDir info then 5 else 4)%Z).
    rewrite Z.shiftl_mul_pow2 by lia.
    replace (Perms * 3)%Z with ((Perms * 3 - 9) + 9)%Z by lia.
    rewrite Z.pow_add_r by lia.
    change (2 ^ 32)%Z with (2 ^ 23 * 2 ^ 9)%Z.
    rewrite Z.mul_assoc, Z.mul_mod_distr_r by lia.
    rewrite <- Z.shiftl_mul_pow2 by lia.
    rewrite land_low_high; [lia|lia|apply Perm_range]. }
  split; [assumption|]. unfold CheckPerms. rewrite Hbits.
  now destruct (strings.HasPrefix (Name info) (str ".")).
Qed.

Lemma X9_thresholds_above_owner_reject_all_witness :
  CheckPermBits 3 (dir_info "pub" (perm_bits 7 7 7)) = false
  /\ CheckPerms 3 (dir_info "pub" (perm_bits 7 7 7)) = false.
Proof.
  apply (X9_thresholds_above_owner_reject_all 3
           (dir_info "pub" (perm_bits 7 7 7))); vm_compute; congruence.
Defined.

(** X10 (the three thresholds). For [Perms] 0, 1 or 2, [CheckPermBits]
    accepts a directory exactly when its bits grant read or execute to
    the class, and any other entry exactly when they grant read;
    [CheckPerms] accepts an entry exactly when, besides, its name does
    not start with a dot. *)
Theorem X10_gates_for_the_three_thresholds (Perms : Z) (info : FileInfo) :
  (0 <= Perms <= 2)%Z ->
  CheckPermBits Perms info
  = (if IsDir info
     then grants (Mode info) Perms 2 || grants (Mode info) Perms 0
     else grants (Mode info) Perms 2)
  /\ CheckPerms Perms info
     = negb (strings.HasPrefix (Name info) (str "."))
       && (if IsDir info
           then grants (Mode info) Perms 2 || grants (Mode info) Perms 0
           else grants (Mode info) Perms 2).
Proof.
  intros H. pose proof (CheckPermBits_spec Perms info H) as Hb.
  split; [assumption|]. unfold CheckPerms. rewrite Hb.
  now destruct (strings.HasPrefix (Name info) (str ".")).
Qed.

Lemma X10_gates_for_the_three_thresholds_witness :
  CheckPermBits 1 (mkFileInfo (str "notes.txt") false (perm_bits 6 4 0))
  = grants (perm_bits 6 4 0) 1 2
  /\ CheckPerms 1 (mkFileInfo (str "notes.txt") false (perm_bits 6 4 0))
     = negb (strings.HasPrefix (str "notes.txt") (str "."))
       && grants (perm_bits 6 4 0) 1 2.
Proof.
  apply (X10_gates_for_the_three_thresholds 1
           (mkFileInfo (str "notes.txt") false (perm_bits 6 4 0))).
  lia.
Defined.

Lemma isGit_cursor (os_Stat : bytes -> option FileInfo) (rs ds : list bytes)
  (k : nat) :
  elems_ok rs -> elems_ok ds -> 1 <= k <= length ds ->
  fst (isGit os_Stat (cursor rs ds k)) = has_marker os_Stat (cursor rs ds k).
Proof.
  intros Hrs Hds Hk. unfold isGit, has_marker, cursor.
  rewrite Join_dot_git.
  - now destruct (os_Stat (abs_path (rs ++ firstn k ds) ++ str "/.git")).
  - apply elems_ok_app. split; [assumption|now apply elems_ok_firstn].
  - intros H. apply (f_equal (@length bytes)) in H.
    rewrite length_app, length_firstn in H. cbn [length] in H. lia.
Qed.

Lemma rel_path_contains_elem (xs : list bytes) (w : bytes) (rest : list bytes) :
  exists A B, rel_path (xs ++ w :: rest) = A ++ w ++ B.
Proof.
  destruct rest as [|r0 rest0] eqn:E.
  - exists (slashed xs), []. rewrite rel_path_slashed. now rewrite app_nil_r.
  - rewrite <- E. destruct (exists_last (l := rest)) as [rest' [z Hz]];
      [congruence|].
    rewrite Hz.
    replace (xs ++ w :: rest' ++ [z]) with ((xs ++ w :: rest') ++ [z])
      by (now rewrite <- app_assoc).
    rewrite rel_path_slashed, slashed_app, slashed_cons.
    exists (slashed xs), (slash :: slashed rest' ++ z).
    now rewrite <- !app_assoc.
Qed.

Lemma TrimRight_slash_abs_path (ds : list bytes) :
  elems_ok ds -> ds <> [] -> strings.TrimRight_slash (abs_path ds) = abs_path ds.
Proof.
  intros Hok Hne. destruct (exists_last Hne) as [ds' [d ->]].
  apply elems_ok_app in Hok. destruct Hok as [_ Hd].
  apply elems_ok_cons in Hd. destruct Hd as [Hd _].
  apply elem_okb_spec in Hd. destruct Hd as (Hdne & Hns & _).
  rewrite abs_path_snoc. now apply TrimRight_slash_elem.
Qed.

(** The URL of the page contains every element of a cleaned URL path. *)
Lemma page_URL_contains_elem (host : bytes) (xs : list bytes) (w : bytes)
  (rest : list bytes) :
  elems_ok (xs ++ w :: rest) ->
  strings.Contains
    (str "http://" ++ host
       ++ strings.TrimRight_slash (abs_path (xs ++ w :: rest)) ++ str "/") w
  = true.
Proof.
  intros Hok. rewrite TrimRight_slash_abs_path
    by (assumption || (destruct xs; discriminate)).
  destruct (rel_path_contains_elem xs w rest) as (A & B & HAB).
  unfold abs_path. rewrite HAB.
  replace (str "http://" ++ host ++ (slash :: A ++ w ++ B) ++ str "/")
    with ((str "http://" ++ host ++ slash :: A) ++ w ++ (B ++ str "/")).
  - apply Contains_app.
  - rewrite <- !app_assoc. cbn [app]. now rewrite <- !app_assoc.
Qed.

Lemma rel_path_no_trailing_slash (cs : list bytes) :
  elems_ok cs -> strings.HasSuffix (rel_path cs) [slash] = false.
Proof.
  intros Hok. rewrite <- (TrimRight_slash_rel_path cs Hok).
  apply TrimRight_slash_no_slash.
Qed.

Lemma MakeTreePage_List_of_a_file (req : Request)
  (pageinfo_Path file : bytes) (files : list bytes) :
  strings.HasSuffix file [slash] = false ->
  MakeTreePage_List req pageinfo_Path file files = [].
Proof.
  intros H. unfold MakeTreePage_List.
  change (str "/") with [slash]. now rewrite H.
Qed.

Section Routes.

Variable Perms : Z.
Variable os_Stat : bytes -> option FileInfo.
Variables rs ds : list bytes.
Hypothesis rs_ok : elems_ok rs.
Hypothesis ds_ok : elems_ok ds.
Hypothesis p_len : (Z.of_nat (length (abs_path (rs ++ ds))) < 2 ^ 63)%Z.
Variable fuel : nat.
Hypothesis enough_fuel : length ds < fuel.

(** The request: its URL path is the cleaned path with the elements
    [ds], so that [HandleWeb] computes [abs_path (rs ++ ds)] under the
    serving root [abs_path rs]. *)
Variable req : Request.
Hypothesis req_path : URL_Path req = abs_path ds.

Variable k : nat.
Hypothesis k_range : 1 <= k <= length ds.
Hypothesis marker_here : has_marker os_Stat (cursor rs ds k) = true.
Hypothesis none_below :
  forall j, k < j <= length ds -> has_marker os_Stat (cursor rs ds j) = false.
Variable fi : FileInfo.
Hypothesis stat_here : os_Stat (cursor rs ds k) = Some fi.
Hypothesis permitted : CheckPerms Perms fi = true.

(** X11 (the page follows the classification, but for the keyword).
    For a request inside a repository that is found and permitted,
    [MakePage], called with what [SplitRepository] returns, calls
    [MakeTreePage] when the first element below the repository is
    [tree]. When it is [blob], it calls [MakeFilePage] only if the text
    [tree] occurs nowhere in the page's URL, host and file names
    included; otherwise it calls [MakeTreePage], which lists nothing,
    the file not ending in a slash. *)
Theorem X11_page_follows_classification_but_for_keywords :
  let run := SplitRepository Perms os_Stat fuel (abs_path rs)
                             (HandleWeb_p (abs_path rs) req) in
  (forall rest, skipn k ds = str "tree" :: rest ->
     exists r, run = Some (Returned r) /\ status r = StatusOK
               /\ isFile r = false
               /\ MakePage_route os_Stat (MakePage_URL req) (repository r)
                  = TreePage)
  /\ (forall rest, skipn k ds = str "blob" :: rest ->
        exists r, run = Some (Returned r) /\ status r = StatusOK
                  /\ isFile r = true
                  /\ MakePage_route os_Stat (MakePage_URL req) (repository r)
                     = (if strings.Contains (MakePage_URL req) (str "tree")
                        then TreePage else FilePage)
                  /\ forall pageinfo_Path files,
                       MakeTreePage_List req pageinfo_Path (file r) files = []).
Proof.
  cbv zeta.
  assert (Hp : HandleWeb_p (abs_path rs) req = abs_path (rs ++ ds)).
  { unfold HandleWeb_p. rewrite req_path. now apply Join_abs_abs. }
  rewrite Hp.
  destruct (first_element_cases Perms os_Stat rs ds rs_ok ds_ok p_len fuel
              enough_fuel k k_range marker_here none_below fi stat_here
              permitted) as (_ & Hblob & Htree & _).
  assert (Hgit : fst (isGit os_Stat (cursor rs ds k)) = true)
    by (rewrite isGit_cursor; assumption).
  assert (Hword : forall w rest, skipn k ds = w :: rest ->
                                 strings.Contains (MakePage_URL req) w = true).
  { intros w rest E. unfold MakePage_URL. rewrite req_path.
    rewrite <- (firstn_skipn k ds), E.
    apply page_URL_contains_elem.
    rewrite <- E, firstn_skipn. assumption. }
  split.
  - intros rest E.
    exists (mkResult (cursor rs ds k)
              (match rest with [] => str "./" | _ => rel_path rest ++ str "/" end)
              false StatusOK).
    split; [exact (Htree rest E)|].
    split; [reflexivity|]. split; [reflexivity|].
    cbn [repository]. unfold MakePage_route.
    rewrite Hgit, (Hword _ _ E). reflexivity.
  - intros rest E.
    exists (mkResult (cursor rs ds k) (rel_path rest) true StatusOK).
    split; [exact (Hblob rest E)|].
    split; [reflexivity|]. split; [reflexivity|].
    cbn [repository file]. split.
    + unfold MakePage_route. rewrite Hgit. cbn [negb].
      destruct (strings.Contains (MakePage_URL req) (str "tree")); [reflexivity|].
      now rewrite (Hword _ _ E).
    + intros pageinfo_Path files. apply MakeTreePage_List_of_a_file.
      apply rel_path_no_trailing_slash.
      pose proof (elems_ok_skipn k ds ds_ok) as H. rewrite E in H.
      apply elems_ok_cons in H. exact (proj2 H).
Qed.

End Routes.

Lemma Clean_loop_skip_slash (rooted : bool) (rest out : bytes) (dotdot : nat) :
  path.Clean_loop rooted (slash :: rest) out dotdot
  = path.Clean_loop rooted rest out dotdot.
Proof. reflexivity. Qed.

Lemma Join_abs_abs_slash (rs ds : list bytes) :
  elems_ok rs -> elems_ok ds -> ds <> [] ->
  path.Join [abs_path rs; abs_path ds ++ [slash]] = abs_path (rs ++ ds).
Proof.
  intros Hrs Hds Hne. rewrite Join_pair by discriminate.
  unfold path.Clean, abs_path at 1. cbn [app].
  change (Ascii.eqb slash slash) with true. cbv zeta iota.
  assert (Hres : path.Clean_loop true
                   ((rel_path rs ++ [slash]) ++ abs_path ds ++ [slash])
                   [slash] 1
                 = abs_path (rs ++ ds)).
  { unfold abs_path at 1. cbn [app].
    rewrite <- (slashed_rel_path ds Hne).
    pose proof (Clean_loop_rooted ds rs [] Hrs Hds) as Hds'.
    rewrite app_nil_r in Hds'. cbn [path.Clean_loop] in Hds'.
    destruct rs as [|r rs].
    - cbn [rel_path app]. rewrite !Clean_loop_skip_slash. exact Hds'.
    - rewrite <- slashed_rel_path by discriminate.
      change [slash] with (abs_path []).
      rewrite Clean_loop_rooted by (assumption || reflexivity).
      cbn [app]. rewrite Clean_loop_skip_slash. exact Hds'. }
  rewrite Hres. reflexivity.
Qed.

(** X12 (plain directories get the directory page). The served
    directory is cleaned; the URL path is a cleaned path other than
    [/], with or without a slash behind it (the links of a directory
    page end in one); no directory from the requested one up to, and
    excluding, the served directory holds a [.git] entry. Then
    [HandleWeb] computes the cleaned path below the served directory,
    [SplitRepository] returns this requested path as the repository,
    with an empty [file], [isFile] false and status 200, and [MakePage],
    called with it, finds [isGit] false and calls [MakeDirPage],
    whatever the URL contains. The link that [MakeDirPage] makes for an
    entry [n] is again a URL whose path is cleaned with a slash behind
    it. *)
Theorem X12_plain_directories_get_the_directory_page
  (Perms : Z) (os_Stat : bytes -> option FileInfo) (rs ds : list bytes)
  (fuel : nat) (req : Request) :
  elems_ok rs -> elems_ok ds -> ds <> [] ->
  (Z.of_nat (length (abs_path (rs ++ ds))) < 2 ^ 63)%Z ->
  length ds < fuel ->
  URL_Path req = abs_path ds \/ URL_Path req = abs_path ds ++ str "/" ->
  (forall j, 1 <= j <= length ds ->
             has_marker os_Stat (cursor rs ds j) = false) ->
  HandleWeb_p (abs_path rs) req = abs_path (rs ++ ds)
  /\ SplitRepository Perms os_Stat fuel (abs_path rs)
                     (HandleWeb_p (abs_path rs) req)
     = Some (Returned (mkResult (abs_path (rs ++ ds)) [] false StatusOK))
  /\ MakePage_route os_Stat (MakePage_URL req) (abs_path (rs ++ ds)) = DirPage
  /\ forall n,
       MakePage_URL req ++ n ++ str "/"
       = str "http://" ++ Host req ++ abs_path (ds ++ [n]) ++ str "/".
Proof.
  intros Hrs Hds Hne Hlen Hfuel Hurl Hno.
  assert (Hp : HandleWeb_p (abs_path rs) req = abs_path (rs ++ ds)).
  { unfold HandleWeb_p. destruct Hurl as [E|E]; rewrite E.
    - apply Join_abs_abs; assumption.
    - apply Join_abs_abs_slash; assumption. }
  assert (Htrim : strings.TrimRight_slash (URL_Path req) = abs_path ds).
  { destruct Hurl as [E|E]; rewrite E.
    - apply TrimRight_slash_abs_path; assumption.
    - change (str "/") with [slash]. rewrite TrimRight_slash_slash.
      apply TrimRight_slash_abs_path; assumption. }
  split; [exact Hp|]. rewrite Hp. split; [|split].
  - unfold SplitRepository.
    rewrite (resolve_no_marker Perms os_Stat rs ds Hrs Hds Hlen fuel Hno Hfuel).
    reflexivity.
  - unfold MakePage_route.
    assert (Hgit : fst (isGit os_Stat (abs_path (rs ++ ds))) = false).
    { assert (Hk : 1 <= length ds <= length ds)
        by (destruct ds; [congruence|cbn [length]; lia]).
      replace (abs_path (rs ++ ds)) with (cursor rs ds (length ds))
        by (unfold cursor; rewrite firstn_all; reflexivity).
      rewrite (isGit_cursor os_Stat rs ds (length ds) Hrs Hds Hk).
      exact (Hno (length ds) Hk). }
    rewrite Hgit. reflexivity.
  - intros n. unfold MakePage_URL. rewrite Htrim.
    rewrite abs_path_snoc.
    rewrite (slashed_rel_path ds Hne). unfold abs_path.
    rewrite <- !app_assoc. cbn [app]. rewrite <- !app_assoc. reflexivity.
Qed.

Lemma X12_plain_directories_get_the_directory_page_witness :
  HandleWeb_p (str "/srv") req_plain_slash = str "/srv/plain/dir"
  /\ SplitRepository 0 fs_empty 3 (str "/srv")
                     (HandleWeb_p (str "/srv") req_plain_slash)
     = Some (Returned (mkResult (str "/srv/plain/dir") [] false StatusOK))
  /\ MakePage_route fs_empty (str "http://host/plain/dir/")
                    (str "/srv/plain/dir") = DirPage
  /\ forall n,
       MakePage_URL req_plain_slash ++ n ++ str "/"
       = str "http://" ++ str "host" ++ abs_path ([str "plain"; str "dir"] ++ [n])
           ++ str "/".
Proof.
  refine (X12_plain_directories_get_the_directory_page 0 fs_empty
            [str "srv"] [str "plain"; str "dir"] 3 req_plain_slash
            eq_refl eq_refl _ eq_refl (le_n 3) (or_intror eq_refl)
            (fun j _ => eq_refl)).
  discriminate.
Defined.

Lemma X11_page_follows_classification_but_for_keywords_witness :
  exists r,
    SplitRepository 0 fs_nested 5 (str "/srv")
                    (HandleWeb_p (str "/srv") req_subtree) = Some (Returned r)
    /\ status r = StatusOK
    /\ isFile r = true
    /\ MakePage_route fs_nested (str "http://host/a/b/blob/subtree.txt/")
                      (repository r)
       = (if strings.Contains (str "http://host/a/b/blob/subtree.txt/")
                              (str "tree")
          then TreePage else FilePage)
    /\ forall pageinfo_Path files,
         MakeTreePage_List req_subtree pageinfo_Path (file r) files = [].
Proof.
  refine (proj2 (X11_page_follows_classification_but_for_keywords 0 fs_nested
                   [str "srv"] [str "a"; str "b"; str "blob"; str "subtree.txt"]
                   eq_refl eq_refl eq_refl 5 (le_n 5) req_subtree eq_refl
                   2 _ eq_refl _ (dir_info "b" (perm_bits 7 5 5))
                   eq_refl eq_refl)
                [str "subtree.txt"] eq_refl).
  - cbn [length]. lia.
  - by_levels.
Defined.

(** The file [subtree.txt] is classified as a file view and rendered
    by the tree page. *)
Example file_named_subtree :
  SplitRepository 0 fs_nested 5 (str "/srv")
                  (HandleWeb_p (str "/srv") req_subtree)
  = Some (Returned (mkResult (str "/srv/a/b") (str "subtree.txt") true
                             StatusOK))
  /\ MakePage_route fs_nested (str "http://host/a/b/blob/subtree.txt/")
                    (str "/srv/a/b") = TreePage.
Proof. vm_compute. split; reflexivity. Qed.

Lemma pageinfo_Path_below (rs qs : list bytes) :
  elems_ok rs -> rs <> [] -> qs <> [] ->
  skipn (length (abs_path rs)) (abs_path (rs ++ qs)) = abs_path qs.
Proof.
  intros Hrs Hne Hqs. rewrite abs_path_app_prefix by assumption.
  unfold dir_prefix.
  replace (bytes_eqb (abs_path rs) [slash]) with false.
  - rewrite <- app_assoc, skipn_app, skipn_all, Nat.sub_diag. reflexivity.
  - symmetry. apply bytes_eqb_neq. intros H.
    now apply abs_path_slash in H.
Qed.

Lemma pageinfo_Path_cases (rs qs : list bytes) :
  elems_ok rs ->
  skipn (length (abs_path rs)) (abs_path (rs ++ qs))
  = match rs, qs with
    | _, [] => []
    | [], _ => rel_path qs
    | _, _ => abs_path qs
    end.
Proof.
  intros Hrs. destruct qs as [|q qs].
  - rewrite app_nil_r, skipn_all. now destruct rs.
  - destruct rs as [|r rs]; [reflexivity|].
    now apply pageinfo_Path_below.
Qed.

(** X13 ([pageinfo.Path]). For a cleaned served directory and a
    cleaned request path, [SplitRepository] returns a repository on
    which the slice [repository[len(handler.Dir):]] of [MakePage] is
    in range, and [pageinfo.Path] is the path of the repository below
    the served directory: empty for the served directory itself (the
    one listing that [MakeDirPage] gives no [/] and [..] links), the
    elements behind a slash otherwise. When the served directory is
    [/], the leading slash is missing. *)
Theorem X13_pageinfo_Path_is_the_path_below_the_served_directory
  (Perms : Z) (os_Stat : bytes -> option FileInfo) (owner : bytes)
  (req : Request) (rs ds : list bytes) (fuel : nat) :
  elems_ok rs -> elems_ok ds ->
  (Z.of_nat (length (abs_path (rs ++ ds))) < 2 ^ 63)%Z ->
  length ds < fuel ->
  exists r qs pageinfo,
    SplitRepository Perms os_Stat fuel (abs_path rs) (abs_path (rs ++ ds))
    = Some (Returned r)
    /\ repository r = abs_path (rs ++ qs)
    /\ MakePage_pageinfo owner (abs_path rs) req (repository r) (file r)
       = Some pageinfo
    /\ gp_Path pageinfo = match rs, qs with
                          | _, [] => []
                          | [], _ => rel_path qs
                          | _, _ => abs_path qs
                          end
    /\ (gp_Path pageinfo = [] <-> repository r = abs_path rs).
Proof.
  intros Hrs Hds Hlen Hfuel.
  destruct (resolve_returns Perms os_Stat rs ds Hrs Hds Hlen fuel Hfuel)
    as (r & k & i & Hrun & Hk & Hrepo & Hi).
  pose proof (elems_ok_firstn k ds Hds) as Hqs.
  unfold cursor in Hrepo.
  assert (Hin : length (abs_path rs) <= length (repository r)).
  { rewrite Hrepo. unfold abs_path. cbn [length].
    pose proof (rel_path_app_length rs (firstn k ds) Hqs). lia. }
  exists r, (firstn k ds).
  exists (mkGitPage owner (path.Join [path.Base (repository r); file r])
            (MakePage_URL req)
            (Host req)
            (skipn (length (abs_path rs)) (repository r))
            (page_Query req)).
  split; [unfold SplitRepository; now rewrite Hrun|].
  split; [assumption|]. split.
  - unfold MakePage_pageinfo.
    apply Nat.leb_le in Hin. now rewrite Hin.
  - cbn [gp_Path]. rewrite Hrepo.
    rewrite pageinfo_Path_cases by assumption.
    split; [reflexivity|].
    destruct (firstn k ds) as [|q qs] eqn:E.
    + rewrite app_nil_r. destruct rs; split; intros _; reflexivity.
    + split.
      * intros H. exfalso. destruct rs as [|r0 rs0].
        -- exact (rel_path_nonempty q qs Hqs H).
        -- discriminate H.
      * intros H. exfalso.
        apply (abs_path_app_neq rs (q :: qs) Hqs); [discriminate|exact H].
Qed.

Lemma X13_pageinfo_Path_is_the_path_below_the_served_directory_witness :
  exists r qs pageinfo,
    SplitRepository 0 fs_nested 5 (str "/srv") (str "/srv/a/b/tree/src")
    = Some (Returned r)
    /\ repository r = abs_path ([str "srv"] ++ qs)
    /\ MakePage_pageinfo (str "owner") (str "/srv") req_plain
                         (repository r) (file r)
       = Some pageinfo
    /\ gp_Path pageinfo = match [str "srv"], qs with
                          | _, [] => []
                          | [], _ => rel_path qs
                          | _, _ => abs_path qs
                          end
    /\ (gp_Path pageinfo = [] <-> repository r = str "/srv").
Proof.
  refine (X13_pageinfo_Path_is_the_path_below_the_served_directory
            0 fs_nested (str "owner") req_plain [str "srv"]
            [str "a"; str "b"; str "tree"; str "src"] 5 eq_refl eq_refl _ _).
  - vm_compute. reflexivity.
  - vm_compute. lia.
Defined.

Lemma Clean_rel_start (c rest : bytes) :
  elem_okb c = true ->
  path.Clean (c ++ rest)
  = match path.Clean_loop false (c ++ rest) [] 0 with
    | [] => [dot]
    | _ :: _ => path.Clean_loop false (c ++ rest) [] 0
    end.
Proof.
  intros Hc. apply elem_okb_spec in Hc. destruct Hc as (Hne & Hns & _).
  destruct c as [|c0 c]; [congruence|].
  unfold path.Clean. cbn [app].
  replace (Ascii.eqb c0 slash) with false
    by (symmetry; apply Ascii.eqb_neq; intros ->; apply Hns; now left).
  reflexivity.
Qed.

Lemma Clean_dot_slash_slash (e : bytes) :
  path.Clean ((str "./" ++ [slash]) ++ e)
  = match path.Clean_loop false e [] 0 with
    | [] => [dot]
    | _ :: _ => path.Clean_loop false e [] 0
    end.
Proof. reflexivity. Qed.

Lemma Clean_loop_entry (pre : list bytes) (n : bytes) (is_dir : bool) :
  elems_ok pre -> elem_okb n = true ->
  path.Clean_loop false (tree_entry n is_dir) (rel_path pre) 0
  = rel_path (pre ++ [n]).
Proof.
  intros Hpre Hn.
  assert (Hn1 : elems_ok [n])
    by (apply elems_ok_cons; split; [assumption|reflexivity]).
  destruct is_dir; unfold tree_entry.
  - change (n ++ str "/") with (n ++ [slash]).
    replace (n ++ [slash]) with (slashed [n] ++ [])
      by (unfold slashed; cbn [map concat]; now rewrite !app_nil_r).
    exact (Clean_loop_slashed false [n] pre [] Hpre Hn1).
  - exact (Clean_loop_unrooted_end [n] pre Hpre Hn1).
Qed.

(** [path.Join(file, f)] for the [file] of a tree view and an entry
    of the tree: the path of the entry in the repository. *)
Lemma Join_tree_entry (fs : list bytes) (n : bytes) (is_dir : bool) :
  elems_ok fs -> elem_okb n = true ->
  path.Join [tree_file fs; tree_entry n is_dir] = rel_path (fs ++ [n]).
Proof.
  intros Hfs Hn.
  assert (Hne : rel_path (fs ++ [n]) <> []).
  { intros H. apply rel_path_no_slash_nil in H.
    - destruct fs; discriminate H.
    - apply elems_ok_app. split; [assumption|].
      apply elems_ok_cons. split; [assumption|reflexivity]. }
  rewrite Join_pair by (unfold tree_file; destruct fs as [|f0 fs0];
                        [discriminate|
                         intros H; apply app_eq_nil in H;
                         destruct H as [_ H]; discriminate H]).
  destruct fs as [|f0 fs0].
  - unfold tree_file. rewrite Clean_dot_slash_slash.
    pose proof (Clean_loop_entry [] n is_dir elems_ok_nil Hn) as H.
    change (rel_path []) with (@nil ascii) in H. rewrite H.
    now apply dot_if_empty_nonempty.
  - unfold tree_file.
    rewrite rel_path_slash_slashed by discriminate.
    rewrite slashed_cons. rewrite <- !app_assoc.
    pose proof Hfs as Hfs'. apply elems_ok_cons in Hfs'.
    destruct Hfs' as [Hf0 _].
    rewrite Clean_rel_start by assumption.
    replace (f0 ++ (slash :: slashed fs0) ++ [slash] ++ tree_entry n is_dir)
      with (slashed (f0 :: fs0) ++ slash :: tree_entry n is_dir)
      by (rewrite slashed_cons, <- !app_assoc; reflexivity).
    pose proof (Clean_loop_slashed false (f0 :: fs0) []
                  (slash :: tree_entry n is_dir) elems_ok_nil Hfs) as H.
    change (Clean_out false []) with (@nil ascii) in H.
    change (Clean_dotdot false) with 0 in H.
    cbn [app Clean_out] in H. rewrite Clean_loop_skip_slash in H.
    rewrite Clean_loop_entry in H by assumption.
    rewrite H. now apply dot_if_empty_nonempty.
Qed.

Lemma tree_entry_HasSuffix (n : bytes) (is_dir : bool) :
  elem_okb n = true ->
  strings.HasSuffix (tree_entry n is_dir) (str "/") = is_dir.
Proof.
  intros Hn. destruct is_dir; unfold tree_entry.
  - apply HasSuffix_app.
  - apply (rel_path_no_trailing_slash [n]).
    apply elems_ok_cons. split; [assumption|reflexivity].
Qed.

Lemma tree_keyword_ok (is_dir : bool) : elem_okb (tree_keyword is_dir) = true.
Proof. now destruct is_dir. Qed.

(** The path of the link of an entry, element by element. *)
Lemma tree_link_path (rs qs fs : list bytes) (n : bytes) (is_dir : bool) :
  elems_ok rs -> rs <> [] -> elems_ok qs -> qs <> [] ->
  elems_ok fs -> elem_okb n = true ->
  MakeTreePage_link_path (skipn (length (abs_path rs)) (abs_path (rs ++ qs)))
                         (tree_file fs) (tree_entry n is_dir)
  = abs_path (qs ++ tree_keyword is_dir :: fs ++ [n]).
Proof.
  intros Hrs Hrne Hqs Hqne Hfs Hn. unfold MakeTreePage_link_path.
  rewrite pageinfo_Path_below by assumption.
  rewrite tree_entry_HasSuffix by assumption.
  rewrite Join_tree_entry by assumption. cbv zeta.
  rewrite (abs_path_app_prefix qs) by (assumption || discriminate).
  unfold dir_prefix.
  replace (bytes_eqb (abs_path qs) [slash]) with false.
  2:{ symmetry. apply bytes_eqb_neq. intros H.
      apply abs_path_slash in H; [contradiction|assumption]. }
  rewrite rel_path_cons by (destruct fs; discriminate).
  fold (tree_keyword is_dir).
  rewrite <- !app_assoc. reflexivity.
Qed.

Section TreeLinks.

Variable Perms : Z.
Variable os_Stat : bytes -> option FileInfo.
Variable ShowPath : Request -> bytes -> bytes -> bool -> bytes -> bytes -> bytes * Z.

(** The served directory [abs_path rs], the repository [qs] below it,
    the directory [fs] of the repository that the tree page shows and
    the entry [n] of it. *)
Variables rs qs fs : list bytes.
Variable n : bytes.
Variable is_dir : bool.
Hypothesis rs_ok : elems_ok rs.
Hypothesis rs_not_root : rs <> [].
Hypothesis qs_ok : elems_ok qs.
Hypothesis qs_below : qs <> [].
Hypothesis fs_ok : elems_ok fs.
Hypothesis n_ok : elem_okb n = true.

(** The request that follows the link of the entry. *)
Variable req : Request.
Hypothesis follows_link :
  URL_Path req
  = MakeTreePage_link_path (skipn (length (abs_path rs)) (abs_path (rs ++ qs)))
                           (tree_file fs) (tree_entry n is_dir).

(** The text [.git/] is not in the URL: no element of the link but the
    last ends in [.git], nor does the query hold it. *)
Hypothesis no_git_text :
  strings.Contains (URL_String req) (str ".git/") = false.

Hypothesis p_len :
  (Z.of_nat (length (abs_path (rs ++ tree_link_elems qs is_dir fs n)))
   < 2 ^ 63)%Z.
Variable fuel : nat.
Hypothesis enough_fuel : length (tree_link_elems qs is_dir fs n) < fuel.

(** The repository is marked and may be served; the names in it are
    git's, not directories with a [.git] of their own on the disk. *)
Hypothesis marker_here : has_marker os_Stat (abs_path (rs ++ qs)) = true.
Hypothesis none_below :
  forall j, length qs < j <= length (tree_link_elems qs is_dir fs n) ->
    has_marker os_Stat (cursor rs (tree_link_elems qs is_dir fs n) j) = false.
Variable fi : FileInfo.
Hypothesis stat_here : os_Stat (abs_path (rs ++ qs)) = Some fi.
Hypothesis permitted : CheckPerms Perms fi = true.

(** X14 (the links of a tree page lead back). The served directory
    is cleaned and is not [/]; the repository below it holds a [.git]
    entry, its stat succeeds and [CheckPerms] accepts it; no directory
    of the filesystem on the path of the link below the repository
    holds a [.git] entry (the names are git's); the URL of the request
    does not hold the text [.git/]. Then the link that [MakeTreePage]
    makes for an entry of the directory [fs] of the repository is the
    path of the repository below the served directory, [tree] for a
    directory and [blob] for a file, and the path of the entry in the
    repository; [HandleWeb], asked for it, calls [SplitRepository],
    which returns the same repository and the entry,
    [path.Join(file, f)], as a file view for a file, and followed by a
    slash as the tree view of the subdirectory for a directory; and
    [HandleWeb] answers with what [ShowPath] makes of them. *)
Theorem X14_tree_links_lead_back_into_the_repository :
  let r := mkResult (abs_path (rs ++ qs))
             (if is_dir then tree_file (fs ++ [n])
              else path.Join [tree_file fs; tree_entry n is_dir])
             (negb is_dir) StatusOK in
  URL_Path req = abs_path (tree_link_elems qs is_dir fs n)
  /\ path.Join [tree_file fs; tree_entry n is_dir] = rel_path (fs ++ [n])
  /\ SplitRepository Perms os_Stat fuel (abs_path rs)
                     (HandleWeb_p (abs_path rs) req)
     = Some (Returned r)
  /\ HandleWeb Perms os_Stat ShowPath fuel (abs_path rs) req
     = Some (if (snd (ShowPath req (repository r) (file r) (isFile r) []
                               (Host req)) =? StatusOK)%Z
             then Body (fst (ShowPath req (repository r) (file r) (isFile r)
                                      [] (Host req)))
             else ErrorStatus (snd (ShowPath req (repository r) (file r)
                                             (isFile r) [] (Host req)))).
Proof.
  cbv zeta.
  assert (Hlink : URL_Path req = abs_path (tree_link_elems qs is_dir fs n)).
  { rewrite follows_link. now apply tree_link_path. }
  assert (Hjoin : path.Join [tree_file fs; tree_entry n is_dir]
                  = rel_path (fs ++ [n]))
    by (now apply Join_tree_entry).
  split; [exact Hlink|]. split; [exact Hjoin|].
  assert (Hfn : elems_ok (fs ++ [n])).
  { apply elems_ok_app. split; [exact fs_ok|].
    apply elems_ok_cons. split; [exact n_ok|reflexivity]. }
  assert (Hok : elems_ok (tree_link_elems qs is_dir fs n)).
  { apply elems_ok_app. split; [exact qs_ok|].
    apply elems_ok_cons. split; [apply tree_keyword_ok|exact Hfn]. }
  assert (Hfirst : firstn (length qs) (tree_link_elems qs is_dir fs n) = qs).
  { unfold tree_link_elems.
    rewrite firstn_app, firstn_all, Nat.sub_diag. cbn [firstn].
    apply app_nil_r. }
  assert (Hskip : skipn (length qs) (tree_link_elems qs is_dir fs n)
                  = tree_keyword is_dir :: fs ++ [n]).
  { unfold tree_link_elems.
    rewrite skipn_app, skipn_all, Nat.sub_diag. reflexivity. }
  assert (Hcur : cursor rs (tree_link_elems qs is_dir fs n) (length qs)
                 = abs_path (rs ++ qs)).
  { unfold cursor. now rewrite Hfirst. }
  assert (Hk : 1 <= length qs <= length (tree_link_elems qs is_dir fs n)).
  { unfold tree_link_elems. rewrite length_app.
    destruct qs; [contradiction|]. cbn [length]. lia. }
  assert (Hm : has_marker os_Stat
                 (cursor rs (tree_link_elems qs is_dir fs n) (length qs))
               = true).
  { rewrite Hcur. exact marker_here. }
  assert (Hs : os_Stat (cursor rs (tree_link_elems qs is_dir fs n) (length qs))
               = Some fi).
  { rewrite Hcur. exact stat_here. }
  pose proof (first_element_cases Perms os_Stat rs
                (tree_link_elems qs is_dir fs n) rs_ok Hok p_len
                fuel enough_fuel (length qs) Hk Hm none_below fi Hs permitted)
    as Hcases.
  cbv zeta in Hcases. rewrite Hcur in Hcases.
  assert (Hp : HandleWeb_p (abs_path rs) req
               = abs_path (rs ++ tree_link_elems qs is_dir fs n)).
  { unfold HandleWeb_p. rewrite Hlink. apply Join_abs_abs; assumption. }
  assert (Hrun : SplitRepository Perms os_Stat fuel (abs_path rs)
                                 (HandleWeb_p (abs_path rs) req)
                 = Some (Returned
                           (mkResult (abs_path (rs ++ qs))
                              (if is_dir then tree_file (fs ++ [n])
                               else path.Join [tree_file fs;
                                               tree_entry n is_dir])
                              (negb is_dir) StatusOK))).
  { rewrite Hp. destruct Hcases as (_ & Hblob & Htree & _).
    destruct is_dir.
    - rewrite (Htree (fs ++ [n]) Hskip). reflexivity.
    - rewrite (Hblob (fs ++ [n]) Hskip). rewrite Hjoin. reflexivity. }
  split; [exact Hrun|].
  unfold HandleWeb. cbv zeta. rewrite no_git_text, Hrun.
  cbn [status repository file isFile].
  change (StatusOK =? StatusOK)%Z with true. cbv iota.
  destruct (ShowPath req (abs_path (rs ++ qs))
              (if is_dir then tree_file (fs ++ [n])
               else path.Join [tree_file fs; tree_entry n is_dir])
              (negb is_dir) [] (Host req)) as [body st].
  cbn [fst snd]. destruct (st =? StatusOK)%Z; reflexivity.
Qed.

End TreeLinks.

Lemma X14_tree_links_lead_back_into_the_repository_witness :
  URL_Path req_link = str "/a/b/blob/src/main.go"
  /\ path.Join [str "src/"; str "main.go"] = str "src/main.go"
  /\ SplitRepository 0 fs_nested 6 (str "/srv")
                     (HandleWeb_p (str "/srv") req_link)
     = Some (Returned (mkResult (str "/srv/a/b")
                                (path.Join [str "src/"; str "main.go"])
                                true StatusOK))
  /\ HandleWeb 0 fs_nested ShowPath_echo 6 (str "/srv") req_link
     = Some (Body (str "/srv/a/b:src/main.go")).
Proof.
  refine (X14_tree_links_lead_back_into_the_repository 0 fs_nested
            ShowPath_echo
            [str "srv"] [str "a"; str "b"] [str "src"] (str "main.go") false
            eq_refl _ eq_refl _ eq_refl eq_refl req_link eq_refl eq_refl _
            6 (le_n 6) eq_refl _ (dir_info "b" (perm_bits 7 5 5))
            eq_refl eq_refl).
  - discriminate.
  - discriminate.
  - vm_compute. reflexivity.
  - intros j Hj. unfold tree_link_elems in Hj. cbn [length app] in Hj.
    revert j Hj. by_levels.
Defined.

(** The link of the file [HEAD] in a directory named [foo.git] holds
    the text [.git/]: [SplitRepository] alone would give the file view
    of [foo.git/HEAD], but [HandleWeb] takes the request for git's and
    answers 404, the path up to [.git/] not being in the filesystem. *)
Example link_into_a_directory_named_git :
  URL_Path req_link_git_name
  = MakeTreePage_link_path (str "/a/b") (str "foo.git/") (str "HEAD")
  /\ SplitRepository 0 fs_nested 6 (str "/srv")
                     (HandleWeb_p (str "/srv") req_link_git_name)
     = Some (Returned (mkResult (str "/srv/a/b") (str "foo.git/HEAD") true
                                StatusOK))
  /\ HandleWeb 0 fs_nested ShowPath_echo 6 (str "/srv") req_link_git_name
     = Some NotFoundPage.
Proof. vm_compute. repeat split. Qed.


(** ** webui.go: the loop of [MakeFilePage] *)

Lemma MakeFilePage_loop_all (Itoa : Z -> bytes) (EscapeString : bytes -> bytes)
  (ls pre : list bytes) (j : Z) (temp_html temp : bytes) :
  (j - 1 = Z.of_nat (length pre))%Z ->
  MakeFilePage_loop Itoa EscapeString (length ls) j (pre ++ ls) temp_html temp
  = Some (temp_html ++ line_divs Itoa EscapeString j ls,
          temp ++ line_anchors Itoa j ls).
Proof.
  revert pre j temp_html temp.
  induction ls as [|l ls IH]; intros pre j temp_html temp Hj.
  - cbn [length MakeFilePage_loop line_divs line_anchors].
    now rewrite !app_nil_r.
  - cbn [length MakeFilePage_loop line_divs line_anchors].
    replace (j - 1 <? 0)%Z with false by (symmetry; apply Z.ltb_ge; lia).
    rewrite Hj, Nat2Z.id.
    rewrite nth_error_app2 by lia. rewrite Nat.sub_diag. cbn [nth_error].
    replace (pre ++ l :: ls) with ((pre ++ [l]) ++ ls)
      by (now rewrite <- app_assoc).
    rewrite IH by (rewrite length_app; cbn [length]; lia).
    now rewrite <- !app_assoc.
Qed.


Lemma Index_found_or_not (s sep : bytes) :
  strings.Index s sep = (-1)%Z \/ (0 <= strings.Index s sep)%Z.
Proof.
  unfold strings.Index.
  destruct (Index_from_spec sep s 0) as [[H _]|(n & H & _)]; [now left|].
  right. lia.
Qed.

(** [strings.SplitAfter] returns one piece more than [strings.Count]
    counts. *)
Lemma genSplit_loop_length (sep : bytes) (fuel : nat) (s : bytes) :
  length (strings.genSplit_loop (strings.Count_loop fuel s sep) s sep)
  = strings.Count_loop fuel s sep + 1.
Proof.
  revert s. induction fuel as [|fuel IH]; intros s; [reflexivity|].
  cbn [strings.Count_loop]. cbv zeta.
  destruct (Index_found_or_not s sep) as [H|H].
  - rewrite H. reflexivity.
  - replace (strings.Index s sep =? -1)%Z with false
      by (symmetry; apply Z.eqb_neq; lia).
    cbn [strings.genSplit_loop]. cbv zeta.
    replace (strings.Index s sep <? 0)%Z with false
      by (symmetry; apply Z.ltb_ge; lia).
    cbn [length]. now rewrite IH.
Qed.

Lemma SplitAfter_length (s sep : bytes) :
  length (strings.SplitAfter s sep) = strings.Count s sep + 1.
Proof. apply genSplit_loop_length. Qed.

(** The pieces of [strings.SplitAfter], put together, are the string. *)
Lemma genSplit_loop_concat (sep : bytes) (n : nat) (s : bytes) :
  concat (strings.genSplit_loop n s sep) = s.
Proof.
  revert s. induction n as [|n IH]; intros s.
  - cbn. apply app_nil_r.
  - cbn [strings.genSplit_loop]. cbv zeta.
    destruct (strings.Index s sep <? 0)%Z.
    + cbn. apply app_nil_r.
    + cbn [concat]. rewrite IH. apply firstn_skipn.
Qed.

(** X15 (the file page). For a file that is not an image by its
    extension, [MakeFilePage] never reads [temp_content] out of range:
    [strings.SplitAfter] gives one piece more than the line feeds
    that [strings.Count] counts, the loop makes one [div] for each
    piece, numbered from 1, and the pieces together are the whole
    content of the file. *)
Theorem X15_file_page_shows_every_line
  (Itoa : Z -> bytes) (EscapeString EncodeToString : bytes -> bytes)
  (content file : bytes) :
  let extention := path.Ext file in
  let temp_content := strings.SplitAfter content newline in
  bytes_eqb extention (str ".png") || bytes_eqb extention (str ".jpg")
  || bytes_eqb extention (str ".jpeg") || bytes_eqb extention (str ".gif")
  = false ->
  MakeFilePage_Content Itoa EscapeString EncodeToString content file
  = Some (line_divs Itoa EscapeString 1 temp_content)
  /\ length temp_content = strings.Count content newline + 1
  /\ concat temp_content = content.
Proof.
  intros extention temp_content Hext.
  split; [|split].
  - unfold MakeFilePage_Content. cbv zeta. fold extention. rewrite Hext.
    fold temp_content.
    rewrite <- (SplitAfter_length content newline). fold temp_content.
    pose proof (MakeFilePage_loop_all Itoa EscapeString temp_content [] 1
                  [] [] eq_refl) as H.
    cbn [app] in H. rewrite H. reflexivity.
  - apply SplitAfter_length.
  - apply genSplit_loop_concat.
Qed.

Lemma X15_file_page_shows_every_line_witness :
  MakeFilePage_Content (fun _ => str "n") (fun l => l) (fun l => l)
    (str "a" ++ newline ++ str "b") (str "src/main.go")
  = Some (line_divs (fun _ => str "n") (fun l => l) 1
            [str "a" ++ newline; str "b"])
  /\ length (strings.SplitAfter (str "a" ++ newline ++ str "b") newline)
     = strings.Count (str "a" ++ newline ++ str "b") newline + 1
  /\ concat (strings.SplitAfter (str "a" ++ newline ++ str "b") newline)
     = str "a" ++ newline ++ str "b".
Proof.
  exact (X15_file_page_shows_every_line (fun _ => str "n") (fun l => l)
           (fun l => l) (str "a" ++ newline ++ str "b") (str "src/main.go")
           eq_refl).
Defined.

Lemma land_5_all_then_some (m : Z) :
  (Z.land m 5 =? 5)%Z = true -> (Z.land m 5 =? 0)%Z = false.
Proof.
  intros H. apply Z.eqb_eq in H. apply Z.eqb_neq. lia.
Qed.

(** X16 (the earlier [ShowPath]: what is listed is served). An entry
    that [ShowPath] lists in a directory page passes the test that
    guards the page of a path: for a path whose stat gives that entry,
    [ShowPath] answers neither 403 nor 404, and with [style.css] in
    place it answers 500 or a page that begins with [<html>]. *)
Theorem X16_listed_entries_are_served
  (css : bytes) (os_Stat : bytes -> option FileInfo)
  (Readdir : bytes -> option (list FileInfo)) (gitBranch : bytes -> bytes)
  (url p : bytes) (info : FileInfo) :
  ShowPath_listed info = true ->
  os_Stat p = Some info ->
  ShowPath_forbidden info = false
  /\ exists page,
       ShowPath (Some css) os_Stat Readdir gitBranch url p = Some page
       /\ page <> str "403" /\ page <> str "404"
       /\ (page = str "500"
           \/ strings.HasPrefix page (str "<html>") = true).
Proof.
  intros Hl Hs.
  assert (Hf : ShowPath_forbidden info = false).
  { unfold ShowPath_listed in Hl. unfold ShowPath_forbidden.
    apply andb_true_iff in Hl. destruct Hl as [Hl Hm].
    apply andb_true_iff in Hl. destruct Hl as [Hd Hn].
    rewrite Hd. apply negb_true_iff in Hn. rewrite Hn.
    now rewrite (land_5_all_then_some _ Hm). }
  split; [exact Hf|].
  unfold ShowPath. rewrite Hs, Hf.
  destruct (Readdir p) as [dirinfos|].
  - destruct (existsb _ dirinfos).
    + eexists. split; [reflexivity|].
      repeat split; try discriminate. right. reflexivity.
    + eexists. split; [reflexivity|].
      repeat split; try discriminate. right. reflexivity.
  - exists (str "500"). split; [reflexivity|].
    repeat split; try discriminate. now left.
Qed.

Lemma X16_listed_entries_are_served_witness :
  ShowPath_forbidden (dir_info "notes" (perm_bits 7 5 5)) = false
  /\ exists page,
       ShowPath (Some (str "body {}")) fs_listing (fun _ => Some [])
                (fun _ => str "master") (str "/pub/notes/")
                (str "/srv/pub/notes")
       = Some page
       /\ page <> str "403" /\ page <> str "404"
       /\ (page = str "500"
           \/ strings.HasPrefix page (str "<html>") = true).
Proof.
  exact (X16_listed_entries_are_served (str "body {}") fs_listing
           (fun _ => Some []) (fun _ => str "master") (str "/pub/notes/")
           (str "/srv/pub/notes") (dir_info "notes" (perm_bits 7 5 5))
           eq_refl eq_refl).
Defined.

(** The converse fails: a directory that others may read but not
    enter is served and is not listed. *)
Example served_and_not_listed :
  ShowPath_forbidden (dir_info "notes" (perm_bits 7 4 4)) = false
  /\ ShowPath_listed (dir_info "notes" (perm_bits 7 4 4)) = false.
Proof. vm_compute. split; reflexivity. Qed.
